(** * ML-OPS: the dataset registry and the model registry

    A shallow embedding of [app/services/model_service.py],
    [app/services/dataset_service.py] and of the adapters they call
    ([dvc_service.py], [minio_service.py], [clearml_service.py]), followed by
    the properties of the lifecycle orchestration.

    Conventions.
    - A Python [dict] with string keys is a [gmap string _]; the registries
      [self.models] and [self.datasets] are such maps.  Where the code walks
      a dict whose order shows, the metrics of a training, the order of its
      items is read from the world.
    - A method of a service is a computation in the monad [M S], which threads
      the service's state [S] and may raise: [S -> result A * S].  The state
      that comes back with [Raise e] is the state at the moment the exception
      left the method.
    - What a third-party system answers (uuid4, the clock, scikit-learn,
      pickle, pandas, numpy, the [dvc] executable, the MinIO client, the
      ClearML SDK)
      is read from a record of outcomes, [World] for the model service and
      [DataWorld] for the dataset service; an outcome [None] of a call that
      can raise is that call raising.  Every theorem quantifies over all such
      records. *)

From Stdlib Require Import Floats.PrimFloat Floats.SpecFloat Floats.FloatOps ZArith.
From Stdlib Require Floats.FloatAxioms.
From stdpp Require Import gmap strings list fin_maps sorting.

Set Default Proof Using "Type".
Local Open Scope string_scope.

(** ** Python values *)

(** A hyperparameter value or a cell of a parsed table. *)
Inductive pyval :=
| PyNone
| PyBool (b : bool)
| PyInt (z : Z)
| PyFloat (f : float)
| PyStr (s : string).

(** The value of one metric: a number or [None]. *)
Inductive metric :=
| MNone
| MInt (z : Z)
| MFloat (f : float).

Abbreviation hyperparams := (gmap string pyval).
Abbreviation metrics_map := (gmap string metric).

(** [bool(d)] for a dict: [len(d) != 0]. *)
Definition dict_truthy {V} (d : gmap string V) : bool :=
  negb (Nat.eqb (size d) 0).

(** [bool(s)] for an [Optional[str]]: neither [None] nor the empty string. *)
Definition str_truthy (s : option string) : bool :=
  match s with
  | Some s => negb (String.eqb s "")
  | None => false
  end.

(** [s.endswith("/")]; 47 is the code of the slash. *)
Fixpoint ends_with_slash (s : string) : bool :=
  match s with
  | EmptyString => false
  | String c EmptyString => Ascii.eqb c (Ascii.ascii_of_nat 47)
  | String _ rest => ends_with_slash rest
  end.

(** [os.path.join(dir, name)] on POSIX: an absolute [name] replaces [dir];
    otherwise a separator is put between the two unless [dir] is empty or
    ends with one. *)
Definition path_join (dir name : string) : string :=
  if String.prefix "/" name then name
  else if String.eqb dir "" || ends_with_slash dir then dir ++ name
  else dir ++ "/" ++ name.

(** ** Exceptions *)

(** The [ValueError]s the two services raise, one constructor per message. *)
Inductive value_error :=
| UnknownModelType (model_type : string)
| ModelNotFound (model_id : string)
| UnsupportedFeatures
| ModelNotLoadable (model_id : string)
| ModelNotFoundLocally (model_id : string)
| DatasetNotFound (dataset_id : string)
| DatasetNotPulled (dataset_id : string)
| UnsupportedFormat (format : string)
| TooFewColumns.

Inductive exn :=
| ValueError (e : value_error)
| AttributeError
| ExternalError (origin : string).

Inductive result (A : Type) :=
| Ok (a : A)
| Raise (e : exn).
Arguments Ok {A} a.
Arguments Raise {A} e.

(** ** The state-and-exception monad *)

Definition M (S A : Type) : Type := S → result A * S.

#[global] Instance M_ret {S} : MRet (M S) := λ A a st, (Ok a, st).

#[global] Instance M_bind {S} : MBind (M S) := λ A B f m st,
  match m st with
  | (Ok a, st') => f a st'
  | (Raise e, st') => (Raise e, st')
  end.

Definition raise {S A} (e : exn) : M S A := λ st, (Raise e, st).
Definition get {S} : M S S := λ st, (Ok st, st).
Definition gets {S A} (f : S → A) : M S A := λ st, (Ok (f st), st).
Definition modify {S} (f : S → S) : M S unit := λ st, (Ok tt, f st).

Definition lift {S A} (r : result A) : M S A := λ st, (r, st).

(** A call into third-party code: [None] is the call raising; whatever the
    class of that exception, it is none of the services' own [ValueError]s. *)
Definition external {S A} (origin : string) (o : option A) : M S A := λ st,
  match o with
  | Some a => (Ok a, st)
  | None => (Raise (ExternalError origin), st)
  end.

(** [try: m except Exception: h] *)
Definition try_except {S A} (m : M S A) (h : exn → M S A) : M S A := λ st,
  match m st with
  | (Ok a, st') => (Ok a, st')
  | (Raise e, st') => h e st'
  end.

Definition when {S} (b : bool) (m : M S unit) : M S unit :=
  if b then m else mret tt.

(** ** Records of the model registry *)

(** [created_at]: a [datetime] in memory, its ISO-8601 text in the metadata
    file.  [IsoText t] stands for [datetime.isoformat] of the instant [t]. *)
Inductive created :=
| Datetime (t : Z)
| IsoText (t : Z).

Record ModelInfo := {
  model_id : string;
  model_type : string;
  dataset_id : string;
  hyperparameters : hyperparams;
  created_at : created;
  status : string;
  model_path : option string;
  clearml_model_id : option string;
  metrics : option metrics_map;
}.

(** The content of a metadata file as a reader finds it. *)
Inductive metafile (R : Type) :=
| FileMissing
| FileCorrupt
| FileJson (data : gmap string R).
Arguments FileMissing {R}.
Arguments FileCorrupt {R}.
Arguments FileJson {R} data.

(** One call of [report_scalar(title, series, value, iteration)]. *)
Record Report := {
  title : string;
  series : string;
  value : float;
  iteration : nat;
}.

Record ModelService := {
  models : gmap string ModelInfo;
  models_dir : string;
  metadata_file : metafile ModelInfo;
  disk : gset string;
  clearml_initialized : bool;
  minio_client : bool;
  tracker_log : list Report;
  bucket : gset string;
}.

Definition set_models (f : gmap string ModelInfo → gmap string ModelInfo)
    (st : ModelService) : ModelService :=
  {| models := f (models st); models_dir := models_dir st;
     metadata_file := metadata_file st; disk := disk st;
     clearml_initialized := clearml_initialized st;
     minio_client := minio_client st; tracker_log := tracker_log st;
     bucket := bucket st |}.

Definition set_metadata_file (f : metafile ModelInfo) (st : ModelService)
    : ModelService :=
  {| models := models st; models_dir := models_dir st;
     metadata_file := f; disk := disk st;
     clearml_initialized := clearml_initialized st;
     minio_client := minio_client st; tracker_log := tracker_log st;
     bucket := bucket st |}.

Definition set_disk (f : gset string → gset string) (st : ModelService)
    : ModelService :=
  {| models := models st; models_dir := models_dir st;
     metadata_file := metadata_file st; disk := f (disk st);
     clearml_initialized := clearml_initialized st;
     minio_client := minio_client st; tracker_log := tracker_log st;
     bucket := bucket st |}.

Definition log_report (r : Report) (st : ModelService) : ModelService :=
  {| models := models st; models_dir := models_dir st;
     metadata_file := metadata_file st; disk := disk st;
     clearml_initialized := clearml_initialized st;
     minio_client := minio_client st; tracker_log := tracker_log st ++ [r];
     bucket := bucket st |}.

Definition set_bucket (f : gset string → gset string) (st : ModelService)
    : ModelService :=
  {| models := models st; models_dir := models_dir st;
     metadata_file := metadata_file st; disk := disk st;
     clearml_initialized := clearml_initialized st;
     minio_client := minio_client st; tracker_log := tracker_log st;
     bucket := f (bucket st) |}.

(** ** The estimators of [app.models]

    [LinearModel] and [RandomForestModel] are built from a hyperparameter
    dict.  Their [train], [save], [load] and [predict] run scikit-learn and
    pickle; the outcomes are read from the [World].  A constructor keeps the
    dict it is given and does not write to it. *)
Inductive BaseMLModel :=
| LinearModel (hp : hyperparams)
| RandomForestModel (hp : hyperparams).

(** One element of the [features] argument of [predict]. *)
Inductive sample :=
| Row (xs : list float)
| Rec (d : gmap string float)
| Scalar (v : pyval).

(** What [OutputModel(...).get_weights(local_path)] did. *)
Inductive weights :=
| WeightsRaised
| WeightsReturned (written : bool).

Record World := {
  uuid4 : string;
  now : Z;
  (** [Task.init] and the calls around it, inside [create_experiment] *)
  task_init : option string;
  (** the same inside the second call of [create_experiment], which
      [clearml_service.save_model] makes when it is handed no task *)
  task_retry : option string;
  (** [model.train(X, y)] *)
  fit : BaseMLModel → list (list float) → list float → option metrics_map;
  (** [metrics.items()]: the entries of the dict the training returned in
      its insertion order, which a [gmap] does not record *)
  dict_items : metrics_map → list (string * metric);
  (** [model.save(path)] *)
  pickle_dump : BaseMLModel → string → option unit;
  (** [OutputModel.update_weights] and the calls around it, inside
      [clearml_service.save_model] *)
  register_artifact : string → option string;
  (** [client.put_object(...)] and the [open]/[os.stat] before it *)
  put_object : string → option unit;
  (** [OutputModel(model_id=...).get_weights(...)] *)
  get_weights : string → weights;
  (** [model.load(path)] followed by [model.predict(X)] *)
  load_predict : BaseMLModel → string → list sample → option (list float);
}.

(** ** [clearml_service.py]: the experiment tracker *)

(** [create_experiment]: [None] unless the service is initialised; every
    exception of the SDK is caught and turned into [None].  The hyperparameter
    dict handed to [task.connect] is read by the SDK, not written. *)
Definition create_experiment (w : World) (initialized : bool) : option string :=
  if initialized then task_init w else None.

(** The call of [create_experiment] inside [save_model], made after the one
    of [train_model] gave no task: it may end otherwise than the first. *)
Definition create_experiment_again (w : World) (initialized : bool)
    : option string :=
  if initialized then task_retry w else None.

(** The guard both reporting loops use:
    [value is not None and not (isinstance(value, float) and
     (value != value or value == float('inf')))]. *)
Definition reportable (v : metric) : bool :=
  match v with
  | MNone => false
  | MInt _ => true
  | MFloat f => negb (negb (f =? f)%float || (f =? infinity)%float)
  end.

(** [float(value)] of a metric that passed the guard.  An [int] is rounded
    to the nearest float, ties to even.  An [int] beyond the range of floats,
    for which [float] raises [OverflowError], is outside the metrics
    modelled; [None] does not pass the guard. *)
Definition to_float (v : metric) : float :=
  match v with
  | MFloat f => f
  | MInt z => SF2Prim (binary_normalize prec emax z 0 false)
  | MNone => nan
  end.

(** [for name, value in metrics.items():
       if ...: report_scalar(title, series=name, value=float(value), ...)],
    over the items in the order of the dict. *)
Definition report_metrics (ttl : string) (it : nat)
    (items : list (string * metric)) : M ModelService unit :=
  modify (λ st,
    foldl (λ acc kv,
             if reportable kv.2
             then log_report {| title := ttl; series := kv.1;
                                value := to_float kv.2; iteration := it |} acc
             else acc)
          st items).

(** [save_model]: registers the pickled file with the tracker and returns the
    tracker's id of it, or [None]. *)
Definition clearml_save_model (w : World) (model_path : string)
    (ms : metrics_map) (task : option string)
    : M ModelService (option string) :=
  initialized ← gets clearml_initialized;
  if negb initialized then mret None else
  match (if task is Some t then Some t
         else create_experiment_again w initialized) with
  | None => mret None
  | Some _ =>
      when (dict_truthy ms)
        (report_metrics "Final Metrics" 2 (dict_items w ms));;
      present ← gets (λ st : ModelService, bool_decide (model_path ∈ disk st));
      if (present : bool) then mret (register_artifact w model_path) else mret None
  end.

(** [load_model]: fetches the registered file to
    [<models_dir>/<model_id>_clearml.pkl] and returns that path, or [None]. *)
Definition clearml_load_model (w : World) (cid : option string)
    (mid : string) : M ModelService (option string) :=
  initialized ← gets clearml_initialized;
  match cid with
  | Some c =>
      if negb initialized then mret None else
      dir ← gets models_dir;
      let local_path := path_join dir (mid ++ "_clearml.pkl") in
      match get_weights w c with
      | WeightsReturned written =>
          when written (modify (set_disk (λ d, {[local_path]} ∪ d)));;
          mret (Some local_path)
      | WeightsRaised => mret None
      end
  | None => mret None
  end.

(** ** [model_service.py] *)

Definition get_available_model_types : list string :=
  ["linear"; "random_forest"].

Definition create_model (mt : string) (hp : hyperparams) : result BaseMLModel :=
  if String.eqb mt "linear" then Ok (LinearModel hp)
  else if String.eqb mt "random_forest" then Ok (RandomForestModel hp)
  else Raise (ValueError (UnknownModelType mt)).

(** [info.copy()] with [created_at] turned into its ISO text. *)
Definition to_json (info : ModelInfo) : ModelInfo :=
  {| model_id := model_id info; model_type := model_type info;
     dataset_id := dataset_id info; hyperparameters := hyperparameters info;
     created_at := match created_at info with
                   | Datetime t => IsoText t
                   | c => c
                   end;
     status := status info; model_path := model_path info;
     clearml_model_id := clearml_model_id info; metrics := metrics info |}.

(** [_save_model_metadata(model_id)]: the selected records are merged into
    what the file holds and the file is rewritten.  Any exception (here: the
    file does not parse) is logged as a warning and swallowed. *)
Definition _save_model_metadata (mid : option string) : M ModelService unit :=
  try_except
    (st ← get;
     let data :=
       to_json <$> filter (λ kv, mid = None ∨ mid = Some kv.1) (models st) in
     all_data ← match metadata_file st with
                | FileMissing => mret ∅
                | FileJson d => mret d
                | FileCorrupt => raise (ExternalError "json.load")
                end;
     modify (set_metadata_file (FileJson (data ∪ all_data))))
    (λ _, mret tt).

(** [_save_model_to_minio]: skipped without a client; otherwise the upload
    runs inside [try: ... except Exception as e: logger.error(...); raise]. *)
Definition _save_model_to_minio (w : World) (mid model_path : string)
    : M ModelService unit :=
  client ← gets minio_client;
  if negb client then mret tt else
  let object_name := "models/" ++ mid ++ ".pkl" in
  try_except
    (external "put_object" (put_object w model_path);;
     modify (set_bucket (λ b, {[object_name]} ∪ b)))
    (λ e, raise e).

(** The filter of [train_model] on the metrics:
    a [float] is kept unless [math.isnan] or [math.isinf]; any other value is
    kept unless it is [None]. *)
Definition keep_metric (v : metric) : bool :=
  match v with
  | MFloat f => if is_nan f || is_infinity f then false else true
  | MInt _ => true
  | MNone => false
  end.

Definition clean_metrics (ms : metrics_map) : metrics_map :=
  if dict_truthy ms then
    map_fold (λ key v clean, if keep_metric v then <[key:=v]> clean else clean)
             ∅ ms
  else ∅.

Definition train_model (w : World) (mt ds : string) (hp : hyperparams)
    (X : list (list float)) (y : list float) : M ModelService string :=
  let mid := uuid4 w in
  initialized ← gets clearml_initialized;
  task ← (if (initialized : bool) then
            let task := create_experiment w initialized in
            when (bool_decide (is_Some task))
              (modify (log_report {| title := "Training Progress";
                                     series := "status";
                                     value := 0; iteration := 0 |}));;
            mret task
          else mret None);
  model ← lift (create_model mt hp);
  ms ← external "train" (fit w model X y);
  when (bool_decide (is_Some task))
    (report_metrics "Training Metrics" 1 (dict_items w ms));;
  dir ← gets models_dir;
  let path := path_join dir (mid ++ ".pkl") in
  external "save" (pickle_dump w model path);;
  modify (set_disk (λ d, {[path]} ∪ d));;
  cid ← clearml_save_model w path ms task;
  _save_model_to_minio w mid path;;
  let clean := clean_metrics ms in
  modify (set_models (λ m,
    <[mid := {| model_id := mid; model_type := mt; dataset_id := ds;
                hyperparameters := hp; created_at := Datetime (now w);
                status := "trained"; model_path := Some path;
                clearml_model_id := cid;
                metrics := if dict_truthy clean then Some clean else None |}]>
    m));;
  _save_model_metadata (Some mid);;
  mret mid.

Definition get_model (mid : string) (st : ModelService) : option ModelInfo :=
  models st !! mid.

(** [keys.sort()] orders [str] keys by code point, which on UTF-8 text is the
    byte-wise order of [String.leb]. *)
Definition str_le : relation string := λ a b, String.leb a b.

Definition sorted_keys (d : gmap string float) : list string :=
  merge_sort str_le (map_to_list d).*1.

(** [[float(item.get(key, 0.0)) for key in keys]]: [item.get] is called once
    per key, so a sample that is not a dict raises [AttributeError] at the
    first key, and with no key nothing is called and the row is empty. *)
Definition project (keys : list string) (item : sample) : result sample :=
  match item with
  | Rec d => Ok (Row ((λ key, default 0%float (d !! key)) <$> keys))
  | _ => if keys is [] then Ok (Row []) else Raise AttributeError
  end.

Fixpoint project_all (keys : list string) (items : list sample)
    : result (list sample) :=
  match items with
  | [] => Ok []
  | item :: items =>
      match project keys item with
      | Ok r =>
          match project_all keys items with
          | Ok rs => Ok (r :: rs)
          | Raise e => Raise e
          end
      | Raise e => Raise e
      end
  end.

Definition _convert_features_to_list (features : list sample)
    : result (list sample) :=
  match features with
  | [] => Ok []
  | Row _ :: _ => Ok features
  | Rec d :: _ => project_all (sorted_keys d) features
  | Scalar _ :: _ => Raise (ValueError UnsupportedFeatures)
  end.

(** [model_path and os.path.exists(model_path)] *)
Definition existing (p : option string) (st : ModelService) : option string :=
  match p with
  | Some q =>
      if negb (String.eqb q "") && bool_decide (q ∈ disk st)
      then Some q else None
  | None => None
  end.

Definition predict (w : World) (mid : string) (features : list sample)
    : M ModelService (list float) :=
  model_info ← gets (λ st : ModelService, models st !! mid);
  match model_info with
  | None => raise (ValueError (ModelNotFound mid))
  | Some info =>
      X ← lift (_convert_features_to_list features);
      model ← lift (create_model (model_type info) (hyperparameters info));
      let cid := clearml_model_id info in
      if str_truthy cid then
        fetched ← clearml_load_model w cid mid;
        remote ← gets (existing fetched);
        match remote with
        | Some p => external "load" (load_predict w model p X)
        | None =>
            local ← gets (existing (model_path info));
            match local with
            | Some p => external "load" (load_predict w model p X)
            | None => raise (ValueError (ModelNotLoadable mid))
            end
        end
      else
        local ← gets (existing (model_path info));
        match local with
        | Some p => external "load" (load_predict w model p X)
        | None => raise (ValueError (ModelNotFoundLocally mid))
        end
  end.

Definition retrain_model (w : World) (mid ds : string)
    (hp : option hyperparams) (X : list (list float)) (y : list float)
    : M ModelService string :=
  old_model_info ← gets (λ st : ModelService, models st !! mid);
  match old_model_info with
  | None => raise (ValueError (ModelNotFound mid))
  | Some old =>
      let new_hyperparameters :=
        match hp with
        | Some h => if dict_truthy h then h else hyperparameters old
        | None => hyperparameters old
        end in
      train_model w (model_type old) ds new_hyperparameters X y
  end.

Definition delete_model (mid : string) : M ModelService bool :=
  model_info ← gets (λ st : ModelService, models st !! mid);
  match model_info with
  | None => mret false
  | Some info =>
      path ← gets (existing (model_path info));
      (if path is Some p then modify (set_disk (λ d, d ∖ {[p]})) else mret tt);;
      modify (set_models (delete mid));;
      mret true
  end.

(** ** [dvc_service.py] and [dataset_service.py] *)

Module Dataset.

Record DatasetInfo := {
  dataset_id : string;
  file_name : string;
  filepath : string;
  format : string;
  size : nat;
  created_at : created;
  dvc_version : option string;
}.

(** A parsed table: [df.columns] and the cells of the table row by row, each
    cell as pandas holds it in its column. *)
Record DataFrame := {
  columns : list string;
  cells : list (list pyval);
}.

(** How [subprocess.run(..., check=True)] ended: the command exited with
    status 0, it exited with another status, or it could not be started
    (no such executable: [FileNotFoundError], an [OSError]). *)
Inductive proc (A : Type) :=
| Exit0 (a : A)
| CalledProcessError
| OSError.
Arguments Exit0 {A} a.
Arguments CalledProcessError {A}.
Arguments OSError {A}.

Record DataWorld := {
  uuid4 : string;
  now : Z;
  (** [dvc add <path>]; on success, the text of the sidecar [<path>.dvc] it
      wrote, if it wrote one *)
  dvc_add : string → proc (option string);
  (** [yaml.safe_load] of a sidecar and [outs[0].get("md5", "")]; [None] when
      any step of that fails or there is no [outs] entry *)
  outs_md5 : string → option string;
  (** [dvc push -r <remote> <path>] *)
  dvc_push : string → proc unit;
  (** [dvc pull -r <remote> <path>]; on success, the content it restored at
      [<path>], if any *)
  dvc_pull : string → proc (option string);
  (** [pd.read_csv] and [pd.read_json] on the content of a file *)
  read_csv : string → option DataFrame;
  read_json : string → option DataFrame;
  (** What [.values.tolist()] makes of one cell of a block of cells (some
      columns of a frame, or one column): numpy holds the block in one dtype
      common to its columns, so a cell comes back converted to that dtype and
      then to a Python object; an [int] among [float] columns comes back as
      a [float]. *)
  numpy_cell : list (list pyval) → pyval → pyval;
}.

Record DatasetService := {
  datasets : gmap string DatasetInfo;
  datasets_dir : string;
  metadata_file : metafile DatasetInfo;
  disk : gmap string string;
}.

Definition set_datasets
    (f : gmap string DatasetInfo → gmap string DatasetInfo)
    (st : DatasetService) : DatasetService :=
  {| datasets := f (datasets st); datasets_dir := datasets_dir st;
     metadata_file := metadata_file st; disk := disk st |}.

Definition set_metadata_file (f : metafile DatasetInfo) (st : DatasetService)
    : DatasetService :=
  {| datasets := datasets st; datasets_dir := datasets_dir st;
     metadata_file := f; disk := disk st |}.

Definition set_disk (f : gmap string string → gmap string string)
    (st : DatasetService) : DatasetService :=
  {| datasets := datasets st; datasets_dir := datasets_dir st;
     metadata_file := metadata_file st; disk := f (disk st) |}.

(** [add_dataset]: the version token is the first 16 characters of the md5 the
    sidecar records.  Only [CalledProcessError] is caught around [dvc add]. *)
Definition add_dataset (w : DataWorld) (path : string)
    : M DatasetService (option string) :=
  match dvc_add w path with
  | Exit0 sidecar =>
      let dvc_file := path ++ ".dvc" in
      (if sidecar is Some text
       then modify (set_disk <[dvc_file := text]>) else mret tt);;
      written ← gets (λ st : DatasetService, disk st !! dvc_file);
      match written with
      | Some text =>
          match outs_md5 w text with
          | Some md5_hash =>
              if negb (String.eqb md5_hash "")
              then mret (Some (String.substring 0 16 md5_hash))
              else mret None
          | None => mret None
          end
      | None => mret None
      end
  | CalledProcessError => mret None
  | OSError => raise (ExternalError "subprocess.run")
  end.

(** [push_dataset]: [CalledProcessError] and then every other [Exception] are
    caught. *)
Definition push_dataset (w : DataWorld) (path : string)
    : M DatasetService bool :=
  match dvc_push w path with
  | Exit0 _ => mret true
  | CalledProcessError => mret false
  | OSError => mret false
  end.

(** [pull_dataset]: only [CalledProcessError] is caught. *)
Definition pull_dataset (w : DataWorld) (path : string)
    : M DatasetService bool :=
  match dvc_pull w path with
  | Exit0 restored =>
      (if restored is Some content
       then modify (set_disk <[path := content]>) else mret tt);;
      mret true
  | CalledProcessError => mret false
  | OSError => raise (ExternalError "subprocess.run")
  end.

Definition to_json (info : DatasetInfo) : DatasetInfo :=
  {| dataset_id := dataset_id info; file_name := file_name info;
     filepath := filepath info; format := format info; size := size info;
     created_at := match created_at info with
                   | Datetime t => IsoText t
                   | c => c
                   end;
     dvc_version := dvc_version info |}.

(** [_save_metadata_to_file]: the whole registry replaces the file. *)
Definition _save_metadata_to_file : M DatasetService unit :=
  st ← get;
  modify (set_metadata_file (FileJson (to_json <$> datasets st))).

Definition upload_dataset (w : DataWorld) (name content fmt : string)
    : M DatasetService string :=
  let id := uuid4 w in
  dir ← gets datasets_dir;
  let path := path_join dir (id ++ "." ++ fmt) in
  modify (set_disk <[path := content]>);;
  file_size ← gets (λ st : DatasetService,
                      from_option String.length 0 (disk st !! path));
  version ← add_dataset w path;
  push_dataset w path;;
  modify (set_datasets
    <[id := {| dataset_id := id; file_name := name; filepath := path;
               format := fmt; size := file_size;
               created_at := Datetime (now w); dvc_version := version |}]>);;
  _save_metadata_to_file;;
  mret id.

Definition get_dataset (id : string) (st : DatasetService)
    : option DatasetInfo :=
  datasets st !! id.

(** [pd.read_csv(filepath)] or [pd.read_json(filepath)] *)
Definition pd_read (parse : string → option DataFrame) (path : string)
    : M DatasetService DataFrame :=
  content ← gets (λ st : DatasetService, disk st !! path);
  match content with
  | Some c => external "pandas" (parse c)
  | None => raise (ExternalError "FileNotFoundError")
  end.

(** [df.iloc[:, :-1]]: the cells of every column but the last. *)
Definition iloc_features (df : DataFrame) : list (list pyval) :=
  take (length (columns df) - 1) <$> cells df.

(** [df.iloc[:, -1]]: the cells of the last column. *)
Definition iloc_target (df : DataFrame) : list pyval :=
  (λ row, default PyNone (row !! (length (columns df) - 1)%nat)) <$> cells df.

(** [frame.values.tolist()] *)
Definition values_tolist (w : DataWorld) (block : list (list pyval))
    : list (list pyval) :=
  (λ row : list pyval, numpy_cell w block <$> row) <$> block.

(** [column.values.tolist()] *)
Definition column_tolist (w : DataWorld) (column : list pyval) : list pyval :=
  numpy_cell w ((λ c, [c]) <$> column) <$> column.

Definition load_dataset (w : DataWorld) (id : string)
    : M DatasetService (list (list pyval) * list pyval) :=
  dataset_info ← gets (λ st : DatasetService, datasets st !! id);
  match dataset_info with
  | None => raise (ValueError (DatasetNotFound id))
  | Some info =>
      let path := filepath info in
      present ← gets (λ st : DatasetService,
                        bool_decide (is_Some (disk st !! path)));
      (if (present : bool) then mret tt else
         pulled ← pull_dataset w path;
         if (pulled : bool) then mret tt
         else raise (ValueError (DatasetNotPulled id)));;
      df ← (if String.eqb (format info) "csv" then pd_read (read_csv w) path
            else if String.eqb (format info) "json"
                 then pd_read (read_json w) path
                 else raise (ValueError (UnsupportedFormat (format info))));
      let n := length (columns df) in
      if (n <? 2)%nat then raise (ValueError TooFewColumns) else
      let X := values_tolist w (iloc_features df) in
      let y := column_tolist w (iloc_target df) in
      mret (X, y)
  end.

Definition delete_dataset (id : string) : M DatasetService bool :=
  dataset_info ← gets (λ st : DatasetService, datasets st !! id);
  match dataset_info with
  | None => mret false
  | Some info =>
      let path := filepath info in
      modify (set_disk (delete path));;
      modify (set_disk (delete (path ++ ".dvc")));;
      modify (set_datasets (delete id));;
      _save_metadata_to_file;;
      mret true
  end.

End Dataset.

(** * Vocabulary of the statements *)

(** What a step leaves alone: the registry, its file and the configuration. *)
Record frame (st st' : ModelService) : Prop := {
  frame_models : models st' = models st;
  frame_file : metadata_file st' = metadata_file st;
  frame_dir : models_dir st' = models_dir st;
  frame_clearml : clearml_initialized st' = clearml_initialized st;
  frame_minio : minio_client st' = minio_client st;
}.

(** The metadata file after [_save_model_metadata(model_id)] when the registry
    holds [info] under [model_id]. *)
Definition merged (mid : string) (info : ModelInfo) (f : metafile ModelInfo)
    : metafile ModelInfo :=
  match f with
  | FileMissing => FileJson {[mid := to_json info]}
  | FileJson d => FileJson (<[mid := to_json info]> d)
  | FileCorrupt => FileCorrupt
  end.

(** The record [train_model] stores under the id it allocated. *)
Definition trained_record (w : World) (mt ds : string) (hp : hyperparams)
    (dir : string) (cid : option string) (ms : metrics_map) : ModelInfo :=
  {| model_id := uuid4 w; model_type := mt; dataset_id := ds;
     hyperparameters := hp; created_at := Datetime (now w);
     status := "trained";
     model_path := Some (path_join dir (uuid4 w ++ ".pkl"));
     clearml_model_id := cid;
     metrics := if dict_truthy (clean_metrics ms)
                then Some (clean_metrics ms) else None |}.

(** The state in which a successful [train_model] ends: [st1] with the new
    record stored and merged into the metadata file. *)
Definition committed (mid : string) (info : ModelInfo) (st1 : ModelService)
    : ModelService :=
  set_metadata_file (merged mid info (metadata_file st1))
    (set_models <[mid := info]> st1).

(** A number that is neither NaN nor infinite. *)
Definition finite_metric (v : metric) : Prop :=
  match v with
  | MFloat f => is_nan f = false ∧ is_infinity f = false
  | MInt _ => True
  | MNone => False
  end.

(** [info["metrics"][key]], absent when there is no mapping or no such key. *)
Definition stored_metric (info : ModelInfo) (key : string) : option metric :=
  ms ← metrics info; ms !! key.

(** Strictly increasing in the order of [keys.sort()]. *)
Definition str_lt : relation string := λ a b, String.ltb a b.

(** [records] projected onto the key order [ks], a missing key read as 0.0:
    the matrix of the specification. *)
Definition projection (ks : list string) (records : list (gmap string float))
    : list (list float) :=
  (λ r, (λ key, default 0%float (r !! key)) <$> ks) <$> records.

(** The content [load_dataset] parses and the state it parses it in: the
    local file, or else the file a successful [dvc pull] restored. *)
Definition located (w : Dataset.DataWorld) (path : string)
    (st : Dataset.DatasetService) : option (string * Dataset.DatasetService) :=
  match Dataset.disk st !! path with
  | Some content => Some (content, st)
  | None =>
      match Dataset.dvc_pull w path with
      | Dataset.Exit0 (Some content) =>
          Some (content, Dataset.set_disk <[path := content]> st)
      | _ => None
      end
  end.

(** The table pandas makes of [content] under a supported format tag. *)
Definition parsed (w : Dataset.DataWorld) (fmt content : string)
    : option Dataset.DataFrame :=
  if String.eqb fmt "csv" then Dataset.read_csv w content
  else if String.eqb fmt "json" then Dataset.read_json w content
  else None.

(** The record [upload_dataset] stores. *)
Definition uploaded_record (w : Dataset.DataWorld) (name content fmt dir : string)
    (version : option string) : Dataset.DatasetInfo :=
  {| Dataset.dataset_id := Dataset.uuid4 w; Dataset.file_name := name;
     Dataset.filepath := path_join dir (Dataset.uuid4 w ++ "." ++ fmt);
     Dataset.format := fmt; Dataset.size := String.length content;
     Dataset.created_at := Datetime (Dataset.now w);
     Dataset.dvc_version := version |}.

(** * A concrete deployment

    A registry holding one linear model and one with a tracker reference, a
    world in which every third-party call succeeds, and variations of both;
    the statements below are instantiated on them. *)

Definition demo_metrics : metrics_map :=
  <["r2_score" := MFloat nan]>
    (<["mae" := MFloat 0.5]> (<["mse" := MFloat infinity]> ∅)).

Definition demo_world : World :=
  {| uuid4 := "m2"; now := 7; task_init := Some "t1"; task_retry := None;
     fit := λ _ _ _, Some demo_metrics;
     dict_items := λ ms,
       omap (λ key, (key,.) <$> ms !! key) ["mse"; "mae"; "r2_score"];
     pickle_dump := λ _ _, Some tt;
     register_artifact := λ _, Some "c2";
     put_object := λ _, Some tt;
     get_weights := λ _, WeightsReturned false;
     load_predict := λ _ _ X,
       Some ((λ s, match s with Row (x :: _) => x | _ => 0%float end) <$> X) |}.

(** The same world with an artifact store that refuses the upload. *)
Definition demo_world_store_down : World :=
  {| uuid4 := uuid4 demo_world; now := now demo_world;
     task_init := task_init demo_world; task_retry := task_retry demo_world;
     fit := fit demo_world; dict_items := dict_items demo_world;
     pickle_dump := pickle_dump demo_world;
     register_artifact := register_artifact demo_world;
     put_object := λ _, None;
     get_weights := get_weights demo_world;
     load_predict := load_predict demo_world |}.

Definition demo_old : ModelInfo :=
  {| model_id := "m1"; model_type := "linear"; dataset_id := "d1";
     hyperparameters := {["alpha" := PyFloat 0.5]};
     created_at := Datetime 3; status := "trained";
     model_path := Some "models/m1.pkl"; clearml_model_id := None;
     metrics := None |}.

Definition demo_tracked : ModelInfo :=
  {| model_id := "m0"; model_type := "random_forest"; dataset_id := "d1";
     hyperparameters := ∅; created_at := Datetime 2; status := "trained";
     model_path := Some "models/m0.pkl"; clearml_model_id := Some "c0";
     metrics := None |}.

Definition demo_service : ModelService :=
  {| models := <["m0" := demo_tracked]> {["m1" := demo_old]};
     models_dir := "models";
     metadata_file :=
       FileJson (<["m0" := to_json demo_tracked]> {["m1" := to_json demo_old]});
     disk := {["models/m1.pkl"; "models/m0.pkl"]};
     clearml_initialized := true; minio_client := true;
     tracker_log := []; bucket := ∅ |}.

(** The same service without an artifact-store client. *)
Definition demo_service_no_client : ModelService :=
  {| models := models demo_service; models_dir := models_dir demo_service;
     metadata_file := metadata_file demo_service; disk := disk demo_service;
     clearml_initialized := clearml_initialized demo_service;
     minio_client := false; tracker_log := tracker_log demo_service;
     bucket := bucket demo_service |}.

Definition demo_trained : ModelService :=
  (train_model demo_world "linear" "d1" ∅ [] [] demo_service).2.

Definition demo_retrained : ModelService :=
  (retrain_model demo_world "m1" "d2" None [] [] demo_service).2.

Definition demo_first : gmap string float :=
  <["b" := 2%float]> {["a" := 1%float]}.

Definition demo_second : gmap string float :=
  <["c" := 9%float]> {["a" := 5%float]}.

Definition demo_table : Dataset.DataFrame :=
  {| Dataset.columns := ["x1"; "x2"; "y"];
     Dataset.cells := [[PyInt 1; PyFloat 2.5; PyInt 3];
                       [PyInt 4; PyFloat 5.5; PyInt 6]] |}.

Definition demo_narrow_table : Dataset.DataFrame :=
  {| Dataset.columns := ["y"]; Dataset.cells := [[PyInt 1]] |}.

(** A conversion for the concrete worlds: a block that holds a [float] is
    held as floats, so its [int] cells become floats; any other block comes
    back as it is. *)
Definition demo_numpy_cell (block : list (list pyval)) (c : pyval) : pyval :=
  if existsb (λ c, if c is PyFloat _ then true else false) (concat block)
  then match c with
       | PyInt z => PyFloat (SF2Prim (binary_normalize prec emax z 0 false))
       | _ => c
       end
  else c.

Definition demo_data_world : Dataset.DataWorld :=
  {| Dataset.uuid4 := "d9"; Dataset.now := 11;
     Dataset.dvc_add := λ _, Dataset.Exit0 (Some "outs: [md5: 0123456789abcdef0123]");
     Dataset.outs_md5 := λ _, Some "0123456789abcdef0123";
     Dataset.dvc_push := λ _, Dataset.Exit0 tt;
     Dataset.dvc_pull := λ _, Dataset.CalledProcessError;
     Dataset.read_csv := λ _, Some demo_table;
     Dataset.read_json := λ _, Some demo_narrow_table;
     Dataset.numpy_cell := demo_numpy_cell |}.

(** The same world on a host where the [dvc] executable is not installed. *)
Definition demo_data_world_no_dvc : Dataset.DataWorld :=
  {| Dataset.uuid4 := Dataset.uuid4 demo_data_world;
     Dataset.now := Dataset.now demo_data_world;
     Dataset.dvc_add := λ _, Dataset.OSError;
     Dataset.outs_md5 := Dataset.outs_md5 demo_data_world;
     Dataset.dvc_push := λ _, Dataset.OSError;
     Dataset.dvc_pull := λ _, Dataset.OSError;
     Dataset.read_csv := Dataset.read_csv demo_data_world;
     Dataset.read_json := Dataset.read_json demo_data_world;
     Dataset.numpy_cell := Dataset.numpy_cell demo_data_world |}.

Definition demo_csv : Dataset.DatasetInfo :=
  {| Dataset.dataset_id := "d1"; Dataset.file_name := "train.csv";
     Dataset.filepath := "data/d1.csv"; Dataset.format := "csv";
     Dataset.size := 20; Dataset.created_at := Datetime 1;
     Dataset.dvc_version := None |}.

Definition demo_json : Dataset.DatasetInfo :=
  {| Dataset.dataset_id := "d2"; Dataset.file_name := "narrow.json";
     Dataset.filepath := "data/d2.json"; Dataset.format := "json";
     Dataset.size := 9; Dataset.created_at := Datetime 1;
     Dataset.dvc_version := None |}.

Definition demo_datasets : Dataset.DatasetService :=
  {| Dataset.datasets := <["d2" := demo_json]> {["d1" := demo_csv]};
     Dataset.datasets_dir := "data";
     Dataset.metadata_file :=
       FileJson (<["d2" := Dataset.to_json demo_json]>
                   {["d1" := Dataset.to_json demo_csv]});
     Dataset.disk :=
       <["data/d2.json" := "[[1]]"]> {["data/d1.csv" := "x1,x2,y"]} |}.

(** * Starting the services

    [ModelService.__init__] and [DatasetService.__init__] begin with an empty
    registry and fill it from what an earlier process left on disk. *)

(** [datetime.fromisoformat] gives back the instant whose [isoformat] text it
    reads.  A [created_at] that is not a [str] is left as it is.  The loaders
    put [datetime.now()] where [fromisoformat] rejects the text; [created] has
    no such text. *)
Definition decode_created (c : created) : created :=
  match c with
  | IsoText t => Datetime t
  | c => c
  end.

Definition model_from_json (info : ModelInfo) : ModelInfo :=
  {| model_id := model_id info; model_type := model_type info;
     dataset_id := dataset_id info; hyperparameters := hyperparameters info;
     created_at := decode_created (created_at info);
     status := status info; model_path := model_path info;
     clearml_model_id := clearml_model_id info; metrics := metrics info |}.

Definition dataset_from_json (info : Dataset.DatasetInfo) : Dataset.DatasetInfo :=
  {| Dataset.dataset_id := Dataset.dataset_id info;
     Dataset.file_name := Dataset.file_name info;
     Dataset.filepath := Dataset.filepath info;
     Dataset.format := Dataset.format info;
     Dataset.size := Dataset.size info;
     Dataset.created_at := decode_created (Dataset.created_at info);
     Dataset.dvc_version := Dataset.dvc_version info |}.

(** [s.endswith(suffix)] *)
Definition ends_with (suffix s : string) : bool :=
  (String.length suffix <=? String.length s)%nat &&
  String.eqb
    (String.substring (String.length s - String.length suffix)
       (String.length suffix) s)
    suffix.

(** [s[:-n]] for a positive [n] *)
Definition drop_last (n : nat) (s : string) : string :=
  String.substring 0 (String.length s - n) s.

(** What the file system answers at start: [os.listdir(models_dir)], [None]
    when the directory does not exist, and [os.path.getmtime]. *)
Record Boot := {
  listdir : option (list string);
  getmtime : string → Z;
}.

(** The record made for a pickle file that has no metadata. *)
Definition placeholder (boot : Boot) (dir file_name mid : string) : ModelInfo :=
  {| model_id := mid; model_type := "linear"; dataset_id := "unknown";
     hyperparameters := ∅;
     created_at := Datetime (getmtime boot (path_join dir file_name));
     status := "trained"; model_path := Some (path_join dir file_name);
     clearml_model_id := None; metrics := None |}.

(** The body of [for file_name in os.listdir(self.models_dir)]. *)
Definition adopt (boot : Boot) (dir : string) (ms : gmap string ModelInfo)
    (file_name : string) : gmap string ModelInfo :=
  if ends_with ".pkl" file_name && negb (String.eqb file_name ".gitkeep") then
    let mid := drop_last 4 file_name in
    match ms !! mid with
    | Some _ => ms
    | None => <[mid := placeholder boot dir file_name mid]> ms
    end
  else ms.

(** [_load_models_from_disk]: the records of the metadata file, then a
    placeholder for every other [.pkl] file of the directory.  A metadata file
    that does not parse is logged and passed over. *)
Definition _load_models_from_disk (boot : Boot) : M ModelService unit :=
  file ← gets metadata_file;
  match file with
  | FileJson data =>
      modify (set_models (λ ms,
        map_fold (λ mid info ms, <[mid := model_from_json info]> ms) ms data))
  | FileCorrupt => mret tt
  | FileMissing => mret tt
  end;;
  dir ← gets models_dir;
  match listdir boot with
  | Some names => modify (set_models (λ ms, foldl (adopt boot dir) ms names))
  | None => mret tt
  end.

(** [ModelService()] built on what [st] left behind: the registry starts
    empty and is loaded from the directory; files, metadata file and remote
    systems are those of [st]. *)
Definition restart (boot : Boot) (st : ModelService) : ModelService :=
  (_load_models_from_disk boot (set_models (λ _, ∅) st)).2.

(** [_load_metadata_from_file] of the dataset service. *)
Definition _load_metadata_from_file : M Dataset.DatasetService unit :=
  file ← gets Dataset.metadata_file;
  match file with
  | FileJson data =>
      modify (Dataset.set_datasets (λ ds,
        map_fold (λ id info ds, <[id := dataset_from_json info]> ds) ds data))
  | FileCorrupt => mret tt
  | FileMissing => mret tt
  end.

(** [DatasetService()] built on what [st] left behind;
    [_load_datasets_from_minio] is [pass]. *)
Definition dataset_restart (st : Dataset.DatasetService)
    : Dataset.DatasetService :=
  (_load_metadata_from_file (Dataset.set_datasets (λ _, ∅) st)).2.

(** * Sequences of calls *)

(** One call a client makes on the model service, with what the third-party
    systems answer during it. *)
Inductive model_call :=
| CallTrain (w : World) (mt ds : string) (hp : hyperparams)
    (X : list (list float)) (y : list float)
| CallRetrain (w : World) (mid ds : string) (hp : option hyperparams)
    (X : list (list float)) (y : list float)
| CallPredict (w : World) (mid : string) (features : list sample)
| CallDelete (mid : string).

(** The state a call leaves, whether it returned or raised. *)
Definition after_call (st : ModelService) (c : model_call) : ModelService :=
  match c with
  | CallTrain w mt ds hp X y => (train_model w mt ds hp X y st).2
  | CallRetrain w mid ds hp X y => (retrain_model w mid ds hp X y st).2
  | CallPredict w mid features => (predict w mid features st).2
  | CallDelete mid => (delete_model mid st).2
  end.

Inductive dataset_call :=
| CallUpload (w : Dataset.DataWorld) (name content fmt : string)
| CallLoad (w : Dataset.DataWorld) (id : string)
| CallDeleteDataset (id : string).

Definition after_dataset_call (st : Dataset.DatasetService) (c : dataset_call)
    : Dataset.DatasetService :=
  match c with
  | CallUpload w name content fmt =>
      (Dataset.upload_dataset w name content fmt st).2
  | CallLoad w id => (Dataset.load_dataset w id st).2
  | CallDeleteDataset id => (Dataset.delete_dataset id st).2
  end.

(** Every record sits under its own id. *)
Definition keyed (st : ModelService) : Prop :=
  ∀ mid info, models st !! mid = Some info → model_id info = mid.

(** Every record carries a [datetime], as the records [train_model] makes
    and the records decoded at start do. *)
Definition dated (st : ModelService) : Prop :=
  ∀ mid info, models st !! mid = Some info →
              ∃ t, created_at info = Datetime t.

(** The metadata file parses, or is yet to be written, and holds every record
    of the registry. *)
Definition covered (st : ModelService) : Prop :=
  metadata_file st ≠ FileCorrupt ∧
  ∀ mid info, models st !! mid = Some info →
              ∃ data, metadata_file st = FileJson data ∧
                      data !! mid = Some (to_json info).

(** The ids the metadata file has a record for. *)
Definition file_ids {R} (f : metafile R) : gset string :=
  match f with
  | FileJson data => dom data
  | _ => ∅
  end.

(** The metadata file is the registry, written out. *)
Definition mirrored (st : Dataset.DatasetService) : Prop :=
  Dataset.metadata_file st = FileJson (Dataset.to_json <$> Dataset.datasets st).

(** Every record was stamped by the running process or decoded at start. *)
Definition stamped (st : Dataset.DatasetService) : Prop :=
  ∀ id info, Dataset.datasets st !! id = Some info →
             ∃ t, Dataset.created_at info = Datetime t.

(** What a call of the model service leaves alone besides the registry: no
    file disappears. *)
Record quiet (st st' : ModelService) : Prop := {
  quiet_frame : frame st st';
  quiet_disk : disk st ⊆ disk st';
}.

(** ** [clearml_service.py]: the constructor *)

(** [os.environ]. *)
Abbreviation environ := (gmap string string).

(** The fields of [settings] the constructor reads: the two ClearML keys come
    from [os.getenv] without a default and may be [None], the two MinIO keys
    have defaults. *)
Record Settings := {
  clearml_api_access_key : option string;
  clearml_api_secret_key : option string;
  minio_access_key : string;
  minio_secret_key : string;
}.

(** What the constructor finds on the host: whether [clearml] was importable
    ([Task is not None]), whether [/.dockerenv] exists, and whether the block
    writing [/tmp/clearml.conf] went through without an exception.  The text
    written to that file is not modelled. *)
Record Host := {
  task_imported : bool;
  dockerenv : bool;
  conf_written : bool;
}.

(** [a or b] on [Optional[str]]. *)
Definition str_or (a b : option string) : option string :=
  if str_truthy a then a else b.

(** [s.startswith("http://") or s.startswith("https://")]. *)
Definition has_scheme (s : string) : bool :=
  String.prefix "http://" s || String.prefix "https://" s.

(** The block the constructor runs for [CLEARML_API_HOST] and again for
    [CLEARML_WEB_HOST]:
    [h = os.getenv(key)
     if not h: h = fallback; os.environ[key] = h
     elif not h.startswith("http://") and not h.startswith("https://"):
         h = f"http://{h}"; os.environ[key] = h]. *)
Definition host_block (key fallback : string) (env : environ)
    : string * environ :=
  let h := env !! key in
  if negb (str_truthy h) then (fallback, <[key := fallback]> env)
  else
    let s := default "" h in
    if negb (String.prefix "http://" s) && negb (String.prefix "https://" s)
    then ("http://" ++ s, <[key := "http://" ++ s]> env)
    else (s, env).

(** The six assignments made when [CLEARML_S3_HOST] is not set. *)
Definition s3_defaults (host : Host) (cfg : Settings) (env : environ)
    : environ :=
  <["CLEARML_S3_USE_HTTPS" := "false"]>
    (<["CLEARML_S3_REGION" := "us-east-1"]>
       (<["CLEARML_S3_BUCKET" := "clearml-models"]>
          (<["CLEARML_S3_SECRET_KEY" := minio_secret_key cfg]>
             (<["CLEARML_S3_ACCESS_KEY" := minio_access_key cfg]>
                (<["CLEARML_S3_HOST" :=
                     if dockerenv host then "minio:9000" else "localhost:9000"]>
                   env))))).

(** [ClearMLService.__init__]: the value of [self.initialized] and the
    environment it leaves.  Environment values are taken to hold no NUL
    character, so that the assignments to [os.environ] do not raise. *)
Definition clearml_init (host : Host) (cfg : Settings) (env : environ)
    : bool * environ :=
  if negb (task_imported host) then (false, env) else
  let '(api_host, env) :=
    host_block "CLEARML_API_HOST"
      (if dockerenv host then "http://clearml-apiserver:8008"
       else "http://localhost:8008") env in
  let '(web_host, env) :=
    host_block "CLEARML_WEB_HOST" "http://localhost:8080" env in
  let access_key :=
    str_or (env !! "CLEARML_API_ACCESS_KEY") (clearml_api_access_key cfg) in
  let secret_key :=
    str_or (env !! "CLEARML_API_SECRET_KEY") (clearml_api_secret_key cfg) in
  let env :=
    if str_truthy access_key
    then <["CLEARML_API_ACCESS_KEY" := default "" access_key]> env else env in
  let env :=
    if str_truthy secret_key
    then <["CLEARML_API_SECRET_KEY" := default "" secret_key]> env else env in
  if negb (str_truthy access_key) || negb (str_truthy secret_key)
  then (false, env) else
  let env :=
    if conf_written host
    then <["CLEARML_CONFIG_FILE" := "/tmp/clearml.conf"]> env else env in
  let env :=
    if negb (str_truthy (env !! "CLEARML_S3_HOST"))
    then s3_defaults host cfg env else env in
  (true, env).

(** ** What a reporting loop sends *)

(** The calls of [report_scalar] one loop over the items makes, in order: one
    for each item that passes the guard. *)
Definition reports (ttl : string) (it : nat) (items : list (string * metric))
    : list Report :=
  omap (λ kv : string * metric,
          if reportable kv.2
          then Some {| title := ttl; series := kv.1;
                       value := to_float kv.2; iteration := it |}
          else None) items.

(** The mark [train_model] reports when it got its task. *)
Definition progress_mark : Report :=
  {| title := "Training Progress"; series := "status"; value := 0;
     iteration := 0 |}.

(** Every [int] among the metrics is within the range of floats, so that
    [float] does not raise [OverflowError] on it. *)
Definition float_range (ms : metrics_map) : Prop :=
  ∀ key z, ms !! key = Some (MInt z) → is_infinity (to_float (MInt z)) = false.

(** * More of the concrete deployment *)

(** The service with the tracker not initialised. *)
Definition demo_service_plain : ModelService :=
  {| models := models demo_service; models_dir := models_dir demo_service;
     metadata_file := metadata_file demo_service; disk := disk demo_service;
     clearml_initialized := false; minio_client := minio_client demo_service;
     tracker_log := tracker_log demo_service; bucket := bucket demo_service |}.

(** The service with a metadata file that does not parse. *)
Definition demo_service_corrupt : ModelService :=
  {| models := models demo_service; models_dir := models_dir demo_service;
     metadata_file := FileCorrupt; disk := disk demo_service;
     clearml_initialized := clearml_initialized demo_service;
     minio_client := minio_client demo_service;
     tracker_log := tracker_log demo_service; bucket := bucket demo_service |}.

Definition demo_plain_trained : ModelService :=
  (train_model demo_world "random_forest" "d1" ∅ [] [] demo_service_plain).2.

Definition demo_corrupt_trained : ModelService :=
  (train_model demo_world "random_forest" "d1" ∅ [] [] demo_service_corrupt).2.

Definition demo_boot : Boot :=
  {| listdir := Some ["m2.pkl"; ".gitkeep"; "models_metadata.json"];
     getmtime := λ _, 5%Z |}.

Definition demo_calls : list model_call :=
  [CallTrain demo_world "linear" "d1" ∅ [] [];
   CallPredict demo_world "m0" [Row [1%float]];
   CallDelete "m1";
   CallRetrain demo_world_store_down "m0" "d2" None [] []].

Definition demo_uploaded : Dataset.DatasetService :=
  (Dataset.upload_dataset demo_data_world "new.csv" "x,y" "csv" demo_datasets).2.

(** The dataset service after the data files were lost. *)
Definition demo_datasets_lost : Dataset.DatasetService :=
  {| Dataset.datasets := Dataset.datasets demo_datasets;
     Dataset.datasets_dir := Dataset.datasets_dir demo_datasets;
     Dataset.metadata_file := Dataset.metadata_file demo_datasets;
     Dataset.disk := ∅ |}.

(** A world in which [dvc pull] exits with status 0 and restores nothing. *)
Definition demo_data_world_empty_pull : Dataset.DataWorld :=
  {| Dataset.uuid4 := Dataset.uuid4 demo_data_world;
     Dataset.now := Dataset.now demo_data_world;
     Dataset.dvc_add := Dataset.dvc_add demo_data_world;
     Dataset.outs_md5 := Dataset.outs_md5 demo_data_world;
     Dataset.dvc_push := Dataset.dvc_push demo_data_world;
     Dataset.dvc_pull := λ _, Dataset.Exit0 None;
     Dataset.read_csv := Dataset.read_csv demo_data_world;
     Dataset.read_json := Dataset.read_json demo_data_world;
     Dataset.numpy_cell := Dataset.numpy_cell demo_data_world |}.

Definition demo_dataset_calls : list dataset_call :=
  [CallUpload demo_data_world "new.csv" "x,y" "csv";
   CallLoad demo_data_world "d1";
   CallDeleteDataset "d2";
   CallUpload demo_data_world_no_dvc "other.csv" "x,y" "csv"].

Definition demo_added : Dataset.DatasetService :=
  (Dataset.add_dataset demo_data_world "data/d9.csv" demo_datasets).2.

Definition demo_trained_record : ModelInfo :=
  trained_record demo_world "linear" "d1" ∅ (models_dir demo_service)
    (Some "c2") demo_metrics.


Definition demo_host : Host :=
  {| task_imported := true; dockerenv := false; conf_written := true |}.

Definition demo_settings : Settings :=
  {| clearml_api_access_key := Some "key"; clearml_api_secret_key := None;
     minio_access_key := "minioadmin"; minio_secret_key := "minioadmin" |}.

Definition demo_environ : environ :=
  <["CLEARML_API_SECRET_KEY" := "secret"]>
    {["CLEARML_API_HOST" := "clearml:8008"]}.

(** Scores with an [int] and a minus infinity among them, returned in the
    order [r2_score], [mae], [mse]. *)
Definition demo_scores : metrics_map :=
  <["r2_score" := MFloat neg_infinity]>
    (<["mae" := MInt 1]> (<["mse" := MFloat 0.25]> ∅)).

Definition demo_world_scores : World :=
  {| uuid4 := uuid4 demo_world; now := now demo_world;
     task_init := task_init demo_world; task_retry := task_retry demo_world;
     fit := λ _ _ _, Some demo_scores;
     dict_items := λ ms,
       omap (λ key, (key,.) <$> ms !! key) ["r2_score"; "mae"; "mse"];
     pickle_dump := pickle_dump demo_world;
     register_artifact := register_artifact demo_world;
     put_object := put_object demo_world;
     get_weights := get_weights demo_world;
     load_predict := load_predict demo_world |}.

(** The same world when the first [create_experiment] fails and the one of
    [save_model] succeeds. *)
Definition demo_world_retry : World :=
  {| uuid4 := uuid4 demo_world; now := now demo_world;
     task_init := None; task_retry := Some "t2";
     fit := fit demo_world_scores; dict_items := dict_items demo_world_scores;
     pickle_dump := pickle_dump demo_world;
     register_artifact := register_artifact demo_world;
     put_object := put_object demo_world;
     get_weights := get_weights demo_world;
     load_predict := load_predict demo_world |}.

(** A world whose tracker hands the registered file over. *)
Definition demo_world_fetch : World :=
  {| uuid4 := uuid4 demo_world; now := now demo_world;
     task_init := task_init demo_world; task_retry := task_retry demo_world;
     fit := fit demo_world; dict_items := dict_items demo_world;
     pickle_dump := pickle_dump demo_world;
     register_artifact := register_artifact demo_world;
     put_object := put_object demo_world;
     get_weights := λ _, WeightsReturned true;
     load_predict := load_predict demo_world |}.

Definition demo_scores_trained : ModelService :=
  (train_model demo_world_scores "linear" "d1" ∅ [] [] demo_service).2.

Definition demo_retry_trained : ModelService :=
  (train_model demo_world_retry "linear" "d1" ∅ [] [] demo_service).2.

Definition demo_scores_record : ModelInfo :=
  trained_record demo_world_scores "linear" "d1" ∅ (models_dir demo_service)
    (Some "c2") demo_scores.

(** * Properties *)

(** ** Reasoning about computations in [M] *)

Lemma bind_Ok {S A B} (m : M S A) (f : A → M S B) st a st' :
  m st = (Ok a, st') → (m ≫= f) st = f a st'.
Proof. intros H. unfold mbind, M_bind. by rewrite H. Qed.

Lemma bind_Raise {S A B} (m : M S A) (f : A → M S B) st e st' :
  m st = (Raise e, st') → (m ≫= f) st = (Raise e, st').
Proof. intros H. unfold mbind, M_bind. by rewrite H. Qed.

Lemma frame_refl st : frame st st.
Proof. by split. Qed.

Lemma frame_trans st1 st2 st3 : frame st1 st2 → frame st2 st3 → frame st1 st3.
Proof. intros [] []. split; congruence. Qed.

Lemma frame_log_report r st : frame st (log_report r st).
Proof. by split. Qed.

Lemma frame_set_disk f st : frame st (set_disk f st).
Proof. by split. Qed.

Lemma frame_set_bucket f st : frame st (set_bucket f st).
Proof. by split. Qed.

Lemma report_metrics_spec ttl it l st :
  ∃ st', report_metrics ttl it l st = (Ok tt, st') ∧ frame st st'.
Proof.
  unfold report_metrics, modify. eexists; split; [done|].
  revert st.
  induction l as [|kv l IH]; intros st; simpl; [apply frame_refl|].
  destruct (reportable kv.2);
    [eapply frame_trans; [apply frame_log_report | apply IH] | apply IH].
Qed.

Lemma when_spec b (m : M ModelService unit) st :
  (∃ st', m st = (Ok tt, st') ∧ frame st st') →
  ∃ st', when b m st = (Ok tt, st') ∧ frame st st'.
Proof.
  intros H. destruct b; simpl; [done|].
  exists st. split; [done | apply frame_refl].
Qed.

Lemma clearml_save_model_spec w path ms task st :
  ∃ cid st', clearml_save_model w path ms task st = (Ok cid, st') ∧ frame st st'.
Proof.
  unfold clearml_save_model.
  rewrite (bind_Ok _ _ st (clearml_initialized st) st) by done.
  destruct (clearml_initialized st); simpl;
    [| by exists None, st; split; [|apply frame_refl]].
  destruct (match task with Some t => Some t | None => _ end);
    [| by exists None, st; split; [|apply frame_refl]].
  destruct (when_spec (dict_truthy ms) (report_metrics "Final Metrics" 2 (dict_items w ms)) st
              (report_metrics_spec _ _ _ _)) as (st1 & Hw & Hf).
  rewrite (bind_Ok _ _ _ _ _ Hw).
  unfold mbind, M_bind, gets.
  destruct (bool_decide _); eexists _, st1; split; done.
Qed.

(** The upload step either is skipped or succeeds, leaving the registry
    alone, or re-raises what [put_object] raised, leaving the state alone. *)
Lemma _save_model_to_minio_spec w mid path st :
  (minio_client st = false ∨ is_Some (put_object w path) →
     ∃ st', _save_model_to_minio w mid path st = (Ok tt, st') ∧ frame st st') ∧
  (minio_client st = true → put_object w path = None →
     _save_model_to_minio w mid path st = (Raise (ExternalError "put_object"), st)).
Proof.
  unfold _save_model_to_minio.
  rewrite (bind_Ok _ _ st (minio_client st) st) by done.
  split.
  - intros [-> | [[] Hput]]; simpl.
    + exists st. split; [done | apply frame_refl].
    + destruct (minio_client st); simpl;
        [| by exists st; split; [| apply frame_refl]].
      unfold try_except, mbind, M_bind, external. rewrite Hput. simpl.
      eexists. split; [done | apply frame_set_bucket].
  - intros -> Hput. simpl.
    unfold try_except, mbind, M_bind, external. by rewrite Hput.
Qed.

Lemma filter_one (m : gmap string ModelInfo) mid info :
  m !! mid = Some info →
  filter (λ kv, Some mid = None ∨ Some mid = Some kv.1) m = {[mid := info]}.
Proof.
  intros Hm. apply map_eq. intros k.
  destruct (decide (k = mid)) as [->|Hne].
  - rewrite lookup_singleton_eq. apply map_lookup_filter_Some. split; [done | by right].
  - rewrite lookup_singleton_ne by done.
    apply map_lookup_filter_None. right. intros x _ [?|?]; simplify_eq/=.
Qed.

Lemma _save_model_metadata_one mid info st :
  models st !! mid = Some info →
  _save_model_metadata (Some mid) st =
    (Ok tt, set_metadata_file (merged mid info (metadata_file st)) st).
Proof.
  intros Hm. unfold _save_model_metadata, try_except.
  rewrite (bind_Ok _ _ st st st) by done.
  rewrite (filter_one _ _ _ Hm), map_fmap_singleton.
  destruct st as [ms d f dk ci mc tl b]; simpl in *.
  destruct f; simpl; try done.
  - by rewrite (right_id ∅ (∪)).
  - by rewrite insert_union_singleton_l.
Qed.

Lemma start_tracking_spec w st :
  ∃ task st',
    (if (clearml_initialized st : bool) then
       let task := create_experiment w (clearml_initialized st) in
       when (bool_decide (is_Some task))
         (modify (log_report {| title := "Training Progress";
                                series := "status";
                                value := 0; iteration := 0 |}));;
       mret task
     else mret None) st = (Ok task, st') ∧ frame st st'.
Proof.
  destruct (clearml_initialized st); [| by exists None, st; split; [|apply frame_refl]].
  simpl. destruct (bool_decide _); simpl.
  - eexists _, _. split; [done | apply frame_log_report].
  - eexists _, _. split; [done | apply frame_refl].
Qed.

(** Every way [train_model] can end. *)
Lemma train_model_cases w mt ds hp X y st :
  let path := path_join (models_dir st) (uuid4 w ++ ".pkl") in
  ∃ st1, frame st st1 ∧
    match create_model mt hp with
    | Raise e => train_model w mt ds hp X y st = (Raise e, st1)
    | Ok model =>
        match fit w model X y with
        | None =>
            train_model w mt ds hp X y st = (Raise (ExternalError "train"), st1)
        | Some ms =>
            ∃ st2, frame st st2 ∧
              match pickle_dump w model path with
              | None =>
                  train_model w mt ds hp X y st =
                    (Raise (ExternalError "save"), st2)
              | Some _ =>
                  ∃ cid st3, frame st st3 ∧
                    if minio_client st && bool_decide (put_object w path = None)
                    then train_model w mt ds hp X y st =
                           (Raise (ExternalError "put_object"), st3)
                    else ∃ st4, frame st st4 ∧
                           train_model w mt ds hp X y st =
                             (Ok (uuid4 w),
                              committed (uuid4 w)
                                (trained_record w mt ds hp (models_dir st) cid ms)
                                st4)
              end
        end
    end.
Proof.
  intros path. unfold train_model.
  rewrite (bind_Ok _ _ st (clearml_initialized st) st) by done.
  destruct (start_tracking_spec w st) as (task & st1 & Ht & Hf1).
  rewrite (bind_Ok _ _ _ _ _ Ht). exists st1. split; [done|].
  destruct (create_model mt hp) as [model|e]; [|done].
  rewrite (bind_Ok _ _ st1 model st1) by done.
  destruct (fit w model X y) as [ms|]; [|done].
  rewrite (bind_Ok _ _ st1 ms st1) by done.
  destruct (when_spec (bool_decide (is_Some task))
              (report_metrics "Training Metrics" 1 (dict_items w ms)) st1
              (report_metrics_spec _ _ _ _)) as (st2 & Hw & Hf2).
  rewrite (bind_Ok _ _ _ _ _ Hw).
  rewrite (bind_Ok _ _ st2 (models_dir st2) st2) by done.
  assert (Hf12 : frame st st2) by (eapply frame_trans; eauto).
  rewrite (frame_dir _ _ Hf12). fold path.
  exists st2. split; [done|].
  destruct (pickle_dump w model path) as [[]|]; [|done].
  rewrite (bind_Ok _ _ st2 tt st2) by done.
  rewrite (bind_Ok _ _ st2 tt (set_disk (λ d, {[path]} ∪ d) st2)) by done.
  destruct (clearml_save_model_spec w path ms task
              (set_disk (λ d, {[path]} ∪ d) st2)) as (cid & st3 & Hc & Hf3).
  rewrite (bind_Ok _ _ _ _ _ Hc).
  assert (Hf13 : frame st st3).
  { eapply frame_trans; [exact Hf12|].
    eapply frame_trans; [apply frame_set_disk | exact Hf3]. }
  exists cid, st3. split; [done|].
  destruct (_save_model_to_minio_spec w (uuid4 w) path st3) as [Hok Hraise].
  rewrite (frame_minio _ _ Hf13) in Hok, Hraise.
  destruct (minio_client st) eqn:Hmc; simpl.
  - destruct (decide (put_object w path = None)) as [Hput|Hput].
    + rewrite (bool_decide_eq_true_2 _ Hput).
      rewrite (bind_Raise _ _ _ _ _ (Hraise eq_refl Hput)). done.
    + rewrite (bool_decide_eq_false_2 _ Hput).
      destruct Hok as (st4 & Hm & Hf4).
      { right. by destruct (put_object w path). }
      rewrite (bind_Ok _ _ _ _ _ Hm).
      exists st4. split; [by eapply frame_trans|].
      rewrite (bind_Ok _ _ st4 tt (set_models _ st4)) by done.
      erewrite bind_Ok; [done|].
      rewrite (_save_model_metadata_one (uuid4 w) (trained_record w mt ds hp (models_dir st) cid ms)).
      * done.
      * simpl. by rewrite lookup_insert_eq.
  - destruct Hok as (st4 & Hm & Hf4); [by left|].
    rewrite (bind_Ok _ _ _ _ _ Hm).
    exists st4. split; [by eapply frame_trans|].
    rewrite (bind_Ok _ _ st4 tt (set_models _ st4)) by done.
    erewrite bind_Ok; [done|].
    rewrite (_save_model_metadata_one (uuid4 w) (trained_record w mt ds hp (models_dir st) cid ms)).
    * done.
    * simpl. by rewrite lookup_insert_eq.
Qed.

Lemma create_model_supported mt hp :
  mt ∈ get_available_model_types → ∃ model, create_model mt hp = Ok model.
Proof.
  unfold get_available_model_types, create_model.
  rewrite !elem_of_cons, elem_of_nil. intros [->|[->|[]]]; simpl; eauto.
Qed.

Lemma create_model_unsupported mt hp :
  mt ∉ get_available_model_types →
  create_model mt hp = Raise (ValueError (UnknownModelType mt)).
Proof.
  unfold get_available_model_types, create_model.
  rewrite !not_elem_of_cons. intros (H1 & H2 & _).
  apply String.eqb_neq in H1, H2. by rewrite H1, H2.
Qed.

Lemma keep_metric_finite v : keep_metric v = true ↔ finite_metric v.
Proof.
  destruct v as [|z|f]; simpl; [intuition congruence..|].
  destruct (is_nan f), (is_infinity f); simpl; intuition congruence.
Qed.

Lemma clean_metrics_lookup ms key v :
  clean_metrics ms !! key = Some v ↔ ms !! key = Some v ∧ keep_metric v = true.
Proof.
  unfold clean_metrics, dict_truthy.
  destruct (Nat.eqb_spec (size ms) 0) as [Hz|_]; simpl.
  { apply map_size_empty_iff in Hz as ->. rewrite !lookup_empty. intuition congruence. }
  apply (map_fold_weak_ind
           (λ clean m, clean !! key = Some v ↔ m !! key = Some v ∧ keep_metric v = true)).
  - rewrite !lookup_empty. intuition congruence.
  - intros i x m r Hi IH.
    destruct (decide (i = key)) as [->|Hne].
    + rewrite lookup_insert_eq.
      destruct (keep_metric x) eqn:Hk.
      * rewrite lookup_insert_eq. intuition congruence.
      * rewrite IH, Hi. split; intros [? ?]; simplify_eq; congruence.
    + rewrite (lookup_insert_ne m) by done.
      destruct (keep_metric x); [rewrite lookup_insert_ne by done|]; done.
Qed.

Lemma stored_metric_trained w mt ds hp dir cid ms key :
  stored_metric (trained_record w mt ds hp dir cid ms) key =
    clean_metrics ms !! key.
Proof.
  unfold stored_metric, trained_record, dict_truthy; simpl.
  destruct (Nat.eqb_spec (size (clean_metrics ms)) 0) as [Hz|_]; simpl; [|done].
  apply map_size_empty_iff in Hz. rewrite Hz. by rewrite lookup_empty.
Qed.

(** A successful [train_model], read backwards. *)
Lemma train_model_Ok w mt ds hp X y st mid st' :
  train_model w mt ds hp X y st = (Ok mid, st') →
  ∃ model ms cid st1,
    mid = uuid4 w ∧ create_model mt hp = Ok model ∧
    fit w model X y = Some ms ∧ frame st st1 ∧
    st' = committed mid (trained_record w mt ds hp (models_dir st) cid ms) st1.
Proof.
  intros Hrun.
  destruct (train_model_cases w mt ds hp X y st) as (st1 & ? & H).
  destruct (create_model mt hp) as [model|] eqn:Hc; [|congruence].
  destruct (fit w model X y) as [ms|] eqn:Hfit; [|congruence].
  destruct H as (st2 & ? & H).
  destruct (pickle_dump _ _ _); [|congruence].
  destruct H as (cid & st3 & ? & H).
  destruct (_ && _); [congruence|].
  destruct H as (st4 & ? & H). rewrite H in Hrun. simplify_eq.
  exists model, ms, cid, st4. split_and!; done.
Qed.

Lemma committed_models mid info st1 :
  models (committed mid info st1) = <[mid := info]> (models st1).
Proof. done. Qed.

Lemma committed_file mid info st1 :
  metadata_file (committed mid info st1) = merged mid info (metadata_file st1).
Proof. done. Qed.

Lemma merged_lookup mid info f :
  f ≠ FileCorrupt →
  ∃ d, merged mid info f = FileJson d ∧ d !! mid = Some (to_json info).
Proof.
  destruct f; intros Hf; simpl; [|done|].
  - eexists. split; [done | apply lookup_singleton_eq].
  - eexists. split; [done | apply lookup_insert_eq].
Qed.

(** C3.  Training with a model type outside [linear], [random_forest] raises
    the [ValueError] of [create_model] for that type, and the registry after
    the failed call is the registry before it; the metadata file is left alone
    too. *)
Theorem train_model_unknown_type w mt ds hp X y st :
  mt ∉ get_available_model_types →
  ∃ st', train_model w mt ds hp X y st =
           (Raise (ValueError (UnknownModelType mt)), st') ∧
         models st' = models st ∧ metadata_file st' = metadata_file st.
Proof.
  intros Hmt.
  destruct (train_model_cases w mt ds hp X y st) as (st1 & Hf & H).
  rewrite (create_model_unsupported _ _ Hmt) in H.
  exists st1. by destruct Hf.
Qed.

(** C7.  When [train_model] returns an id, the record stored under it (and the
    copy written to the metadata file) carries, of the metrics [model.train]
    produced, exactly the finite ones with their values: every stored metric
    is one of the produced metrics and is neither NaN nor infinite nor [None],
    and every produced metric that is finite is stored unchanged. *)
Theorem train_model_metrics_finite w mt ds hp X y st mid st' :
  train_model w mt ds hp X y st = (Ok mid, st') →
  ∃ model ms info,
    create_model mt hp = Ok model ∧ fit w model X y = Some ms ∧
    get_model mid st' = Some info ∧
    (∀ key v, stored_metric info key = Some v →
                ms !! key = Some v ∧ finite_metric v) ∧
    (∀ key v, ms !! key = Some v → finite_metric v →
                stored_metric info key = Some v) ∧
    (metadata_file st ≠ FileCorrupt →
       ∃ d saved, metadata_file st' = FileJson d ∧ d !! mid = Some saved ∧
                  metrics saved = metrics info).
Proof.
  intros (model & ms & cid & st1 & -> & Hc & Hfit & Hf & ->)%train_model_Ok.
  exists model, ms, (trained_record w mt ds hp (models_dir st) cid ms).
  split_and!; [done | done | | | |].
  - unfold get_model. rewrite committed_models. apply lookup_insert_eq.
  - intros key v. rewrite stored_metric_trained, clean_metrics_lookup.
    by rewrite keep_metric_finite.
  - intros key v ? ?. rewrite stored_metric_trained, clean_metrics_lookup.
    by rewrite keep_metric_finite.
  - intros Hfile. rewrite committed_file, (frame_file _ _ Hf).
    destruct (merged_lookup (uuid4 w)
                (trained_record w mt ds hp (models_dir st) cid ms)
                (metadata_file st) Hfile) as (d & -> & Hd).
    by exists d, (to_json (trained_record w mt ds hp (models_dir st) cid ms)).
Qed.

Lemma retrain_model_known w mid ds hp X y st old :
  get_model mid st = Some old →
  retrain_model w mid ds hp X y st =
    train_model w (model_type old) ds
      match hp with
      | Some h => if dict_truthy h then h else hyperparameters old
      | None => hyperparameters old
      end X y st.
Proof.
  intros Hold. unfold retrain_model.
  by rewrite (bind_Ok _ _ st (Some old) st) by (unfold gets; by rewrite <- Hold).
Qed.

(** C4.  When [retrain_model] on an existing id returns, and the id [uuid4]
    allocated was not in the registry, the original id still maps to the
    record it mapped to before, the new id differs from it, was absent before
    and now maps to a record carrying the new id, and every other id is
    untouched. *)
Theorem retrain_model_keeps_original w mid ds hp X y st new_id st' old :
  get_model mid st = Some old →
  get_model (uuid4 w) st = None →
  retrain_model w mid ds hp X y st = (Ok new_id, st') →
  get_model mid st' = Some old ∧
  new_id ≠ mid ∧
  get_model new_id st = None ∧
  (∃ new, get_model new_id st' = Some new ∧ model_id new = new_id) ∧
  (∀ other, other ≠ new_id → get_model other st' = get_model other st).
Proof.
  intros Hold Hfresh Hrun.
  rewrite (retrain_model_known _ _ _ _ _ _ _ _ Hold) in Hrun.
  apply train_model_Ok in Hrun
    as (model & ms & cid & st1 & -> & _ & _ & Hf & ->).
  assert (uuid4 w ≠ mid) as Hne by (intros <-; congruence).
  unfold get_model in *. rewrite committed_models, (frame_models _ _ Hf).
  split_and!; [|done|done| |].
  - by rewrite lookup_insert_ne.
  - eexists. split; [apply lookup_insert_eq | done].
  - intros other Hother. by rewrite lookup_insert_ne.
Qed.

(** C10.  On an existing id, [retrain_model] with an empty hyperparameter dict
    is [retrain_model] with [None]: both are [train_model] with the stored
    hyperparameters of the original, and the record of the new model carries
    those, not the empty dict. *)
Theorem retrain_model_empty_hyperparameters w mid ds X y st old :
  get_model mid st = Some old →
  retrain_model w mid ds (Some ∅) X y st = retrain_model w mid ds None X y st ∧
  retrain_model w mid ds (Some ∅) X y st =
    train_model w (model_type old) ds (hyperparameters old) X y st ∧
  (∀ new_id st',
     retrain_model w mid ds (Some ∅) X y st = (Ok new_id, st') →
     ∃ new, get_model new_id st' = Some new ∧
            hyperparameters new = hyperparameters old).
Proof.
  intros Hold.
  rewrite !(retrain_model_known _ _ _ _ _ _ _ _ Hold).
  unfold dict_truthy. rewrite map_size_empty. simpl.
  split_and!; [done | done |].
  intros new_id st' (model & ms & cid & st1 & -> & _ & _ & Hf & ->)%train_model_Ok.
  eexists. split.
  - unfold get_model. rewrite committed_models. apply lookup_insert_eq.
  - reflexivity.
Qed.

(** C2, as the code has it.  In a [train_model] call that reaches the upload
    step (supported type, training and pickling succeeded): with an
    artifact-store client configured, a failing upload is re-raised, the call
    fails and leaves registry and metadata file as they were; without a
    client the upload is skipped and the call stores the record, writes the
    metadata and returns the new id. *)
Theorem train_model_upload_failure w mt ds hp X y st model ms :
  let path := path_join (models_dir st) (uuid4 w ++ ".pkl") in
  create_model mt hp = Ok model →
  fit w model X y = Some ms →
  is_Some (pickle_dump w model path) →
  (minio_client st = true → put_object w path = None →
     ∃ st', train_model w mt ds hp X y st =
              (Raise (ExternalError "put_object"), st') ∧
            models st' = models st ∧ metadata_file st' = metadata_file st) ∧
  (minio_client st = false →
     ∃ st', train_model w mt ds hp X y st = (Ok (uuid4 w), st') ∧
            is_Some (get_model (uuid4 w) st') ∧
            (metadata_file st ≠ FileCorrupt →
               ∃ d, metadata_file st' = FileJson d ∧ is_Some (d !! uuid4 w))).
Proof.
  intros path Hc Hfit [[] Hdump].
  destruct (train_model_cases w mt ds hp X y st) as (st1 & ? & H).
  rewrite Hc, Hfit in H. destruct H as (st2 & ? & H).
  fold path in H. rewrite Hdump in H. destruct H as (cid & st3 & Hf3 & H).
  split.
  - intros Hmc Hput. rewrite Hmc, Hput in H. simpl in H.
    exists st3. by destruct Hf3.
  - intros Hmc. rewrite Hmc in H. simpl in H. destruct H as (st4 & Hf4 & H).
    eexists. split; [exact H|]. split.
    + unfold get_model. rewrite committed_models, lookup_insert_eq. by eexists.
    + intros Hfile. rewrite committed_file, (frame_file _ _ Hf4).
      destruct (merged_lookup (uuid4 w)
                  (trained_record w mt ds hp (models_dir st) cid ms)
                  (metadata_file st) Hfile) as (d & -> & Hd).
      exists d. split; [done | by eexists].
Qed.

Lemma delete_model_known mid info st :
  get_model mid st = Some info →
  ∃ st', delete_model mid st = (Ok true, st') ∧
         models st' = delete mid (models st) ∧
         metadata_file st' = metadata_file st.
Proof.
  intros Hm. unfold delete_model.
  rewrite (bind_Ok _ _ st (Some info) st) by (unfold gets; by rewrite <- Hm).
  rewrite (bind_Ok _ _ st (existing (model_path info) st) st) by done.
  destruct (existing (model_path info) st); eexists; (split; [done|]); done.
Qed.

Lemma clearml_load_model_spec w cid mid st :
  ∃ fetched st1,
    clearml_load_model w cid mid st = (Ok fetched, st1) ∧ frame st st1.
Proof.
  unfold clearml_load_model.
  rewrite (bind_Ok _ _ st (clearml_initialized st) st) by done.
  destruct cid as [c|]; [|by exists None, st; split; [|apply frame_refl]].
  destruct (clearml_initialized st); simpl;
    [|by exists None, st; split; [|apply frame_refl]].
  rewrite (bind_Ok _ _ st (models_dir st) st) by done.
  destruct (get_weights w c) as [|[]]; simpl.
  - exists None, st. split; [done | apply frame_refl].
  - eexists _, _. split; [done | apply frame_set_disk].
  - eexists _, _. split; [done | apply frame_refl].
Qed.

Lemma external_not_value_error {S A} origin (o : option A) (st st' : S) e :
  external origin o st ≠ (Raise (ValueError e), st').
Proof. unfold external. by destruct o. Qed.

Lemma project_all_Raise keys items e :
  project_all keys items = Raise e → e = AttributeError.
Proof.
  induction items as [|item items IH]; simpl; [done|].
  destruct (project keys item) as [r|e'] eqn:Hitem.
  - destruct (project_all keys items); [done|]. intros [= <-]. by apply IH.
  - intros [= <-]. destruct item, keys; simpl in Hitem; congruence.
Qed.

Lemma convert_not_unloadable features mid :
  _convert_features_to_list features ≠ Raise (ValueError (ModelNotLoadable mid)).
Proof.
  destruct features as [|[xs|d|v] items]; [done..| |done].
  unfold _convert_features_to_list. intros H%project_all_Raise. done.
Qed.

(** C9.  [predict] on an unknown id raises the not-found [ValueError].  On a
    known id, with features that convert and a supported type: when the
    record has a tracker reference, the tracker is asked first and its file is
    loaded if it exists, else the local path is loaded if it exists, else the
    not-loadable [ValueError] is raised; without a tracker reference the local
    path is loaded or the call fails.  The not-loadable [ValueError] is raised
    only when neither the tracker's file nor the local path exists. *)
Theorem predict_sources w mid features st :
  (get_model mid st = None →
     predict w mid features st = (Raise (ValueError (ModelNotFound mid)), st)) ∧
  (∀ info X model,
     get_model mid st = Some info →
     _convert_features_to_list features = Ok X →
     create_model (model_type info) (hyperparameters info) = Ok model →
     (str_truthy (clearml_model_id info) = true →
        ∃ fetched st1,
          clearml_load_model w (clearml_model_id info) mid st = (Ok fetched, st1) ∧
          (∀ p, existing fetched st1 = Some p →
                predict w mid features st =
                  external "load" (load_predict w model p X) st1) ∧
          (∀ p, existing fetched st1 = None →
                existing (model_path info) st1 = Some p →
                predict w mid features st =
                  external "load" (load_predict w model p X) st1) ∧
          (existing fetched st1 = None →
           existing (model_path info) st1 = None →
           predict w mid features st =
             (Raise (ValueError (ModelNotLoadable mid)), st1))) ∧
     (str_truthy (clearml_model_id info) = false →
        (∀ p, existing (model_path info) st = Some p →
              predict w mid features st =
                external "load" (load_predict w model p X) st) ∧
        (existing (model_path info) st = None →
         predict w mid features st =
           (Raise (ValueError (ModelNotFoundLocally mid)), st)))) ∧
  (∀ st',
     predict w mid features st = (Raise (ValueError (ModelNotLoadable mid)), st') →
     ∃ info fetched,
       get_model mid st = Some info ∧
       str_truthy (clearml_model_id info) = true ∧
       clearml_load_model w (clearml_model_id info) mid st = (Ok fetched, st') ∧
       existing fetched st' = None ∧ existing (model_path info) st' = None).
Proof.
  unfold get_model, predict.
  rewrite (bind_Ok _ _ st (models st !! mid) st) by done.
  split_and!.
  - by intros ->.
  - intros info X model -> HX Hmodel.
    rewrite HX, (bind_Ok _ _ st X st) by done.
    rewrite Hmodel, (bind_Ok _ _ st model st) by done.
    split.
    + intros ->.
      destruct (clearml_load_model_spec w (clearml_model_id info) mid st)
        as (fetched & st1 & Hload & _).
      exists fetched, st1. split; [done|].
      rewrite (bind_Ok _ _ _ _ _ Hload).
      rewrite (bind_Ok _ _ st1 (existing fetched st1) st1) by done.
      split_and!.
      * by intros p ->.
      * intros p -> Hlocal.
        by rewrite (bind_Ok _ _ st1 (Some p) st1)
          by (unfold gets; by rewrite Hlocal).
      * intros -> Hlocal.
        by rewrite (bind_Ok _ _ st1 None st1)
          by (unfold gets; by rewrite Hlocal).
    + intros ->.
      rewrite (bind_Ok _ _ st (existing (model_path info) st) st) by done.
      split; [by intros p -> | by intros ->].
  - intros st'. destruct (models st !! mid) as [info|]; [|done].
    destruct (_convert_features_to_list features) as [X|e] eqn:HX.
    2:{ intros [= -> ->]. by destruct (convert_not_unloadable features mid). }
    rewrite (bind_Ok _ _ st X st) by done.
    destruct (create_model (model_type info) (hyperparameters info))
      as [model|e] eqn:Hmodel.
    2:{ unfold create_model in Hmodel.
        repeat destruct (String.eqb _ _); [done..|]. intros [= -> ->]. done. }
    rewrite (bind_Ok _ _ st model st) by done.
    destruct (str_truthy (clearml_model_id info)) eqn:Hcid.
    + destruct (clearml_load_model_spec w (clearml_model_id info) mid st)
        as (fetched & st1 & Hload & _).
      rewrite (bind_Ok _ _ _ _ _ Hload).
      rewrite (bind_Ok _ _ st1 (existing fetched st1) st1) by done.
      destruct (existing fetched st1) eqn:Hremote.
      { intros H. by apply external_not_value_error in H. }
      rewrite (bind_Ok _ _ st1 (existing (model_path info) st1) st1) by done.
      destruct (existing (model_path info) st1) eqn:Hlocal.
      { intros H. by apply external_not_value_error in H. }
      intros [= <-]. by exists info, fetched.
    + rewrite (bind_Ok _ _ st (existing (model_path info) st) st) by done.
      destruct (existing (model_path info) st).
      { intros H. by apply external_not_value_error in H. }
      done.
Qed.

(** ** The order of keys *)

Lemma ascii_compare_Lt_trans a b c :
  Ascii.compare a b = Lt → Ascii.compare b c = Lt → Ascii.compare a c = Lt.
Proof.
  unfold Ascii.compare. rewrite !N.compare_lt_iff. apply N.lt_trans.
Qed.

Lemma compare_Lt_trans s1 s2 s3 :
  String.compare s1 s2 = Lt → String.compare s2 s3 = Lt →
  String.compare s1 s3 = Lt.
Proof.
  revert s2 s3. induction s1 as [|a s1 IH]; intros [|b s2] [|c s3]; simpl;
    try done.
  destruct (Ascii.compare a b) eqn:Hab; [|intros _|done].
  - apply Ascii.compare_eq_iff in Hab as ->.
    destruct (Ascii.compare b c); [apply IH | done | done].
  - destruct (Ascii.compare b c) eqn:Hbc; [|intros _|done].
    + apply Ascii.compare_eq_iff in Hbc as <-. by rewrite Hab.
    + by rewrite (ascii_compare_Lt_trans _ _ _ Hab Hbc).
Qed.

Lemma compare_refl s : String.compare s s = Eq.
Proof.
  induction s as [|a s IH]; [done|]. cbn [String.compare].
  assert (Ascii.compare a a = Eq) as -> by apply N.compare_refl. done.
Qed.

Lemma str_le_lt a b : str_le a b ↔ str_lt a b ∨ a = b.
Proof.
  unfold str_le, str_lt, String.leb, String.ltb.
  destruct (String.compare a b) eqn:H; simpl.
  - apply String.compare_eq_iff in H. intuition.
  - intuition.
  - split; [done|]. intros [[]| ->]. by rewrite compare_refl in H.
Qed.

#[local] Instance str_lt_trans : Transitive str_lt.
Proof.
  intros a b c. unfold str_lt, String.ltb.
  destruct (String.compare a b) eqn:Hab; simpl; try done.
  destruct (String.compare b c) eqn:Hbc; simpl; try done.
  by rewrite (compare_Lt_trans _ _ _ Hab Hbc).
Qed.

#[local] Instance str_lt_irrefl : Irreflexive str_lt.
Proof.
  intros a H. unfold str_lt, String.ltb in H. by rewrite compare_refl in H.
Qed.

#[local] Instance str_le_trans : Transitive str_le.
Proof.
  intros a b c. rewrite !str_le_lt. intros [Hab| ->] [Hbc| ->]; eauto.
  left. by transitivity b.
Qed.

#[local] Instance str_le_total : Total str_le.
Proof.
  intros a b. unfold str_le.
  destruct (String.leb_total a b) as [-> | ->]; [by left | by right].
Qed.

#[local] Instance str_le_antisym : AntiSymm (=) str_le.
Proof.
  intros a b Hab Hba. apply String.leb_antisym; by apply Is_true_true.
Qed.

Lemma sorted_keys_elem (d : gmap string float) key :
  key ∈ sorted_keys d ↔ key ∈ dom d.
Proof.
  unfold sorted_keys. rewrite merge_sort_Permutation, elem_of_dom.
  rewrite list_elem_of_fmap. split.
  - intros [[k x] [-> Hin]]. apply elem_of_map_to_list in Hin. by eexists.
  - intros [x Hx]. exists (key, x). split; [done|].
    by apply elem_of_map_to_list.
Qed.

Lemma sorted_keys_NoDup (d : gmap string float) : NoDup (sorted_keys d).
Proof.
  unfold sorted_keys. rewrite merge_sort_Permutation.
  apply NoDup_fst_map_to_list.
Qed.

Lemma strictly_sorted_NoDup ks : StronglySorted str_lt ks → NoDup ks.
Proof.
  induction 1 as [|k ks _ IH Hall]; constructor; [|done].
  intros Hin. rewrite Forall_forall in Hall.
  by apply (irreflexivity str_lt k), Hall.
Qed.

Lemma strictly_sorted_le ks : StronglySorted str_lt ks → StronglySorted str_le ks.
Proof.
  induction 1 as [|k ks _ IH Hall]; constructor; [done|].
  eapply Forall_impl; [exact Hall|]. intros k' ?. apply str_le_lt. by left.
Qed.

(** The sorted key list of a dict is the only strictly increasing list of its
    keys. *)
Lemma sorted_keys_unique (d : gmap string float) ks :
  Sorted str_lt ks → list_to_set ks = dom d → sorted_keys d = ks.
Proof.
  intros Hsorted Hdom.
  apply Sorted_StronglySorted in Hsorted; [|apply _].
  apply (StronglySorted_unique str_le).
  - apply StronglySorted_merge_sort; apply _.
  - by apply strictly_sorted_le.
  - apply NoDup_Permutation.
    + apply sorted_keys_NoDup.
    + by apply strictly_sorted_NoDup.
    + intros key. by rewrite sorted_keys_elem, <- Hdom, elem_of_list_to_set.
Qed.

Lemma project_all_records ks records :
  project_all ks (Rec <$> records) = Ok (Row <$> projection ks records).
Proof.
  induction records as [|r records IH]; [done|].
  unfold projection in *. rewrite !fmap_cons. cbn [project_all project].
  by rewrite IH.
Qed.

Lemma predict_convert w mid features1 features2 st :
  _convert_features_to_list features1 = _convert_features_to_list features2 →
  predict w mid features1 st = predict w mid features2 st.
Proof. intros H. unfold predict. by rewrite H. Qed.

(** C5.  For a non-empty list of named-field records, and [ks] the keys of the
    first record in strictly increasing lexicographic order, the conversion
    of the records is their projection onto [ks] with 0.0 for a missing key,
    and [predict] on the records is [predict] on that matrix. *)
Theorem predict_records_as_matrix w mid st
    (first : gmap string float) (rest : list (gmap string float)) ks :
  Sorted str_lt ks →
  list_to_set ks = dom first →
  _convert_features_to_list (Rec <$> first :: rest) =
    Ok (Row <$> projection ks (first :: rest)) ∧
  predict w mid (Rec <$> first :: rest) st =
    predict w mid (Row <$> projection ks (first :: rest)) st.
Proof.
  intros Hsorted Hdom.
  assert (_convert_features_to_list (Rec <$> first :: rest) =
            Ok (Row <$> projection ks (first :: rest))) as Hconv.
  { change (project_all (sorted_keys first) (Rec <$> first :: rest) =
              Ok (Row <$> projection ks (first :: rest))).
    by rewrite (sorted_keys_unique _ _ Hsorted Hdom), project_all_records. }
  split; [done|].
  apply predict_convert. by rewrite Hconv.
Qed.


Section dataset.
Import Dataset.

Lemma load_dataset_located w id st info content st1 :
  get_dataset id st = Some info →
  located w (filepath info) st = Some (content, st1) →
  load_dataset w id st =
    (df ← (if String.eqb (format info) "csv"
           then pd_read (read_csv w) (filepath info)
           else if String.eqb (format info) "json"
                then pd_read (read_json w) (filepath info)
                else raise (ValueError (UnsupportedFormat (format info))));
     let n := length (columns df) in
     if (n <? 2)%nat then raise (ValueError TooFewColumns) else
     mret (values_tolist w (iloc_features df),
           column_tolist w (iloc_target df))) st1
  ∧ disk st1 !! filepath info = Some content.
Proof.
  unfold get_dataset, located, load_dataset. intros Hinfo Hloc.
  rewrite (bind_Ok _ _ st (Some info) st) by (unfold gets; by rewrite Hinfo).
  rewrite (bind_Ok _ _ st (bool_decide (is_Some (disk st !! filepath info))) st)
    by done.
  destruct (disk st !! filepath info) as [c|] eqn:Hdisk.
  - simplify_eq. rewrite bool_decide_eq_true_2 by eauto.
    by rewrite (bind_Ok _ _ st1 tt st1).
  - rewrite bool_decide_eq_false_2 by (intros [? ?]; done).
    destruct (dvc_pull w (filepath info)) as [[c|]| |] eqn:Hpull; [|done..].
    simplify_eq.
    rewrite (bind_Ok _ _ st tt (set_disk <[filepath info:=content]> st)).
    + split; [done|]. simpl. apply lookup_insert_eq.
    + rewrite (bind_Ok _ _ st true (set_disk <[filepath info:=content]> st));
        [done|].
      unfold pull_dataset. by rewrite Hpull.
Qed.

Lemma pd_read_parsed w info content st1 df :
  disk st1 !! filepath info = Some content →
  parsed w (format info) content = Some df →
  (if String.eqb (format info) "csv"
   then pd_read (read_csv w) (filepath info)
   else if String.eqb (format info) "json"
        then pd_read (read_json w) (filepath info)
        else raise (ValueError (UnsupportedFormat (format info)))) st1 =
    (Ok df, st1).
Proof.
  unfold parsed, pd_read. intros Hdisk Hparsed.
  destruct (String.eqb (format info) "csv").
  - rewrite (bind_Ok _ _ st1 (Some content) st1)
      by (unfold gets; by rewrite Hdisk).
    unfold external. by rewrite Hparsed.
  - destruct (String.eqb (format info) "json"); [|done].
    rewrite (bind_Ok _ _ st1 (Some content) st1)
      by (unfold gets; by rewrite Hdisk).
    unfold external. by rewrite Hparsed.
Qed.

(** Splitting a row of width [n] into its first [n - 1] cells and the last. *)
Lemma split_last_cell (row : list pyval) n :
  (1 ≤ n)%nat → length row = n →
  row = (take (n - 1) row ++ [default PyNone (row !! (n - 1)%nat)])%list.
Proof.
  intros Hn Hlen.
  destruct (lookup_lt_is_Some_2 row (n - 1)%nat) as [t Ht]; [lia|].
  rewrite Ht. simpl.
  rewrite <- (take_drop (n - 1) row) at 1. f_equal.
  apply list_eq. intros [|i].
  - by rewrite lookup_drop, Nat.add_0_r.
  - rewrite lookup_drop. simpl. apply lookup_ge_None_2. lia.
Qed.

(** C6.  [load_dataset] on an unknown id raises the not-found [ValueError].
    On a known id whose file (local, or restored by [dvc pull]) parses into a
    table of [n] columns: with [n < 2] it raises the too-few-columns
    [ValueError]; with [n >= 2] and [m] rows it returns [m] feature rows of
    [n - 1] cells and [m] targets, row [i] of the table being the cells of
    feature row [i] followed by the cell of target [i], each cell as numpy
    hands it back: the features converted as one block, the target as one
    column. *)
Theorem load_dataset_contract w id st :
  (get_dataset id st = None →
     load_dataset w id st = (Raise (ValueError (DatasetNotFound id)), st)) ∧
  (∀ info content st1 df,
     get_dataset id st = Some info →
     located w (filepath info) st = Some (content, st1) →
     parsed w (format info) content = Some df →
     let n := length (columns df) in
     ((n < 2)%nat →
        load_dataset w id st = (Raise (ValueError TooFewColumns), st1)) ∧
     ((2 ≤ n)%nat →
        Forall (λ row, length row = n) (cells df) →
        ∃ X y,
          load_dataset w id st = (Ok (X, y), st1) ∧
          length X = length (cells df) ∧
          Forall (λ xs, length xs = (n - 1)%nat) X ∧
          length y = length (cells df) ∧
          ∀ i row, cells df !! i = Some row →
            ∃ xs t,
              row = (xs ++ [t])%list ∧
              X !! i = Some (numpy_cell w (iloc_features df) <$> xs) ∧
              y !! i =
                Some (numpy_cell w ((λ c, [c]) <$> iloc_target df) t))).
Proof.
  split.
  - unfold get_dataset, load_dataset. intros Hnone.
    by rewrite (bind_Ok _ _ st None st) by (unfold gets; by rewrite Hnone).
  - intros info content st1 df Hinfo Hloc Hparsed n.
    destruct (load_dataset_located _ _ _ _ _ _ Hinfo Hloc) as [-> Hdisk].
    rewrite (bind_Ok _ _ _ _ _ (pd_read_parsed _ _ _ _ _ Hdisk Hparsed)).
    cbv zeta. subst n. split.
    + intros Hn. by rewrite (proj2 (Nat.ltb_lt _ 2) Hn).
    + intros Hn Hwf. rewrite (proj2 (Nat.ltb_ge _ 2) Hn).
      eexists _, _. split; [done|].
      assert (∀ i row, cells df !! i = Some row →
                iloc_features df !! i =
                  Some (take (length (columns df) - 1) row) ∧
                iloc_target df !! i =
                  Some (default PyNone (row !! (length (columns df) - 1)%nat)))
        as Hcells.
      { intros i row Hrow. unfold iloc_features, iloc_target.
        by rewrite !list_lookup_fmap, Hrow. }
      assert (length (iloc_features df) = length (cells df) ∧
              length (iloc_target df) = length (cells df)) as [HlenX Hleny]
        by (unfold iloc_features, iloc_target; by rewrite !length_fmap).
      unfold values_tolist, column_tolist.
      rewrite !length_fmap. split_and!; [done| |done|].
      * apply Forall_fmap. unfold iloc_features at 2.
        apply Forall_fmap. eapply Forall_impl; [exact Hwf|].
        intros row Hrow. simpl in *.
        rewrite length_fmap, length_take, Hrow. lia.
      * intros i row Hrow. destruct (Hcells i row Hrow) as [HX Hy].
        exists (take (length (columns df) - 1) row),
          (default PyNone (row !! (length (columns df) - 1)%nat)).
        split_and!.
        -- apply split_last_cell; [lia|].
           rewrite Forall_forall in Hwf. apply Hwf.
           by eapply list_elem_of_lookup_2.
        -- by rewrite list_lookup_fmap, HX.
        -- by rewrite list_lookup_fmap, Hy.
Qed.

Lemma add_dataset_spec w path st :
  match dvc_add w path with
  | OSError =>
      add_dataset w path st = (Raise (ExternalError "subprocess.run"), st)
  | CalledProcessError => add_dataset w path st = (Ok None, st)
  | Exit0 _ =>
      ∃ version st1, add_dataset w path st = (Ok version, st1) ∧
                     datasets st1 = datasets st ∧
                     datasets_dir st1 = datasets_dir st
  end.
Proof.
  unfold add_dataset. destruct (dvc_add w path) as [sidecar| |]; [|done..].
  set (st1 := match sidecar with
              | Some text => set_disk <[path ++ ".dvc" := text]> st
              | None => st
              end).
  rewrite (bind_Ok _ _ st tt st1) by (subst st1; by destruct sidecar).
  rewrite (bind_Ok _ _ st1 (disk st1 !! (path ++ ".dvc")) st1) by done.
  assert (datasets st1 = datasets st ∧ datasets_dir st1 = datasets_dir st)
    as [??] by (subst st1; by destruct sidecar).
  destruct (disk st1 !! (path ++ ".dvc")) as [text|]; [|by eexists _, _].
  destruct (outs_md5 w text) as [md5|]; [|by eexists _, _].
  destruct (negb _); by eexists _, _.
Qed.

Lemma push_dataset_spec w path st :
  ∃ ok, push_dataset w path st = (Ok ok, st).
Proof. unfold push_dataset. destruct (dvc_push w path); by eexists. Qed.

(** An upload whose [dvc add] could be started: the record is stored and the
    registry written out, whatever [dvc add] and [dvc push] answered. *)
Lemma upload_dataset_started w name content fmt st :
  let path := path_join (datasets_dir st) (uuid4 w ++ "." ++ fmt) in
  dvc_add w path ≠ OSError →
  ∃ version st',
    upload_dataset w name content fmt st = (Ok (uuid4 w), st') ∧
    datasets st' =
      <[uuid4 w := uploaded_record w name content fmt (datasets_dir st) version]>
        (datasets st) ∧
    metadata_file st' = FileJson (to_json <$> datasets st') ∧
    (dvc_add w path = CalledProcessError → version = None).
Proof.
  intros path Hadd. unfold upload_dataset.
  rewrite (bind_Ok _ _ st (datasets_dir st) st) by done. fold path.
  rewrite (bind_Ok _ _ st tt (set_disk <[path := content]> st)) by done.
  rewrite (bind_Ok _ _ _ (String.length content) (set_disk <[path := content]> st))
    by (unfold gets; simpl; by rewrite lookup_insert_eq).
  pose proof (add_dataset_spec w path (set_disk <[path := content]> st)) as Hspec.
  destruct (dvc_add w path) as [sidecar| |] eqn:Hout; [| |done].
  - destruct Hspec as (version & st1 & Hrun & Hds & Hdir).
    rewrite (bind_Ok _ _ _ _ _ Hrun).
    destruct (push_dataset_spec w path st1) as [ok Hpush].
    rewrite (bind_Ok _ _ _ _ _ Hpush).
    exists version. eexists. split; [done|]. simpl. rewrite Hds. done.
  - rewrite (bind_Ok _ _ _ _ _ Hspec).
    destruct (push_dataset_spec w path (set_disk <[path := content]> st))
      as [ok Hpush].
    rewrite (bind_Ok _ _ _ _ _ Hpush).
    exists None. eexists. split; [done|]. done.
Qed.

(** An upload whose [dvc add] could not be started: the exception leaves
    [upload_dataset] after the file was written and before any record is. *)
Lemma upload_dataset_not_started w name content fmt st :
  let path := path_join (datasets_dir st) (uuid4 w ++ "." ++ fmt) in
  dvc_add w path = OSError →
  upload_dataset w name content fmt st =
    (Raise (ExternalError "subprocess.run"), set_disk <[path := content]> st).
Proof.
  intros path Hadd. unfold upload_dataset.
  rewrite (bind_Ok _ _ st (datasets_dir st) st) by done. fold path.
  rewrite (bind_Ok _ _ st tt (set_disk <[path := content]> st)) by done.
  rewrite (bind_Ok _ _ _ (String.length content) (set_disk <[path := content]> st))
    by (unfold gets; simpl; by rewrite lookup_insert_eq).
  pose proof (add_dataset_spec w path (set_disk <[path := content]> st)) as Hspec.
  rewrite Hadd in Hspec. by rewrite (bind_Raise _ _ _ _ _ Hspec).
Qed.

Lemma delete_dataset_known id info st :
  get_dataset id st = Some info →
  ∃ st', delete_dataset id st = (Ok true, st') ∧
         datasets st' = delete id (datasets st) ∧
         metadata_file st' = FileJson (to_json <$> datasets st').
Proof.
  intros Hinfo. unfold delete_dataset.
  rewrite (bind_Ok _ _ st (Some info) st) by (unfold gets; by rewrite <- Hinfo).
  by eexists.
Qed.

End dataset.


(** ** The statements on the concrete deployment *)

Lemma train_model_unknown_type_witness :
  ("svm" ∉ get_available_model_types) ∧
  ∃ st', train_model demo_world "svm" "d1" ∅ [] [] demo_service =
           (Raise (ValueError (UnknownModelType "svm")), st') ∧
         models st' = models demo_service ∧
         metadata_file st' = metadata_file demo_service.
Proof.
  assert ("svm" ∉ get_available_model_types) as H by compute_done.
  split; [exact H|].
  exact (train_model_unknown_type demo_world "svm" "d1" ∅ [] [] demo_service H).
Defined.

Lemma train_model_metrics_finite_witness :
  train_model demo_world "linear" "d1" ∅ [] [] demo_service =
    (Ok "m2", demo_trained) ∧
  ∃ model ms info,
    create_model "linear" ∅ = Ok model ∧ fit demo_world model [] [] = Some ms ∧
    get_model "m2" demo_trained = Some info ∧
    (∀ key v, stored_metric info key = Some v →
                ms !! key = Some v ∧ finite_metric v) ∧
    (∀ key v, ms !! key = Some v → finite_metric v →
                stored_metric info key = Some v) ∧
    (metadata_file demo_service ≠ FileCorrupt →
       ∃ d saved, metadata_file demo_trained = FileJson d ∧
                  d !! "m2" = Some saved ∧ metrics saved = metrics info).
Proof.
  assert (train_model demo_world "linear" "d1" ∅ [] [] demo_service =
            (Ok "m2", demo_trained)) as H by (vm_compute; reflexivity).
  split; [exact H|].
  exact (train_model_metrics_finite demo_world "linear" "d1" ∅ [] []
           demo_service "m2" demo_trained H).
Defined.

Lemma retrain_model_keeps_original_witness :
  get_model "m1" demo_service = Some demo_old ∧
  get_model (uuid4 demo_world) demo_service = None ∧
  retrain_model demo_world "m1" "d2" None [] [] demo_service =
    (Ok "m2", demo_retrained) ∧
  get_model "m1" demo_retrained = Some demo_old ∧
  "m2" ≠ "m1" ∧
  get_model "m2" demo_service = None ∧
  (∃ new, get_model "m2" demo_retrained = Some new ∧ model_id new = "m2") ∧
  (∀ other, other ≠ "m2" →
     get_model other demo_retrained = get_model other demo_service).
Proof.
  assert (get_model "m1" demo_service = Some demo_old) as H1
    by (vm_compute; reflexivity).
  assert (get_model (uuid4 demo_world) demo_service = None) as H2
    by (vm_compute; reflexivity).
  assert (retrain_model demo_world "m1" "d2" None [] [] demo_service =
            (Ok "m2", demo_retrained)) as H3 by (vm_compute; reflexivity).
  pose proof (retrain_model_keeps_original demo_world "m1" "d2" None [] []
                demo_service "m2" demo_retrained demo_old H1 H2 H3)
    as (Ha & Hb & Hc & Hd & He).
  split_and!; [exact H1 | exact H2 | exact H3 | exact Ha | exact Hb
              | exact Hc | exact Hd | exact He].
Defined.

Lemma retrain_model_empty_hyperparameters_witness :
  get_model "m1" demo_service = Some demo_old ∧
  retrain_model demo_world "m1" "d2" (Some ∅) [] [] demo_service =
    retrain_model demo_world "m1" "d2" None [] [] demo_service ∧
  retrain_model demo_world "m1" "d2" (Some ∅) [] [] demo_service =
    train_model demo_world "linear" "d2" {["alpha" := PyFloat 0.5]} [] []
      demo_service.
Proof.
  assert (get_model "m1" demo_service = Some demo_old) as H
    by (vm_compute; reflexivity).
  split; [exact H|].
  pose proof (retrain_model_empty_hyperparameters demo_world "m1" "d2" [] []
                demo_service demo_old H) as (Hsame & Hold & _).
  split; [exact Hsame | exact Hold].
Defined.

(** C2, refuted as stated: with a client configured and an upload that
    fails, [train_model] does not return a model id. *)
Lemma train_model_upload_failure_raised :
  minio_client demo_service = true ∧
  create_model "linear" ∅ = Ok (LinearModel ∅) ∧
  fit demo_world_store_down (LinearModel ∅) [] [] = Some demo_metrics ∧
  pickle_dump demo_world_store_down (LinearModel ∅) "models/m2.pkl" = Some tt ∧
  put_object demo_world_store_down "models/m2.pkl" = None ∧
  (train_model demo_world_store_down "linear" "d1" ∅ [] [] demo_service).1 =
    Raise (ExternalError "put_object") ∧
  get_model "m2"
    (train_model demo_world_store_down "linear" "d1" ∅ [] [] demo_service).2 =
    None ∧
  ¬ ∃ mid st',
      train_model demo_world_store_down "linear" "d1" ∅ [] [] demo_service =
        (Ok mid, st').
Proof.
  split_and!; [done | done | done | done | done | by vm_compute | by vm_compute |].
  intros (mid & st' & H). vm_compute in H. discriminate H.
Qed.

Lemma train_model_upload_failure_witness :
  (∃ st', train_model demo_world_store_down "linear" "d1" ∅ [] [] demo_service =
            (Raise (ExternalError "put_object"), st') ∧
          models st' = models demo_service ∧
          metadata_file st' = metadata_file demo_service) ∧
  (∃ st', train_model demo_world_store_down "linear" "d1" ∅ [] []
            demo_service_no_client = (Ok "m2", st') ∧
          is_Some (get_model "m2" st') ∧
          (metadata_file demo_service_no_client ≠ FileCorrupt →
             ∃ d, metadata_file st' = FileJson d ∧ is_Some (d !! "m2"))).
Proof.
  split.
  - apply (train_model_upload_failure demo_world_store_down "linear" "d1" ∅ [] []
             demo_service (LinearModel ∅) demo_metrics);
      [reflexivity | reflexivity | by eexists | reflexivity | reflexivity].
  - apply (train_model_upload_failure demo_world_store_down "linear" "d1" ∅ [] []
             demo_service_no_client (LinearModel ∅) demo_metrics);
      [reflexivity | reflexivity | by eexists | reflexivity].
Defined.

Lemma predict_records_as_matrix_witness :
  Sorted str_lt ["a"; "b"] ∧
  list_to_set ["a"; "b"] = dom demo_first ∧
  _convert_features_to_list [Rec demo_first; Rec demo_second] =
    Ok [Row [1%float; 2%float]; Row [5%float; 0%float]] ∧
  predict demo_world "m1" [Rec demo_first; Rec demo_second] demo_service =
    predict demo_world "m1" [Row [1%float; 2%float]; Row [5%float; 0%float]]
      demo_service.
Proof.
  assert (Sorted str_lt ["a"; "b"]) as H1 by compute_done.
  assert (list_to_set ["a"; "b"] = dom demo_first) as H2
    by (vm_compute; reflexivity).
  split; [exact H1|]. split; [exact H2|].
  exact (predict_records_as_matrix demo_world "m1" demo_service demo_first
           [demo_second] ["a"; "b"] H1 H2).
Defined.

Lemma predict_sources_witness :
  predict demo_world "zz" [Row [1%float]] demo_service =
    (Raise (ValueError (ModelNotFound "zz")), demo_service) ∧
  (∃ fetched st1,
     clearml_load_model demo_world (Some "c0") "m0" demo_service =
       (Ok fetched, st1) ∧
     existing fetched st1 = None ∧
     existing (Some "models/m0.pkl") st1 = Some "models/m0.pkl" ∧
     predict demo_world "m0" [Row [1%float]] demo_service =
       external "load"
         (load_predict demo_world (RandomForestModel ∅) "models/m0.pkl"
            [Row [1%float]]) st1) ∧
  predict demo_world "m1" [Row [1%float]] demo_service =
    external "load"
      (load_predict demo_world (LinearModel {["alpha" := PyFloat 0.5]})
         "models/m1.pkl" [Row [1%float]]) demo_service.
Proof.
  split_and!.
  - apply (proj1 (predict_sources demo_world "zz" [Row [1%float]] demo_service)).
    vm_compute; reflexivity.
  - destruct (proj1 (proj1 (proj2 (predict_sources demo_world "m0"
                                     [Row [1%float]] demo_service))
                       demo_tracked [Row [1%float]] (RandomForestModel ∅)
                       eq_refl eq_refl eq_refl) eq_refl)
      as (fetched & st1 & Hload & _ & Hlocal & _).
    assert ((Ok fetched, st1) = (Ok (Some "models/m0_clearml.pkl"), demo_service))
      as [= -> ->] by (rewrite <- Hload; vm_compute; reflexivity).
    exists (Some "models/m0_clearml.pkl"), demo_service.
    split_and!; [exact Hload | by vm_compute | by vm_compute |].
    apply Hlocal; by vm_compute.
  - apply (proj2 (proj1 (proj2 (predict_sources demo_world "m1"
                                  [Row [1%float]] demo_service))
                    demo_old [Row [1%float]]
                    (LinearModel {["alpha" := PyFloat 0.5]})
                    eq_refl eq_refl eq_refl) eq_refl).
    by vm_compute.
Defined.

Lemma load_dataset_contract_witness :
  Dataset.load_dataset demo_data_world "zz" demo_datasets =
    (Raise (ValueError (DatasetNotFound "zz")), demo_datasets) ∧
  Dataset.load_dataset demo_data_world "d2" demo_datasets =
    (Raise (ValueError TooFewColumns), demo_datasets) ∧
  Dataset.load_dataset demo_data_world "d1" demo_datasets =
    (Ok ([[PyFloat 1; PyFloat 2.5]; [PyFloat 4; PyFloat 5.5]],
         [PyInt 3; PyInt 6]), demo_datasets) ∧
  ∃ X y,
    Dataset.load_dataset demo_data_world "d1" demo_datasets =
      (Ok (X, y), demo_datasets) ∧
    length X = 2%nat ∧ Forall (λ xs, length xs = 2%nat) X ∧ length y = 2%nat ∧
    ∀ i row, Dataset.cells demo_table !! i = Some row →
      ∃ xs t,
        row = (xs ++ [t])%list ∧
        X !! i =
          Some (Dataset.numpy_cell demo_data_world
                  (Dataset.iloc_features demo_table) <$> xs) ∧
        y !! i =
          Some (Dataset.numpy_cell demo_data_world
                  ((λ c, [c]) <$> Dataset.iloc_target demo_table) t).
Proof.
  split_and!.
  - apply (proj1 (load_dataset_contract demo_data_world "zz" demo_datasets)).
    vm_compute; reflexivity.
  - apply (proj2 (load_dataset_contract demo_data_world "d2" demo_datasets)
             demo_json "[[1]]" demo_datasets demo_narrow_table);
      [vm_compute; reflexivity .. | simpl; lia].
  - vm_compute; reflexivity.
  - apply (proj2 (load_dataset_contract demo_data_world "d1" demo_datasets)
             demo_csv "x1,x2,y" demo_datasets demo_table);
      [vm_compute; reflexivity .. | simpl; lia | repeat constructor].
Defined.

(** C1, where the code departs from it: [delete_model] drops the record from
    the registry and leaves the metadata file as it was, so the file still
    holds the deleted record. *)
Theorem delete_model_not_persisted :
  ∃ st', delete_model "m1" demo_service = (Ok true, st') ∧
         get_model "m1" st' = None ∧
         ∃ d, metadata_file st' = FileJson d ∧
              d !! "m1" = Some (to_json demo_old).
Proof.
  destruct (delete_model_known "m1" demo_old demo_service)
    as (st' & Hrun & Hmodels & Hfile); [by vm_compute|].
  exists st'. split; [exact Hrun|]. split.
  - unfold get_model. rewrite Hmodels. apply lookup_delete_eq.
  - rewrite Hfile. eexists. split; [reflexivity|]. by vm_compute.
Qed.

(** C8, where the code departs from it: on a host without the [dvc]
    executable, [dvc add] cannot be started, [add_dataset] lets the exception
    through, and [upload_dataset] ends without a record. *)
Theorem upload_dataset_snapshot_not_started :
  Dataset.dvc_add demo_data_world_no_dvc "data/d9.csv" = Dataset.OSError ∧
  ∃ st', Dataset.upload_dataset demo_data_world_no_dvc "new.csv" "x,y" "csv"
           demo_datasets = (Raise (ExternalError "subprocess.run"), st') ∧
         Dataset.get_dataset "d9" st' = None ∧
         Dataset.datasets st' = Dataset.datasets demo_datasets ∧
         Dataset.metadata_file st' = Dataset.metadata_file demo_datasets.
Proof.
  split; [reflexivity|]. eexists. split.
  - by apply upload_dataset_not_started.
  - split_and!; by vm_compute.
Qed.

(** * Further properties of the model service *)

Lemma bind_Ok_inv {S A B} (m : M S A) (f : A → M S B) st b st2 :
  (m ≫= f) st = (Ok b, st2) →
  ∃ a st1, m st = (Ok a, st1) ∧ f a st1 = (Ok b, st2).
Proof.
  unfold mbind, M_bind. destruct (m st) as [[a|e] st1]; [eauto | congruence].
Qed.

Lemma quiet_refl st : quiet st st.
Proof. split; [apply frame_refl | done]. Qed.

Lemma quiet_trans st1 st2 st3 : quiet st1 st2 → quiet st2 st3 → quiet st1 st3.
Proof.
  intros [] []. split; [by eapply frame_trans | by etrans].
Qed.

Lemma quiet_log_report r st : quiet st (log_report r st).
Proof. by split. Qed.

Lemma quiet_set_bucket f st : quiet st (set_bucket f st).
Proof. by split. Qed.

Lemma quiet_add_file p st : quiet st (set_disk (λ d, {[p]} ∪ d) st).
Proof. split; [done|]. simpl. apply union_subseteq_r. Qed.

Lemma report_metrics_quiet ttl it l st :
  ∃ st', report_metrics ttl it l st = (Ok tt, st') ∧ quiet st st'.
Proof.
  unfold report_metrics, modify. eexists; split; [done|].
  revert st.
  induction l as [|kv l IH]; intros st; simpl; [apply quiet_refl|].
  destruct (reportable kv.2);
    [eapply quiet_trans; [apply quiet_log_report | apply IH] | apply IH].
Qed.

Lemma when_quiet b (m : M ModelService unit) st st' :
  (∀ st', m st = (Ok tt, st') → quiet st st') →
  when b m st = (Ok tt, st') → quiet st st'.
Proof.
  intros Hm. destruct b; simpl; [apply Hm|]. intros [= <-]. apply quiet_refl.
Qed.

Lemma report_metrics_Ok_quiet ttl it ms st st' :
  report_metrics ttl it ms st = (Ok tt, st') → quiet st st'.
Proof.
  destruct (report_metrics_quiet ttl it ms st) as (st1 & -> & Hq).
  by intros [= <-].
Qed.

Lemma clearml_save_model_quiet w path ms task st cid st' :
  clearml_save_model w path ms task st = (Ok cid, st') → quiet st st'.
Proof.
  unfold clearml_save_model.
  rewrite (bind_Ok _ _ st (clearml_initialized st) st) by done.
  destruct (negb (clearml_initialized st)).
  { intros [= _ <-]. apply quiet_refl. }
  destruct (match task with Some t => Some t | None => _ end).
  2:{ intros [= _ <-]. apply quiet_refl. }
  intros (u & st1 & Hw & H)%bind_Ok_inv. destruct u.
  apply (when_quiet _ _ _ _ (report_metrics_Ok_quiet _ _ _ _)) in Hw.
  unfold mbind, M_bind, gets, mret, M_ret in H.
  destruct (bool_decide _); by simplify_eq.
Qed.

Lemma _save_model_to_minio_quiet w mid path st st' :
  _save_model_to_minio w mid path st = (Ok tt, st') →
  quiet st st' ∧ tracker_log st' = tracker_log st.
Proof.
  unfold _save_model_to_minio.
  rewrite (bind_Ok _ _ st (minio_client st) st) by done.
  destruct (negb (minio_client st)).
  { intros [= <-]. split; [apply quiet_refl | done]. }
  unfold try_except, mbind, M_bind, external, modify, raise.
  destruct (put_object w path); [|done].
  intros [= <-]. split; [apply quiet_set_bucket | done].
Qed.

Lemma clearml_load_model_quiet w cid mid st fetched st' :
  clearml_load_model w cid mid st = (Ok fetched, st') → quiet st st'.
Proof.
  unfold clearml_load_model.
  rewrite (bind_Ok _ _ st (clearml_initialized st) st) by done.
  destruct cid as [c|]; [|intros [= _ <-]; apply quiet_refl].
  destruct (negb (clearml_initialized st)); [intros [= _ <-]; apply quiet_refl|].
  rewrite (bind_Ok _ _ st (models_dir st) st) by done.
  destruct (get_weights w c) as [|[]]; simpl; intros [= _ <-];
    [apply quiet_refl | apply quiet_add_file | apply quiet_refl].
Qed.

(** The steps of a [train_model] call that returned. *)
Lemma train_model_Ok_trace w mt ds hp X y st mid st' :
  let path := path_join (models_dir st) (uuid4 w ++ ".pkl") in
  train_model w mt ds hp X y st = (Ok mid, st') →
  ∃ task model ms cid st1 st2 st3 st4,
    mid = uuid4 w ∧
    task = create_experiment w (clearml_initialized st) ∧
    quiet st st1 ∧
    (clearml_initialized st = false → st1 = st) ∧
    create_model mt hp = Ok model ∧ fit w model X y = Some ms ∧
    when (bool_decide (is_Some task))
      (report_metrics "Training Metrics" 1 (dict_items w ms)) st1 = (Ok tt, st2) ∧
    clearml_save_model w path ms task (set_disk (λ d, {[path]} ∪ d) st2) =
      (Ok cid, st3) ∧
    _save_model_to_minio w (uuid4 w) path st3 = (Ok tt, st4) ∧
    st' = committed (uuid4 w)
            (trained_record w mt ds hp (models_dir st) cid ms) st4 ∧
    tracker_log st1 =
      (tracker_log st ++
         (if task is Some _
          then [{| title := "Training Progress"; series := "status";
                   value := 0; iteration := 0 |}]
          else []))%list.
Proof.
  intros path. unfold train_model.
  rewrite (bind_Ok _ _ st (clearml_initialized st) st) by done.
  intros (task & st1 & Htask & H)%bind_Ok_inv.
  assert (task = create_experiment w (clearml_initialized st) ∧ quiet st st1 ∧
          (clearml_initialized st = false → st1 = st) ∧
          tracker_log st1 =
            (tracker_log st ++
               (if task is Some _
                then [{| title := "Training Progress"; series := "status";
                         value := 0; iteration := 0 |}]
                else []))%list) as (Htask' & Hq1 & Hst1 & Hlog1).
  { unfold create_experiment in *.
    destruct (clearml_initialized st).
    - destruct (task_init w); vm_compute in Htask; simplify_eq;
        (split_and!; [done | | done | ]);
        [apply quiet_log_report | done | apply quiet_refl
        | simpl; by rewrite (right_id [] (++)%list)].
    - vm_compute in Htask. simplify_eq.
      split_and!; [done | apply quiet_refl | done
                  | simpl; by rewrite (right_id [] (++)%list)]. }
  rewrite Htask' in Hlog1. subst task.
  apply bind_Ok_inv in H as (model & ? & Hmodel & H).
  unfold lift in Hmodel. injection Hmodel as Hmodel <-.
  apply bind_Ok_inv in H as (ms & ? & Hfit & H).
  unfold external in Hfit. destruct (fit w model X y) as [ms'|] eqn:Hfit';
    [|done]. injection Hfit as -> <-.
  apply bind_Ok_inv in H as ([] & st2 & Hreport & H).
  assert (quiet st1 st2) as Hq2
    by (eapply when_quiet; [apply report_metrics_Ok_quiet | exact Hreport]).
  rewrite (bind_Ok _ _ st2 (models_dir st2) st2) in H by done.
  assert (models_dir st2 = models_dir st) as Hdir.
  { etrans; [apply Hq2 | apply Hq1]. }
  rewrite Hdir in H. fold path in H.
  apply bind_Ok_inv in H as ([] & ? & Hdump & H).
  unfold external in Hdump.
  destruct (pickle_dump w model path) as [[]|]; [|done].
  injection Hdump as <-.
  rewrite (bind_Ok _ _ st2 tt (set_disk (λ d, {[path]} ∪ d) st2)) in H by done.
  apply bind_Ok_inv in H as (cid & st3 & Hcid & H).
  apply bind_Ok_inv in H as ([] & st4 & Hminio & H).
  rewrite (bind_Ok _ _ st4 tt (set_models _ st4)) in H by done.
  apply bind_Ok_inv in H as ([] & st5 & Hsave & H).
  rewrite (_save_model_metadata_one (uuid4 w)
             (trained_record w mt ds hp (models_dir st) cid ms)) in Hsave
    by (simpl; by rewrite lookup_insert_eq).
  injection Hsave as <-.
  unfold mret, M_ret in H. injection H as <- <-.
  exists (create_experiment w (clearml_initialized st)), model, ms, cid,
    st1, st2, st3, st4.
  split_and!; done.
Qed.

Lemma clearml_save_model_absent w path ms task st :
  clearml_initialized st = false →
  clearml_save_model w path ms task st = (Ok None, st).
Proof.
  intros Hinit. unfold clearml_save_model.
  rewrite (bind_Ok _ _ st (clearml_initialized st) st) by done.
  by rewrite Hinit.
Qed.

(** A [train_model] call that returned, summed up: the new record is stored
    on a state [st1] that kept registry, metadata file and every file of
    [st], and that holds the pickled estimator; without a tracker nothing was
    reported and the record has no tracker reference. *)
Lemma train_model_Ok_summary w mt ds hp X y st mid st' :
  train_model w mt ds hp X y st = (Ok mid, st') →
  ∃ model ms cid st1,
    mid = uuid4 w ∧ create_model mt hp = Ok model ∧
    fit w model X y = Some ms ∧ quiet st st1 ∧
    path_join (models_dir st) (mid ++ ".pkl") ∈ disk st1 ∧
    st' = committed mid (trained_record w mt ds hp (models_dir st) cid ms) st1 ∧
    (clearml_initialized st = false →
       cid = None ∧ tracker_log st1 = tracker_log st).
Proof.
  intros (task & model & ms & cid & st1 & st2 & st3 & st4 & -> & -> & Hq1 &
          Hst1 & Hmodel & Hfit & Hrep & Hcid & Hminio & -> & _)%train_model_Ok_trace.
  set (path := path_join (models_dir st) (uuid4 w ++ ".pkl")) in *.
  pose proof (when_quiet _ _ _ _ (report_metrics_Ok_quiet _ _ _ _) Hrep) as Hq2.
  pose proof (clearml_save_model_quiet _ _ _ _ _ _ _ Hcid) as Hq3.
  pose proof (_save_model_to_minio_quiet _ _ _ _ _ Hminio) as [Hq4 Hlog4].
  assert (quiet (set_disk (λ d, {[path]} ∪ d) st2) st4) as Hq
    by (by eapply quiet_trans).
  exists model, ms, cid, st4. split_and!; [done..| | | done |].
  - eapply quiet_trans; [exact Hq1|]. eapply quiet_trans; [exact Hq2|].
    eapply quiet_trans; [apply quiet_add_file | exact Hq].
  - apply Hq. simpl. apply elem_of_union_l. by apply elem_of_singleton.
  - intros Hinit. specialize (Hst1 Hinit) as ->.
    rewrite Hinit in Hrep, Hcid. simpl in Hrep. injection Hrep as <-.
    rewrite clearml_save_model_absent in Hcid by done.
    injection Hcid as <- <-. split; [done|]. by rewrite Hlog4.
Qed.

Lemma append_nonempty (a b : string) : b ≠ "" → a ++ b ≠ "".
Proof. destruct a; [done|]. simpl. discriminate. Qed.

Lemma path_join_nonempty dir name : name ≠ "" → path_join dir name ≠ "".
Proof.
  intros Hname. unfold path_join.
  destruct (String.prefix "/" name); [done|].
  destruct (_ || _); [by apply append_nonempty|].
  by apply append_nonempty, append_nonempty.
Qed.

Lemma existing_Some p st : p ≠ "" → p ∈ disk st → existing (Some p) st = Some p.
Proof.
  intros Hp Hin. unfold existing.
  apply String.eqb_neq in Hp. rewrite Hp. simpl.
  by rewrite bool_decide_eq_true_2.
Qed.

Lemma existing_on_disk p st q : existing p st = Some q → q ∈ disk st ∧ q ≠ "".
Proof.
  unfold existing. destruct p as [p|]; [|done].
  destruct (String.eqb_spec p ""); simpl; [done|].
  case_bool_decide; [|done]. by intros [= <-].
Qed.

Lemma predict_unknown w mid features st :
  models st !! mid = None →
  predict w mid features st = (Raise (ValueError (ModelNotFound mid)), st).
Proof.
  intros Hnone. unfold predict.
  by rewrite (bind_Ok _ _ st None st) by (unfold gets; by rewrite Hnone).
Qed.

Lemma predict_untracked w mid features st info rows model :
  models st !! mid = Some info →
  _convert_features_to_list features = Ok rows →
  create_model (model_type info) (hyperparameters info) = Ok model →
  str_truthy (clearml_model_id info) = false →
  predict w mid features st =
    match existing (model_path info) st with
    | Some p => external "load" (load_predict w model p rows) st
    | None => (Raise (ValueError (ModelNotFoundLocally mid)), st)
    end.
Proof.
  intros Hinfo Hrows Hmodel Hcid. unfold predict.
  rewrite (bind_Ok _ _ st (Some info) st) by (unfold gets; by rewrite Hinfo).
  rewrite Hrows, (bind_Ok _ _ st rows st) by done.
  rewrite Hmodel, (bind_Ok _ _ st model st) by done.
  rewrite Hcid.
  rewrite (bind_Ok _ _ st (existing (model_path info) st) st) by done.
  by destruct (existing (model_path info) st).
Qed.

Lemma predict_tracked w mid features st info rows model :
  models st !! mid = Some info →
  _convert_features_to_list features = Ok rows →
  create_model (model_type info) (hyperparameters info) = Ok model →
  str_truthy (clearml_model_id info) = true →
  ∃ fetched st1,
    clearml_load_model w (clearml_model_id info) mid st = (Ok fetched, st1) ∧
    predict w mid features st =
      match existing fetched st1, existing (model_path info) st1 with
      | Some p, _ => external "load" (load_predict w model p rows) st1
      | None, Some p => external "load" (load_predict w model p rows) st1
      | None, None => (Raise (ValueError (ModelNotLoadable mid)), st1)
      end.
Proof.
  intros Hinfo Hrows Hmodel Hcid. unfold predict.
  rewrite (bind_Ok _ _ st (Some info) st) by (unfold gets; by rewrite Hinfo).
  rewrite Hrows, (bind_Ok _ _ st rows st) by done.
  rewrite Hmodel, (bind_Ok _ _ st model st) by done.
  rewrite Hcid.
  destruct (clearml_load_model_spec w (clearml_model_id info) mid st)
    as (fetched & st1 & Hload & _).
  exists fetched, st1. split; [done|].
  rewrite (bind_Ok _ _ _ _ _ Hload).
  rewrite (bind_Ok _ _ st1 (existing fetched st1) st1) by done.
  destruct (existing fetched st1); [done|].
  rewrite (bind_Ok _ _ st1 (existing (model_path info) st1) st1) by done.
  by destruct (existing (model_path info) st1).
Qed.

(** X1.  Without a tracker ([clearml_service.initialized] is false), a
    [train_model] call that returns has reported nothing to the tracker and
    has stored a record without tracker reference. *)
Theorem train_model_without_tracker w mt ds hp X y st mid st' :
  clearml_initialized st = false →
  train_model w mt ds hp X y st = (Ok mid, st') →
  tracker_log st' = tracker_log st ∧
  ∃ info, get_model mid st' = Some info ∧ clearml_model_id info = None.
Proof.
  intros Hinit (model & ms & cid & st1 & -> & _ & _ & _ & _ & -> & Habsent)
    %train_model_Ok_summary.
  destruct (Habsent Hinit) as [-> Hlog]. split; [done|].
  eexists. split.
  - unfold get_model. rewrite committed_models. apply lookup_insert_eq.
  - reflexivity.
Qed.

(** X2.  After a [train_model] call that returned, [predict] on the new id,
    with features that convert, reaches the loading of a pickle file that is
    on disk: it raises none of its own [ValueError]s.  Without a tracker that
    file is the one [train_model] wrote, and [predict] changes nothing. *)
Theorem predict_after_train w w' mt ds hp X y st mid st' features rows :
  train_model w mt ds hp X y st = (Ok mid, st') →
  _convert_features_to_list features = Ok rows →
  ∃ model path st'',
    create_model mt hp = Ok model ∧
    path ∈ disk st'' ∧
    predict w' mid features st' =
      external "load" (load_predict w' model path rows) st'' ∧
    (clearml_initialized st = false →
       path = path_join (models_dir st) (mid ++ ".pkl") ∧ st'' = st').
Proof.
  intros (model & ms & cid & st1 & -> & Hmodel & _ & Hq & Hfile & -> & Habsent)
    %train_model_Ok_summary Hrows.
  set (path := path_join (models_dir st) (uuid4 w ++ ".pkl")) in *.
  set (info := trained_record w mt ds hp (models_dir st) cid ms).
  assert (path ≠ "") as Hpath by (by apply path_join_nonempty, append_nonempty).
  assert (models (committed (uuid4 w) info st1) !! uuid4 w = Some info) as Hinfo.
  { rewrite committed_models. apply lookup_insert_eq. }
  exists model.
  destruct (str_truthy cid) eqn:Hcid.
  - destruct (predict_tracked w' _ features _ info rows model Hinfo Hrows
                Hmodel Hcid) as (fetched & st2 & Hload & ->).
    pose proof (clearml_load_model_quiet _ _ _ _ _ _ Hload) as Hq2.
    destruct (existing fetched st2) as [p|] eqn:Hfetched.
    + exists p, st2. split_and!; [done | | done |].
      * by apply existing_on_disk in Hfetched as [? _].
      * intros Hinit. destruct (Habsent Hinit) as [-> _]. done.
    + exists path, st2.
      assert (path ∈ disk st2) as Hin by (by apply Hq2).
      change (model_path info) with (Some path).
      rewrite (existing_Some path st2) by done.
      split_and!; [done | done | done |].
      intros Hinit. destruct (Habsent Hinit) as [-> _]. done.
  - exists path, (committed (uuid4 w) info st1).
    rewrite (predict_untracked w' _ features _ info rows model Hinfo Hrows
               Hmodel Hcid).
    change (model_path info) with (Some path).
    rewrite (existing_Some path) by done. done.
Qed.

Lemma bind_inv {S A B} (m : M S A) (f : A → M S B) st r st2 :
  (m ≫= f) st = (r, st2) →
  (∃ e, m st = (Raise e, st2) ∧ r = Raise e) ∨
  (∃ a st1, m st = (Ok a, st1) ∧ f a st1 = (r, st2)).
Proof.
  unfold mbind, M_bind. destruct (m st) as [[a|e] st1].
  - right. eauto.
  - intros [= <- <-]. left. eauto.
Qed.

Lemma external_state {S A} origin (o : option A) (st : S) r st' :
  external origin o st = (r, st') → st' = st.
Proof. unfold external. destruct o; by intros [= _ <-]. Qed.

Lemma predict_quiet w mid features st r st' :
  predict w mid features st = (r, st') → quiet st st'.
Proof.
  unfold predict.
  rewrite (bind_Ok _ _ st (models st !! mid) st) by done.
  destruct (models st !! mid) as [info|];
    [|intros [= _ <-]; apply quiet_refl].
  intros [(e & He & _)|(rows & ? & Hrows & Hrun)]%bind_inv;
    unfold lift in *; [injection He as _ <-; apply quiet_refl|].
  injection Hrows as _ <-.
  apply bind_inv in Hrun as [(e & He & _)|(model & ? & Hmodel & Hrun)];
    unfold lift in *; [injection He as _ <-; apply quiet_refl|].
  injection Hmodel as _ <-.
  destruct (str_truthy (clearml_model_id info)).
  - apply bind_inv in Hrun as [(e & He & _)|(fetched & st1 & Hload & Hrun)].
    { destruct (clearml_load_model_spec w (clearml_model_id info) mid st)
        as (? & ? & Hok & _). congruence. }
    apply clearml_load_model_quiet in Hload.
    rewrite (bind_Ok _ _ st1 (existing fetched st1) st1) in Hrun by done.
    destruct (existing fetched st1).
    { by apply external_state in Hrun as ->. }
    rewrite (bind_Ok _ _ st1 (existing (model_path info) st1) st1) in Hrun
      by done.
    destruct (existing (model_path info) st1).
    { by apply external_state in Hrun as ->. }
    by injection Hrun as _ <-.
  - rewrite (bind_Ok _ _ st (existing (model_path info) st) st) in Hrun by done.
    destruct (existing (model_path info) st).
    { apply external_state in Hrun as ->. apply quiet_refl. }
    injection Hrun as _ <-. apply quiet_refl.
Qed.

(** The one thing [load_model] can leave behind: the fetched file. *)
Lemma clearml_load_model_state w cid mid st fetched st' :
  clearml_load_model w cid mid st = (Ok fetched, st') →
  st' = st ∨
  clearml_initialized st = true ∧
  ∃ c, cid = Some c ∧ get_weights w c = WeightsReturned true ∧
       st' = set_disk
               (λ d, {[path_join (models_dir st) (mid ++ "_clearml.pkl")]} ∪ d)
               st.
Proof.
  unfold clearml_load_model.
  rewrite (bind_Ok _ _ st (clearml_initialized st) st) by done.
  destruct cid as [c|]; [|intros [= _ <-]; by left].
  destruct (clearml_initialized st); simpl; [|intros [= _ <-]; by left].
  rewrite (bind_Ok _ _ st (models_dir st) st) by done.
  destruct (get_weights w c) as [|[]] eqn:Hw; simpl; intros [= _ <-];
    [by left | | by left].
  right. split; [done|]. by exists c.
Qed.

Lemma predict_state w mid features st r st' :
  predict w mid features st = (r, st') →
  st' = st ∨
  clearml_initialized st = true ∧
  ∃ info c,
    get_model mid st = Some info ∧ clearml_model_id info = Some c ∧
    get_weights w c = WeightsReturned true ∧
    st' = set_disk
            (λ d, {[path_join (models_dir st) (mid ++ "_clearml.pkl")]} ∪ d)
            st.
Proof.
  unfold predict, get_model.
  rewrite (bind_Ok _ _ st (models st !! mid) st) by done.
  destruct (models st !! mid) as [info|] eqn:Hinfo;
    [|intros [= _ <-]; by left].
  intros [(e & He & _)|(rows & ? & Hrows & Hrun)]%bind_inv;
    unfold lift in *; [injection He as _ <-; by left|].
  injection Hrows as _ <-.
  apply bind_inv in Hrun as [(e & He & _)|(model & ? & Hmodel & Hrun)];
    unfold lift in *; [injection He as _ <-; by left|].
  injection Hmodel as _ <-.
  destruct (str_truthy (clearml_model_id info)).
  - apply bind_inv in Hrun as [(e & He & _)|(fetched & st1 & Hload & Hrun)].
    { destruct (clearml_load_model_spec w (clearml_model_id info) mid st)
        as (? & ? & Hok & _). congruence. }
    assert (st' = st1) as ->.
    { rewrite (bind_Ok _ _ st1 (existing fetched st1) st1) in Hrun by done.
      destruct (existing fetched st1).
      { by apply external_state in Hrun. }
      rewrite (bind_Ok _ _ st1 (existing (model_path info) st1) st1) in Hrun
        by done.
      destruct (existing (model_path info) st1).
      { by apply external_state in Hrun. }
      by injection Hrun as _ <-. }
    apply clearml_load_model_state in Hload as [->|(Hinit & c & Hc & Hw & ->)];
      [by left|].
    right. split; [done|]. by exists info, c.
  - rewrite (bind_Ok _ _ st (existing (model_path info) st) st) in Hrun by done.
    destruct (existing (model_path info) st).
    { apply external_state in Hrun as ->. by left. }
    injection Hrun as _ <-. by left.
Qed.

(** X3.  [predict] never writes the registry or the metadata file and
    removes no file, whether it returns or raises.  It leaves the state as it
    found it, except when the tracker service is initialised, the record has
    a tracker reference and the tracker hands the file over: then the state
    differs by that one file, [<models_dir>/<id>_clearml.pkl], and by nothing
    else. *)
Theorem predict_keeps_registry w mid features st r st' :
  predict w mid features st = (r, st') →
  models st' = models st ∧ metadata_file st' = metadata_file st ∧
  disk st ⊆ disk st' ∧
  (st' = st ∨
   clearml_initialized st = true ∧
   ∃ info c,
     get_model mid st = Some info ∧ clearml_model_id info = Some c ∧
     get_weights w c = WeightsReturned true ∧
     st' = set_disk
             (λ d, {[path_join (models_dir st) (mid ++ "_clearml.pkl")]} ∪ d)
             st).
Proof.
  intros Hrun. pose proof Hrun as [[] ?]%predict_quiet.
  split_and!; [done..|]. by eapply predict_state.
Qed.

(** X4.  With the tracker not initialised, [predict] on a record that has a
    tracker reference asks nothing of the tracker: it loads the local file if
    that exists and raises the not-loadable [ValueError] otherwise, and the
    state is the one it started in. *)
Theorem predict_tracker_down w mid features st info rows model :
  clearml_initialized st = false →
  get_model mid st = Some info →
  str_truthy (clearml_model_id info) = true →
  _convert_features_to_list features = Ok rows →
  create_model (model_type info) (hyperparameters info) = Ok model →
  predict w mid features st =
    match existing (model_path info) st with
    | Some p => external "load" (load_predict w model p rows) st
    | None => (Raise (ValueError (ModelNotLoadable mid)), st)
    end.
Proof.
  intros Hinit Hinfo Hcid Hrows Hmodel.
  destruct (predict_tracked w mid features st info rows model Hinfo Hrows
              Hmodel Hcid) as (fetched & st1 & Hload & ->).
  assert (fetched = None ∧ st1 = st) as [-> ->].
  { revert Hload. unfold clearml_load_model.
    rewrite (bind_Ok _ _ st (clearml_initialized st) st) by done.
    rewrite Hinit. destruct (clearml_model_id info); by intros [= <- <-]. }
  done.
Qed.

(** X5.  [delete_model] on a stored id returns [True], drops the record and
    no other, and removes its pickle file; a second [delete_model] on the id
    returns [False] and changes nothing, and [predict] on it raises the
    not-found [ValueError]. *)
Theorem delete_model_twice mid info st :
  get_model mid st = Some info →
  ∃ st1,
    delete_model mid st = (Ok true, st1) ∧
    get_model mid st1 = None ∧
    (∀ other, other ≠ mid → get_model other st1 = get_model other st) ∧
    (∀ p, model_path info = Some p → p ≠ "" → p ∉ disk st1) ∧
    delete_model mid st1 = (Ok false, st1) ∧
    ∀ w features,
      predict w mid features st1 = (Raise (ValueError (ModelNotFound mid)), st1).
Proof.
  intros Hinfo. unfold get_model in *.
  assert (∃ st1, delete_model mid st = (Ok true, st1) ∧
                 models st1 = delete mid (models st) ∧
                 ∀ p, model_path info = Some p → p ≠ "" → p ∉ disk st1)
    as (st1 & Hrun & Hmodels & Hfile).
  { unfold delete_model.
    rewrite (bind_Ok _ _ st (Some info) st) by (unfold gets; by rewrite Hinfo).
    rewrite (bind_Ok _ _ st (existing (model_path info) st) st) by done.
    destruct (existing (model_path info) st) as [q|] eqn:Hq.
    - eexists. split; [done|]. split; [done|]. simpl.
      intros p Hp _. unfold existing in Hq. rewrite Hp in Hq.
      destruct (negb _ && _); [|done]. injection Hq as <-.
      rewrite elem_of_difference, elem_of_singleton. by intros [_ ?].
    - eexists. split; [done|]. split; [done|]. simpl.
      intros p Hp Hne Hin. rewrite Hp, existing_Some in Hq; done. }
  assert (models st1 !! mid = None) as Hgone
    by (rewrite Hmodels; apply lookup_delete_eq).
  exists st1. split_and!; [done | done | | done | |].
  - intros other Hother. rewrite Hmodels. by apply lookup_delete_ne.
  - unfold delete_model.
    by rewrite (bind_Ok _ _ st1 None st1) by (unfold gets; by rewrite Hgone).
  - intros w features. by apply predict_unknown.
Qed.

(** ** The conversion of features *)

Lemma sorted_keys_length (d : gmap string float) :
  length (sorted_keys d) = size d.
Proof.
  unfold sorted_keys.
  by rewrite merge_sort_Permutation, length_fmap, length_map_to_list.
Qed.

Lemma project_Ok keys item row :
  project keys item = Ok row →
  (∃ xs, row = Row xs ∧ length xs = length keys) ∧
  (keys ≠ [] →
     ∃ d, item = Rec d ∧
          row = Row ((λ key, default 0%float (d !! key)) <$> keys)).
Proof.
  destruct item as [xs|d|v]; simpl.
  - destruct keys; [|done]. intros [= <-]. split; [by exists []|done].
  - intros [= <-]. split; [|by exists d].
    eexists. split; [done|]. by rewrite length_fmap.
  - destruct keys; [|done]. intros [= <-]. split; [by exists []|done].
Qed.

Lemma project_all_Ok keys items rows :
  project_all keys items = Ok rows →
  Forall2 (λ item row, project keys item = Ok row) items rows.
Proof.
  revert rows. induction items as [|item items IH]; intros rows; simpl;
    [intros [= <-]; constructor|].
  destruct (project keys item) as [r|] eqn:Hitem; [|done].
  destruct (project_all keys items) as [rs|]; [|done].
  intros [= <-]. constructor; [done | by apply IH].
Qed.

Lemma project_all_no_keys items :
  project_all [] items = Ok (replicate (length items) (Row [])).
Proof.
  induction items as [|item items IH]; [done|]. simpl. rewrite IH.
  by destruct item.
Qed.

Lemma sorted_keys_nil (d : gmap string float) :
  sorted_keys d = [] ↔ d = ∅.
Proof.
  rewrite <- length_zero_iff_nil, sorted_keys_length.
  apply map_size_empty_iff.
Qed.

Lemma convert_records_shape first items rows :
  _convert_features_to_list (Rec first :: items) = Ok rows →
  length rows = S (length items) ∧
  Forall (λ row, ∃ xs, row = Row xs ∧ length xs = size first) rows ∧
  (first ≠ ∅ → Forall (λ item, ∃ d, item = Rec d) items).
Proof.
  change (_convert_features_to_list (Rec first :: items))
    with (project_all (sorted_keys first) (Rec first :: items)).
  intros Hall%project_all_Ok.
  split; [symmetry; apply (Forall2_length _ _ _ Hall)|].
  split.
  - apply (Forall2_Forall_r _ _ _ _ Hall), Forall_true.
    intros item r ((xs & -> & Hlen) & _)%project_Ok. exists xs.
    by rewrite Hlen, sorted_keys_length.
  - intros Hfirst.
    apply Forall2_cons_inv_l in Hall as (row & rows' & _ & Hall & ->).
    apply (Forall2_Forall_l _ _ _ _ Hall), Forall_true.
    intros r item [_ Hrec]%project_Ok.
    destruct Hrec as (d & -> & _); [by rewrite sorted_keys_nil|]. by exists d.
Qed.

(** X6.  When the first sample is a record, a conversion that returns gives
    one row per sample, every row as wide as the first record has keys,
    whatever keys the later records have; and when the first record has a
    key it returns only if every sample is a record. *)
Theorem convert_records_rectangular first items rows :
  _convert_features_to_list (Rec first :: items) = Ok rows →
  length rows = S (length items) ∧
  Forall (λ row, ∃ xs, row = Row xs ∧ length xs = size first) rows ∧
  (first ≠ ∅ → Forall (λ item, ∃ d, item = Rec d) items).
Proof. apply convert_records_shape. Qed.

(** X7.  A list that starts with a record that has a key and holds a sample
    that is not a record raises [AttributeError], which is not a
    [ValueError].  When the first record has no key, no sample is looked
    into: the conversion returns one empty row per sample, whatever the
    samples are. *)
Theorem convert_mixed_samples first items :
  (first ≠ ∅ →
   Exists (λ item, ∀ d, item ≠ Rec d) items →
   _convert_features_to_list (Rec first :: items) = Raise AttributeError) ∧
  (first = ∅ →
   _convert_features_to_list (Rec first :: items) =
     Ok (replicate (S (length items)) (Row []))).
Proof.
  split.
  - intros Hfirst Hmixed.
    destruct (_convert_features_to_list (Rec first :: items))
      as [rows|e] eqn:H.
    + apply convert_records_shape in H as (_ & _ & Hall).
      apply Exists_exists in Hmixed as (item & Hin & Hnot).
      specialize (Hall Hfirst). rewrite Forall_forall in Hall.
      destruct (Hall item Hin) as [d ->]. by destruct (Hnot d).
    + unfold _convert_features_to_list in H.
      by apply project_all_Raise in H as ->.
  - intros ->. unfold _convert_features_to_list.
    replace (sorted_keys ∅) with (@nil string) by (symmetry; by apply sorted_keys_nil).
    apply project_all_no_keys.
Qed.

(** X8.  Converting what a conversion returned gives it back: a converted
    list is a matrix (or empty), and a matrix is passed through as it is. *)
Theorem convert_idempotent features rows :
  _convert_features_to_list features = Ok rows →
  _convert_features_to_list rows = Ok rows.
Proof.
  destruct features as [|[xs|d|v] items]; [by intros [= <-] | by intros [= <-] | | done].
  intros H.
  pose proof (convert_records_shape _ _ _ H) as (Hlen & Hrows & _).
  destruct rows as [|row rows]; [done|].
  apply Forall_cons in Hrows as [(xs & -> & _) _]. done.
Qed.

(** ** What sequences of calls keep *)

Lemma train_model_effect w mt ds hp X y st :
  frame st (train_model w mt ds hp X y st).2 ∨
  ∃ cid ms st1,
    frame st st1 ∧
    (train_model w mt ds hp X y st).2 =
      committed (uuid4 w) (trained_record w mt ds hp (models_dir st) cid ms) st1.
Proof.
  destruct (train_model_cases w mt ds hp X y st) as (st1 & Hf1 & H).
  destruct (create_model mt hp) as [model|]; [|left; by rewrite H].
  destruct (fit w model X y) as [ms|]; [|left; by rewrite H].
  destruct H as (st2 & Hf2 & H).
  destruct (pickle_dump _ _ _); [|left; by rewrite H].
  destruct H as (cid & st3 & Hf3 & H).
  destruct (_ && _); [left; by rewrite H|].
  destruct H as (st4 & Hf4 & H). right. exists cid, ms, st4. by rewrite H.
Qed.

(** What one call does to registry and metadata file: nothing, or it stores
    and writes out one new record under its own id, or it drops one record
    from the registry. *)
Lemma after_call_effect st c :
  frame st (after_call st c) ∨
  (∃ mid info st1 t,
     frame st st1 ∧ model_id info = mid ∧ created_at info = Datetime t ∧
     after_call st c = committed mid info st1) ∨
  (∃ mid, models (after_call st c) = delete mid (models st) ∧
          metadata_file (after_call st c) = metadata_file st).
Proof.
  destruct c as [w mt ds hp X y|w mid ds hp X y|w mid features|mid]; simpl.
  - destruct (train_model_effect w mt ds hp X y st)
      as [?|(cid & ms & st1 & ? & ->)]; [by left|].
    right; left.
    exists (uuid4 w), (trained_record w mt ds hp (models_dir st) cid ms),
      st1, (now w).
    split_and!; done.
  - unfold retrain_model.
    rewrite (bind_Ok _ _ st (models st !! mid) st) by done.
    destruct (models st !! mid) as [old|]; [|left; apply frame_refl].
    match goal with |- context [train_model w ?mt ds ?hp X y st] =>
      destruct (train_model_effect w mt ds hp X y st)
        as [?|(cid & ms & st1 & ? & ->)];
        [by left|];
      right; left;
      exists (uuid4 w), (trained_record w mt ds hp (models_dir st) cid ms),
        st1, (now w)
    end.
    split_and!; done.
  - left. destruct (predict w mid features st) as [r st'] eqn:Hrun.
    by apply predict_quiet in Hrun as [? _].
  - destruct (models st !! mid) as [info|] eqn:Hinfo.
    + destruct (delete_model_known mid info st Hinfo) as (st' & -> & ? & ?).
      right; right. by exists mid.
    + left. unfold delete_model.
      rewrite (bind_Ok _ _ st None st) by (unfold gets; by rewrite Hinfo).
      apply frame_refl.
Qed.

Lemma keyed_after_call st c : keyed st → keyed (after_call st c).
Proof.
  intros Hkeyed mid' info'.
  destruct (after_call_effect st c)
    as [Hf|[(mid & info & st1 & t & Hf & Hid & _ & ->)|(mid & -> & _)]].
  - rewrite (frame_models _ _ Hf). apply Hkeyed.
  - rewrite committed_models, (frame_models _ _ Hf).
    intros [[<- <-]|[_ ?]]%lookup_insert_Some; [done | by apply Hkeyed].
  - intros [_ ?]%lookup_delete_Some. by apply Hkeyed.
Qed.

Lemma dated_after_call st c : dated st → dated (after_call st c).
Proof.
  intros Hdated mid' info'.
  destruct (after_call_effect st c)
    as [Hf|[(mid & info & st1 & t & Hf & _ & Ht & ->)|(mid & -> & _)]].
  - rewrite (frame_models _ _ Hf). apply Hdated.
  - rewrite committed_models, (frame_models _ _ Hf).
    intros [[<- <-]|[_ ?]]%lookup_insert_Some; [by exists t | by eapply Hdated].
  - intros [_ ?]%lookup_delete_Some. by eapply Hdated.
Qed.

Lemma covered_after_call st c : covered st → covered (after_call st c).
Proof.
  intros [Hfile Hcov].
  destruct (after_call_effect st c)
    as [Hf|[(mid & info & st1 & t & Hf & _ & _ & ->)|(mid & Hm & Hsame)]].
  - split; [by rewrite (frame_file _ _ Hf)|]. intros mid' info'.
    rewrite (frame_models _ _ Hf), (frame_file _ _ Hf). apply Hcov.
  - rewrite <- (frame_file _ _ Hf) in Hfile.
    split.
    + rewrite committed_file. by destruct (metadata_file st1).
    + intros mid' info'. rewrite committed_models, committed_file.
      intros [[<- <-]|[Hne Hin]]%lookup_insert_Some.
      * destruct (merged_lookup mid info _ Hfile) as (d & -> & ?). by exists d.
      * rewrite (frame_models _ _ Hf) in Hin.
        destruct (Hcov _ _ Hin) as (data & Hdata & Hrec).
        rewrite (frame_file _ _ Hf), Hdata. simpl. eexists. split; [done|].
        by rewrite lookup_insert_ne.
  - split; [by rewrite Hsame|]. intros mid' info'. rewrite Hm, Hsame.
    intros [_ ?]%lookup_delete_Some. by apply Hcov.
Qed.

Lemma file_ids_after_call st c :
  file_ids (metadata_file st) ⊆ file_ids (metadata_file (after_call st c)).
Proof.
  destruct (after_call_effect st c)
    as [Hf|[(mid & info & st1 & t & Hf & _ & _ & ->)|(mid & _ & ->)]].
  - by rewrite (frame_file _ _ Hf).
  - rewrite committed_file, (frame_file _ _ Hf).
    destruct (metadata_file st) as [| |data]; simpl;
      [apply empty_subseteq | done |].
    rewrite dom_insert_L. apply union_subseteq_r.
  - done.
Qed.

(** X9.  Whatever calls are made on the model service, in whatever order and
    whether they return or raise: if every record was stored under its own
    id it still is, if every record carried a [datetime] it still does, and
    if the metadata file held every record of the registry it still does. *)
Theorem model_calls_keep_invariants st calls :
  (keyed st → keyed (foldl after_call st calls)) ∧
  (dated st → dated (foldl after_call st calls)) ∧
  (covered st → covered (foldl after_call st calls)).
Proof.
  revert st. induction calls as [|c calls IH]; intros st; simpl; [done|].
  destruct (IH (after_call st c)) as (Hk & Hd & Hc).
  split_and!; intros ?;
    [apply Hk, keyed_after_call | apply Hd, dated_after_call
    | apply Hc, covered_after_call]; done.
Qed.

(** X10.  No call on the model service takes an id out of the metadata file:
    the ids the file has records for only grow, also across [delete_model]. *)
Theorem metadata_file_never_forgets st calls :
  file_ids (metadata_file st) ⊆
    file_ids (metadata_file (foldl after_call st calls)).
Proof.
  revert st. induction calls as [|c calls IH]; intros st; simpl; [done|].
  etrans; [apply file_ids_after_call | apply IH].
Qed.

(** ** Starting from what is on disk *)

Lemma string_length_app (a b : string) :
  String.length (a ++ b) = String.length a + String.length b.
Proof. induction a as [|c a IH]; simpl; [done | by rewrite IH]. Qed.

Lemma substring_all (s : string) : String.substring 0 (String.length s) s = s.
Proof. induction s as [|c s IH]; simpl; [done | by rewrite IH]. Qed.

Lemma substring_app_r (a b : string) :
  String.substring (String.length a) (String.length b) (a ++ b) = b.
Proof. induction a as [|c a IH]; simpl; [apply substring_all | done]. Qed.

Lemma substring_app_l (a b : string) :
  String.substring 0 (String.length a) (a ++ b) = a.
Proof.
  induction a as [|c a IH]; simpl; [by destruct b | by rewrite IH].
Qed.

Lemma substring_split (s : string) (n : nat) :
  (n ≤ String.length s)%nat →
  String.substring 0 n s ++ String.substring n (String.length s - n) s = s.
Proof.
  revert n. induction s as [|c s IH]; intros [|n] Hn; simpl in *;
    [done | lia | by rewrite substring_all |].
  change (String c (String.substring 0 n s ++
                      String.substring n (String.length s - n) s) = String c s).
  f_equal. apply IH. lia.
Qed.

Lemma ends_with_spec suffix s :
  ends_with suffix s = true ↔ ∃ a, s = a ++ suffix.
Proof.
  unfold ends_with. rewrite andb_true_iff, Nat.leb_le, String.eqb_eq. split.
  - intros [Hlen Hsub].
    exists (String.substring 0 (String.length s - String.length suffix) s).
    pose proof (substring_split s (String.length s - String.length suffix))
      as Hsplit.
    replace (String.length s - (String.length s - String.length suffix))
      with (String.length suffix) in Hsplit by lia.
    rewrite Hsub in Hsplit. symmetry. apply Hsplit. lia.
  - intros [a ->]. rewrite string_length_app. split; [lia|].
    replace (String.length a + String.length suffix - String.length suffix)
      with (String.length a) by lia.
    apply substring_app_r.
Qed.

Lemma drop_last_app (a suffix : string) :
  drop_last (String.length suffix) (a ++ suffix) = a.
Proof.
  unfold drop_last. rewrite string_length_app.
  replace (String.length a + String.length suffix - String.length suffix)
    with (String.length a) by lia.
  apply substring_app_l.
Qed.

Lemma app_inj_suffix (a b suffix : string) :
  a ++ suffix = b ++ suffix → a = b.
Proof.
  intros H. rewrite <- (drop_last_app a suffix), H. apply drop_last_app.
Qed.

Lemma adopt_lookup boot dir ms name mid :
  adopt boot dir ms name !! mid =
    match ms !! mid with
    | Some info => Some info
    | None => if bool_decide (name = mid ++ ".pkl")
              then Some (placeholder boot dir name mid) else None
    end.
Proof.
  unfold adopt. destruct (ends_with ".pkl" name) eqn:Hpkl; simpl.
  - destruct (String.eqb_spec name ".gitkeep") as [->|_]; [done|]. simpl.
    apply ends_with_spec in Hpkl as [stem ->].
    change 4 with (String.length ".pkl"). rewrite drop_last_app.
    destruct (decide (mid = stem)) as [->|Hne].
    + rewrite bool_decide_eq_true_2 by done.
      destruct (ms !! stem) eqn:Hstem; simpl;
        [by rewrite Hstem | apply lookup_insert_eq].
    + rewrite (bool_decide_eq_false_2 (stem ++ ".pkl" = mid ++ ".pkl"))
        by (by intros ?%app_inj_suffix).
      destruct (ms !! stem); [by destruct (ms !! mid)|].
      rewrite lookup_insert_ne by done. by destruct (ms !! mid).
  - destruct (ms !! mid); [done|].
    rewrite bool_decide_eq_false_2; [done|]. intros ->.
    assert (ends_with ".pkl" (mid ++ ".pkl") = true)
      by (apply ends_with_spec; by exists mid).
    congruence.
Qed.

Lemma adopt_all_lookup boot dir names ms mid :
  foldl (adopt boot dir) ms names !! mid =
    match ms !! mid with
    | Some info => Some info
    | None => if bool_decide (mid ++ ".pkl" ∈ names)
              then Some (placeholder boot dir (mid ++ ".pkl") mid) else None
    end.
Proof.
  revert ms. induction names as [|name names IH]; intros ms; cbn [foldl].
  { destruct (ms !! mid); [done|].
    rewrite bool_decide_eq_false_2; [done | apply not_elem_of_nil]. }
  rewrite IH, adopt_lookup. destruct (ms !! mid); [done|].
  destruct (decide (name = mid ++ ".pkl")) as [->|Hne].
  - rewrite bool_decide_eq_true_2 by done.
    by rewrite bool_decide_eq_true_2 by (by left).
  - rewrite (bool_decide_eq_false_2 (name = _)) by done.
    destruct (decide (mid ++ ".pkl" ∈ names)) as [Hin|Hout].
    + rewrite !bool_decide_eq_true_2; [done | by right | done].
    + rewrite !bool_decide_eq_false_2; [done | | done].
      by intros [?|?]%elem_of_cons.
Qed.

Lemma load_records_lookup {R} (f : R → R) (data ms : gmap string R) mid :
  map_fold (λ id info ms, <[id := f info]> ms) ms data !! mid =
    match data !! mid with
    | Some info => Some (f info)
    | None => ms !! mid
    end.
Proof.
  apply (map_fold_weak_ind
           (λ acc (d : gmap string R),
              acc !! mid = match d !! mid with
                           | Some info => Some (f info)
                           | None => ms !! mid
                           end)).
  - by rewrite lookup_empty.
  - intros id info d acc Hid IH.
    destruct (decide (id = mid)) as [->|Hne].
    + by rewrite !lookup_insert_eq.
    + by rewrite !lookup_insert_ne.
Qed.

(** The record of [mid] in the metadata file, if the file parses. *)
Lemma restart_models boot st mid :
  models (restart boot st) !! mid =
    match match metadata_file st with
          | FileJson data => data !! mid
          | _ => None
          end with
    | Some info => Some (model_from_json info)
    | None =>
        if bool_decide (mid ++ ".pkl" ∈ default [] (listdir boot))
        then Some (placeholder boot (models_dir st) (mid ++ ".pkl") mid)
        else None
    end.
Proof.
  unfold restart, _load_models_from_disk.
  rewrite (bind_Ok _ _ _ (metadata_file st) (set_models (λ _, ∅) st)) by done.
  set (loaded := match metadata_file st with
                 | FileJson data =>
                     set_models (λ ms,
                       map_fold (λ mid info ms, <[mid := model_from_json info]> ms)
                                ms data) (set_models (λ _, ∅) st)
                 | _ => set_models (λ _, ∅) st
                 end).
  rewrite (bind_Ok _ _ _ tt loaded) by (subst loaded; by destruct (metadata_file st)).
  rewrite (bind_Ok _ _ loaded (models_dir st) loaded)
    by (subst loaded; by destruct (metadata_file st)).
  assert (models loaded !! mid =
            match metadata_file st with
            | FileJson data => model_from_json <$> data !! mid
            | _ => None
            end) as Hloaded.
  { subst loaded. destruct (metadata_file st) as [| |data]; simpl;
      [apply lookup_empty..|].
    rewrite load_records_lookup, lookup_empty. by destruct (data !! mid). }
  destruct (listdir boot) as [names|]; simpl.
  - rewrite adopt_all_lookup, Hloaded.
    destruct (metadata_file st) as [| |data]; simpl; [done..|].
    by destruct (data !! mid).
  - rewrite Hloaded.
    destruct (metadata_file st) as [| |data]; simpl; [done..|].
    by destruct (data !! mid).
Qed.

Lemma model_from_to_json info t :
  created_at info = Datetime t → model_from_json (to_json info) = info.
Proof. destruct info. simpl. by intros ->. Qed.

(** X11.  The registry a start builds: an id the metadata file has a record
    for gets that record, its [created_at] text decoded, whatever the
    directory holds; any other id [x] gets the placeholder record exactly
    when the directory lists [x.pkl]; a metadata file that is missing or does
    not parse contributes nothing. *)
Theorem restart_lookup boot st mid :
  get_model mid (restart boot st) =
    match match metadata_file st with
          | FileJson data => data !! mid
          | _ => None
          end with
    | Some info => Some (model_from_json info)
    | None =>
        if bool_decide (mid ++ ".pkl" ∈ default [] (listdir boot))
        then Some (placeholder boot (models_dir st) (mid ++ ".pkl") mid)
        else None
    end.
Proof. apply restart_models. Qed.

(** X12.  A restart brings back every record of the registry as it was, when
    the metadata file holds every record and every record carries a
    [datetime]: writing a record out and reading it back is the identity. *)
Theorem restart_restores boot st mid info :
  covered st → dated st →
  get_model mid st = Some info →
  get_model mid (restart boot st) = Some info.
Proof.
  intros [_ Hcov] Hdated Hinfo. unfold get_model in *.
  destruct (Hcov _ _ Hinfo) as (data & Hfile & Hrec).
  destruct (Hdated _ _ Hinfo) as [t Ht].
  rewrite restart_models, Hfile, Hrec. f_equal.
  by apply (model_from_to_json _ t).
Qed.

(** X13.  A deleted model comes back at the next start: [delete_model] takes
    the record out of the registry, and a restart on what it left reads the
    record back from the metadata file. *)
Theorem deleted_model_returns boot st mid info :
  covered st → dated st →
  get_model mid st = Some info →
  get_model mid (delete_model mid st).2 = None ∧
  get_model mid (restart boot (delete_model mid st).2) = Some info.
Proof.
  intros [_ Hcov] Hdated Hinfo. unfold get_model in *.
  destruct (delete_model_known mid info st Hinfo) as (st1 & -> & Hm & Hfile).
  simpl. split; [rewrite Hm; apply lookup_delete_eq|].
  destruct (Hcov _ _ Hinfo) as (data & Hdata & Hrec).
  destruct (Hdated _ _ Hinfo) as [t Ht].
  rewrite restart_models, Hfile, Hdata, Hrec. f_equal.
  by apply (model_from_to_json _ t).
Qed.

(** * Further properties of the dataset service *)

Section dataset_more.
Import Dataset.

Lemma append_longer (a b : string) : b ≠ "" → a ++ b ≠ a.
Proof.
  intros Hb Heq. apply (f_equal String.length) in Heq.
  rewrite string_length_app in Heq. destruct b; [done|]. simpl in Heq. lia.
Qed.

Lemma substring_prefix_length (n : nat) (s : string) :
  String.length (String.substring 0 n s) = n `min` String.length s.
Proof.
  revert n. induction s as [|c s IH]; intros [|n]; simpl; [done..|].
  by rewrite IH.
Qed.

(** What [add_dataset] leaves when [dvc add] exited with status 0: the
    registry as it was and the disk with, at most, the sidecar added. *)
Lemma add_dataset_Exit0 w path st sidecar :
  dvc_add w path = Exit0 sidecar →
  ∃ version st1,
    add_dataset w path st = (Ok version, st1) ∧
    datasets st1 = datasets st ∧ datasets_dir st1 = datasets_dir st ∧
    metadata_file st1 = metadata_file st ∧
    (∀ p, p ≠ path ++ ".dvc" → disk st1 !! p = disk st !! p) ∧
    (∀ v, version = Some v →
       ∃ text md5, disk st1 !! (path ++ ".dvc") = Some text ∧
                   outs_md5 w text = Some md5 ∧ md5 ≠ "" ∧
                   v = String.substring 0 16 md5).
Proof.
  intros Hadd. unfold add_dataset. rewrite Hadd.
  set (st1 := match sidecar with
              | Some text => set_disk <[path ++ ".dvc" := text]> st
              | None => st
              end).
  rewrite (bind_Ok _ _ st tt st1) by (subst st1; by destruct sidecar).
  rewrite (bind_Ok _ _ st1 (disk st1 !! (path ++ ".dvc")) st1) by done.
  assert (datasets st1 = datasets st ∧ datasets_dir st1 = datasets_dir st ∧
          metadata_file st1 = metadata_file st ∧
          ∀ p, p ≠ path ++ ".dvc" → disk st1 !! p = disk st !! p)
    as (? & ? & ? & ?).
  { subst st1. destruct sidecar; simpl; split_and!; try done.
    intros p Hp. by rewrite lookup_insert_ne. }
  destruct (disk st1 !! (path ++ ".dvc")) as [text|] eqn:Htext;
    [|by eexists _, _; split_and!].
  destruct (outs_md5 w text) as [md5|] eqn:Hmd5; [|by eexists _, _; split_and!].
  destruct (String.eqb_spec md5 "") as [->|Hne]; simpl;
    [by eexists _, _; split_and!|].
  eexists _, _. split_and!; [done..|].
  intros v [= <-]. by exists text, md5.
Qed.

(** X14.  The version token [add_dataset] returns, when it returns one, is
    the first 16 characters of the md5 the sidecar [<path>.dvc] records: it
    is never empty and never longer than 16 characters. *)
Theorem add_dataset_token w path st v st' :
  add_dataset w path st = (Ok (Some v), st') →
  v ≠ "" ∧ (String.length v ≤ 16)%nat ∧
  ∃ text md5,
    disk st' !! (path ++ ".dvc") = Some text ∧
    outs_md5 w text = Some md5 ∧ v = String.substring 0 16 md5.
Proof.
  intros Hrun. destruct (dvc_add w path) as [sidecar| |] eqn:Hadd.
  - destruct (add_dataset_Exit0 w path st sidecar Hadd)
      as (version & st1 & Hrun' & _ & _ & _ & _ & Htoken).
    rewrite Hrun' in Hrun. injection Hrun as -> ->.
    destruct (Htoken v eq_refl) as (text & md5 & Htext & Hmd5 & Hne & ->).
    split_and!.
    + destruct md5; done.
    + rewrite substring_prefix_length. lia.
    + by exists text, md5.
  - unfold add_dataset in Hrun. by rewrite Hadd in Hrun.
  - unfold add_dataset in Hrun. by rewrite Hadd in Hrun.
Qed.

(** An upload whose [dvc add] could be started, with the disk it leaves. *)
Lemma upload_dataset_run w name content fmt st :
  let path := path_join (datasets_dir st) (uuid4 w ++ "." ++ fmt) in
  dvc_add w path ≠ OSError →
  ∃ version st',
    upload_dataset w name content fmt st = (Ok (uuid4 w), st') ∧
    datasets st' =
      <[uuid4 w := uploaded_record w name content fmt (datasets_dir st) version]>
        (datasets st) ∧
    metadata_file st' = FileJson (to_json <$> datasets st') ∧
    disk st' !! path = Some content.
Proof.
  intros path Hadd. unfold upload_dataset.
  rewrite (bind_Ok _ _ st (datasets_dir st) st) by done. fold path.
  rewrite (bind_Ok _ _ st tt (set_disk <[path := content]> st)) by done.
  rewrite (bind_Ok _ _ _ (String.length content) (set_disk <[path := content]> st))
    by (unfold gets; simpl; by rewrite lookup_insert_eq).
  assert (path ≠ path ++ ".dvc") as Hside
    by (intros Heq; by apply (append_longer path ".dvc")).
  destruct (dvc_add w path) as [sidecar| |] eqn:Hout; [| |done].
  - destruct (add_dataset_Exit0 w path (set_disk <[path := content]> st)
                sidecar Hout)
      as (version & st1 & Hrun & Hds & Hdir & Hfile & Hdisk & _).
    rewrite (bind_Ok _ _ _ _ _ Hrun).
    destruct (push_dataset_spec w path st1) as [ok Hpush].
    rewrite (bind_Ok _ _ _ _ _ Hpush).
    exists version. eexists. split; [done|]. simpl. rewrite Hds.
    split_and!; [done | done |].
    rewrite Hdisk by done. simpl. apply lookup_insert_eq.
  - pose proof (add_dataset_spec w path (set_disk <[path := content]> st))
      as Hspec. rewrite Hout in Hspec.
    rewrite (bind_Ok _ _ _ _ _ Hspec).
    destruct (push_dataset_spec w path (set_disk <[path := content]> st))
      as [ok Hpush].
    rewrite (bind_Ok _ _ _ _ _ Hpush).
    exists None. eexists. split; [done|]. simpl.
    split_and!; [done | done | apply lookup_insert_eq].
Qed.

(** X15.  After an upload whose [dvc add] could be started, [get_dataset] on
    the returned id gives a record whose size is the byte length of the
    uploaded content, with the name and format tag given, and whose file
    holds that content. *)
Theorem upload_then_get w name content fmt st :
  dvc_add w (path_join (datasets_dir st) (uuid4 w ++ "." ++ fmt)) ≠ OSError →
  ∃ id st' info,
    upload_dataset w name content fmt st = (Ok id, st') ∧
    get_dataset id st' = Some info ∧
    dataset_id info = id ∧ file_name info = name ∧ format info = fmt ∧
    size info = String.length content ∧
    disk st' !! filepath info = Some content.
Proof.
  intros Hadd.
  destruct (upload_dataset_run w name content fmt st Hadd)
    as (version & st' & Hrun & Hds & _ & Hdisk).
  exists (uuid4 w), st',
    (uploaded_record w name content fmt (datasets_dir st) version).
  split_and!; [done | | done..].
  unfold get_dataset. rewrite Hds. apply lookup_insert_eq.
Qed.

Lemma load_dataset_on_disk w id st info content :
  datasets st !! id = Some info →
  disk st !! filepath info = Some content →
  load_dataset w id st =
    if String.eqb (format info) "csv" || String.eqb (format info) "json" then
      match parsed w (format info) content with
      | Some df =>
          let n := length (columns df) in
          if (n <? 2)%nat then (Raise (ValueError TooFewColumns), st)
          else (Ok (values_tolist w (iloc_features df),
                    column_tolist w (iloc_target df)),
                st)
      | None => (Raise (ExternalError "pandas"), st)
      end
    else (Raise (ValueError (UnsupportedFormat (format info))), st).
Proof.
  intros Hinfo Hdisk.
  destruct (load_dataset_located w id st info content st Hinfo) as [-> _].
  { unfold located. by rewrite Hdisk. }
  unfold parsed, pd_read.
  destruct (String.eqb (format info) "csv"); cbn [orb].
  - unfold mbind, M_bind, gets, external. rewrite Hdisk.
    destruct (read_csv w content) as [df|]; [|done].
    by destruct (length (columns df) <? 2)%nat.
  - destruct (String.eqb (format info) "json"); [|done].
    unfold mbind, M_bind, gets, external. rewrite Hdisk.
    destruct (read_json w content) as [df|]; [|done].
    by destruct (length (columns df) <? 2)%nat.
Qed.

(** X16.  [load_dataset] on a dataset just uploaded parses exactly the bytes
    that were uploaded, under the format tag given at upload, and changes
    nothing: it returns the cells of every column but the last and the cells
    of the last column of that table, as numpy hands them back.  A tag other
    than [csv] and [json], which [upload_dataset] accepts, makes it raise the
    unsupported-format [ValueError]. *)
Theorem upload_then_load w w' name content fmt st id st' :
  dvc_add w (path_join (datasets_dir st) (uuid4 w ++ "." ++ fmt)) ≠ OSError →
  upload_dataset w name content fmt st = (Ok id, st') →
  (fmt ≠ "csv" → fmt ≠ "json" →
     load_dataset w' id st' =
       (Raise (ValueError (UnsupportedFormat fmt)), st')) ∧
  (∀ df, parsed w' fmt content = Some df →
     let n := length (columns df) in
     load_dataset w' id st' =
       if (n <? 2)%nat then (Raise (ValueError TooFewColumns), st')
       else (Ok (values_tolist w' (iloc_features df),
                 column_tolist w' (iloc_target df)),
             st')).
Proof.
  intros Hadd Hrun.
  destruct (upload_dataset_run w name content fmt st Hadd)
    as (version & st1 & Hrun' & Hds & _ & Hdisk).
  rewrite Hrun' in Hrun. injection Hrun as <- <-.
  assert (datasets st1 !! uuid4 w =
            Some (uploaded_record w name content fmt (datasets_dir st) version))
    as Hinfo by (rewrite Hds; apply lookup_insert_eq).
  pose proof (load_dataset_on_disk w' _ _ _ content Hinfo Hdisk) as Hload.
  simpl in Hload. split.
  - intros Hcsv%String.eqb_neq Hjson%String.eqb_neq.
    by rewrite Hload, Hcsv, Hjson.
  - intros df Hdf. rewrite Hload, Hdf.
    unfold parsed in Hdf.
    destruct (String.eqb fmt "csv"); [done|].
    by destruct (String.eqb fmt "json").
Qed.

(** X17.  [delete_dataset] on a stored id returns [True], drops the record
    and no other, removes the data file and its sidecar and writes the
    registry out; a second [delete_dataset] on the id returns [False] and
    changes nothing, and [load_dataset] on it raises the not-found
    [ValueError]. *)
Theorem delete_dataset_twice id info st :
  get_dataset id st = Some info →
  ∃ st1,
    delete_dataset id st = (Ok true, st1) ∧
    get_dataset id st1 = None ∧
    (∀ other, other ≠ id → get_dataset other st1 = get_dataset other st) ∧
    disk st1 !! filepath info = None ∧
    disk st1 !! (filepath info ++ ".dvc") = None ∧
    metadata_file st1 = FileJson (to_json <$> datasets st1) ∧
    delete_dataset id st1 = (Ok false, st1) ∧
    ∀ w, load_dataset w id st1 = (Raise (ValueError (DatasetNotFound id)), st1).
Proof.
  intros Hinfo. unfold get_dataset in *.
  assert (∃ st1, delete_dataset id st = (Ok true, st1) ∧
                 datasets st1 = delete id (datasets st) ∧
                 disk st1 = delete (filepath info ++ ".dvc")
                              (delete (filepath info) (disk st)) ∧
                 metadata_file st1 = FileJson (to_json <$> datasets st1))
    as (st1 & Hrun & Hds & Hdisk & Hfile).
  { unfold delete_dataset.
    rewrite (bind_Ok _ _ st (Some info) st) by (unfold gets; by rewrite Hinfo).
    by eexists. }
  assert (datasets st1 !! id = None) as Hgone
    by (rewrite Hds; apply lookup_delete_eq).
  exists st1. split_and!; [done | done | | | | done | |].
  - intros other Hother. rewrite Hds. by apply lookup_delete_ne.
  - rewrite Hdisk.
    destruct (decide (filepath info ++ ".dvc" = filepath info)) as [->|Hne].
    + apply lookup_delete_eq.
    + rewrite lookup_delete_ne by done. apply lookup_delete_eq.
  - rewrite Hdisk. apply lookup_delete_eq.
  - unfold delete_dataset.
    by rewrite (bind_Ok _ _ st1 None st1) by (unfold gets; by rewrite Hgone).
  - intros w. unfold load_dataset.
    by rewrite (bind_Ok _ _ st1 None st1) by (unfold gets; by rewrite Hgone).
Qed.

(** X18.  [load_dataset] on a stored id whose file is not on disk asks
    [dvc pull] for it.  If the pull exits with an error the call raises the
    not-retrievable [ValueError]; if [dvc] cannot be started the [OSError]
    leaves the call as it is; if the pull exits with status 0 and restores no
    file the call fails in pandas on the missing file.  In all three the
    state is unchanged. *)
Theorem load_dataset_missing_file w id info st :
  get_dataset id st = Some info →
  disk st !! filepath info = None →
  (dvc_pull w (filepath info) = CalledProcessError →
     load_dataset w id st = (Raise (ValueError (DatasetNotPulled id)), st)) ∧
  (dvc_pull w (filepath info) = OSError →
     load_dataset w id st = (Raise (ExternalError "subprocess.run"), st)) ∧
  (dvc_pull w (filepath info) = Exit0 None →
     format info = "csv" ∨ format info = "json" →
     load_dataset w id st = (Raise (ExternalError "FileNotFoundError"), st)).
Proof.
  intros Hinfo Hdisk. unfold get_dataset in Hinfo. unfold load_dataset.
  rewrite (bind_Ok _ _ st (Some info) st) by (unfold gets; by rewrite Hinfo).
  rewrite (bind_Ok _ _ st false st)
    by (unfold gets; rewrite Hdisk;
        by rewrite bool_decide_eq_false_2 by (by intros [? ?])).
  unfold pull_dataset, pd_read.
  split_and!; intros Hpull; unfold mbind, M_bind, gets; rewrite Hpull; [done..|].
  simpl. intros [-> | ->]; simpl; by rewrite Hdisk.
Qed.

Lemma load_dataset_state w id st :
  datasets (load_dataset w id st).2 = datasets st ∧
  metadata_file (load_dataset w id st).2 = metadata_file st.
Proof.
  unfold load_dataset, pull_dataset, pd_read, mbind, M_bind, gets, external,
    raise, modify, mret, M_ret.
  destruct (datasets st !! id) as [info|]; [|done]. simpl.
  case_bool_decide.
  - destruct (String.eqb (format info) "csv"); simpl.
    { destruct (disk st !! filepath info); [|done].
      destruct (read_csv w _) as [df|]; [|done].
      by destruct (length (columns df) <? 2)%nat. }
    destruct (String.eqb (format info) "json"); simpl; [|done].
    destruct (disk st !! filepath info); [|done].
    destruct (read_json w _) as [df|]; [|done].
    by destruct (length (columns df) <? 2)%nat.
  - destruct (dvc_pull w (filepath info)) as [[content|]| |]; simpl; [| |done..].
    + destruct (String.eqb (format info) "csv"); simpl.
      { rewrite lookup_insert_eq.
        destruct (read_csv w _) as [df|]; [|done].
        by destruct (length (columns df) <? 2)%nat. }
      destruct (String.eqb (format info) "json"); simpl; [|done].
      rewrite lookup_insert_eq.
      destruct (read_json w _) as [df|]; [|done].
      by destruct (length (columns df) <? 2)%nat.
    + destruct (String.eqb (format info) "csv"); simpl.
      { destruct (disk st !! filepath info); [|done].
        destruct (read_csv w _) as [df|]; [|done].
        by destruct (length (columns df) <? 2)%nat. }
      destruct (String.eqb (format info) "json"); simpl; [|done].
      destruct (disk st !! filepath info); [|done].
      destruct (read_json w _) as [df|]; [|done].
      by destruct (length (columns df) <? 2)%nat.
Qed.

(** What one call does to the dataset registry and its metadata file: it
    leaves both, or it ends with the file being the registry written out and
    the registry changed by one record that carries a [datetime]. *)
Lemma after_dataset_call_effect st c :
  (datasets (after_dataset_call st c) = datasets st ∧
   metadata_file (after_dataset_call st c) = metadata_file st) ∨
  (mirrored (after_dataset_call st c) ∧
   ((∃ id info t, created_at info = Datetime t ∧
       datasets (after_dataset_call st c) = <[id := info]> (datasets st)) ∨
    (∃ id, datasets (after_dataset_call st c) = delete id (datasets st)))).
Proof.
  destruct c as [w name content fmt|w id|id]; simpl.
  - destruct (dvc_add w (path_join (datasets_dir st) (uuid4 w ++ "." ++ fmt)))
      as [sidecar| |] eqn:Hadd.
    + destruct (upload_dataset_run w name content fmt st)
        as (version & st' & -> & Hds & Hfile & _); [by rewrite Hadd|].
      right. split; [done|]. left.
      exists (uuid4 w),
        (uploaded_record w name content fmt (datasets_dir st) version), (now w).
      by split.
    + destruct (upload_dataset_run w name content fmt st)
        as (version & st' & -> & Hds & Hfile & _); [by rewrite Hadd|].
      right. split; [done|]. left.
      exists (uuid4 w),
        (uploaded_record w name content fmt (datasets_dir st) version), (now w).
      by split.
    + rewrite (upload_dataset_not_started w name content fmt st Hadd). by left.
  - left. apply load_dataset_state.
  - destruct (datasets st !! id) as [info|] eqn:Hinfo.
    + destruct (delete_dataset_known id info st Hinfo) as (st' & -> & ? & ?).
      right. split; [done|]. right. by exists id.
    + left. unfold delete_dataset.
      by rewrite (bind_Ok _ _ st None st) by (unfold gets; by rewrite Hinfo).
Qed.

Lemma mirrored_after_call st c : mirrored st → mirrored (after_dataset_call st c).
Proof.
  intros Hm. destruct (after_dataset_call_effect st c) as [[Hds Hfile]|[? _]];
    [|done].
  unfold mirrored. by rewrite Hds, Hfile.
Qed.

Lemma stamped_after_call st c : stamped st → stamped (after_dataset_call st c).
Proof.
  intros Hs id' info'.
  destruct (after_dataset_call_effect st c)
    as [[-> _]|[_ [(id & info & t & Ht & ->)|(id & ->)]]].
  - apply Hs.
  - intros [[<- <-]|[_ ?]]%lookup_insert_Some; [by exists t | by eapply Hs].
  - intros [_ ?]%lookup_delete_Some. by eapply Hs.
Qed.

(** X19.  Whatever calls are made on the dataset service, in whatever order
    and whether they return or raise: if the metadata file was the registry
    written out it still is, and if every record carried a [datetime] it
    still does. *)
Theorem dataset_calls_keep_invariants st calls :
  (mirrored st → mirrored (foldl after_dataset_call st calls)) ∧
  (stamped st → stamped (foldl after_dataset_call st calls)).
Proof.
  revert st. induction calls as [|c calls IH]; intros st; simpl; [done|].
  destruct (IH (after_dataset_call st c)) as [Hm Hs].
  split; intros ?;
    [apply Hm, mirrored_after_call | apply Hs, stamped_after_call]; done.
Qed.

Lemma dataset_from_to_json info t :
  created_at info = Datetime t → dataset_from_json (to_json info) = info.
Proof. destruct info. simpl. by intros ->. Qed.

(** X20.  A restart of the dataset service brings the registry back exactly
    as it was, when the metadata file is the registry written out and every
    record carries a [datetime]. *)
Theorem dataset_restart_restores st :
  mirrored st → stamped st →
  datasets (dataset_restart st) = datasets st.
Proof.
  intros Hm Hs. unfold dataset_restart, _load_metadata_from_file.
  rewrite (bind_Ok _ _ _ (metadata_file st) (set_datasets (λ _, ∅) st)) by done.
  rewrite Hm. simpl. apply map_eq. intros id.
  rewrite load_records_lookup, lookup_empty, lookup_fmap.
  destruct (datasets st !! id) as [info|] eqn:Hinfo; simpl; [|done].
  destruct (Hs _ _ Hinfo) as [t Ht]. f_equal.
  by apply (dataset_from_to_json _ t).
Qed.

End dataset_more.

(** * Records that training makes *)

Lemma create_model_Ok_supported mt hp model :
  create_model mt hp = Ok model → mt ∈ get_available_model_types.
Proof.
  unfold create_model, get_available_model_types.
  destruct (String.eqb_spec mt "linear") as [->|_]; [intros _; by left|].
  destruct (String.eqb_spec mt "random_forest") as [->|_]; [|done].
  intros _. right. by left.
Qed.

(** X21.  After a [train_model] call that returned, [get_model] on the new id
    gives a record with that id, the model type, dataset id and
    hyperparameters of the call, status [trained], the clock's instant, and
    the path [<models_dir>/<id>.pkl], which is on disk; and the model type is
    one of the supported ones. *)
Theorem train_then_get w mt ds hp X y st mid st' :
  train_model w mt ds hp X y st = (Ok mid, st') →
  mt ∈ get_available_model_types ∧
  ∃ info,
    get_model mid st' = Some info ∧
    model_id info = mid ∧ model_type info = mt ∧ dataset_id info = ds ∧
    hyperparameters info = hp ∧ status info = "trained" ∧
    created_at info = Datetime (now w) ∧
    model_path info = Some (path_join (models_dir st) (mid ++ ".pkl")) ∧
    path_join (models_dir st) (mid ++ ".pkl") ∈ disk st'.
Proof.
  intros (model & ms & cid & st1 & -> & Hmodel & _ & _ & Hfile & -> & _)
    %train_model_Ok_summary.
  split; [by eapply create_model_Ok_supported|].
  exists (trained_record w mt ds hp (models_dir st) cid ms).
  split_and!; [|done..].
  unfold get_model. rewrite committed_models. apply lookup_insert_eq.
Qed.

Lemma dict_truthy_nonempty {V} (d : gmap string V) :
  d ≠ ∅ → dict_truthy d = true.
Proof.
  intros Hd. unfold dict_truthy.
  destruct (Nat.eqb_spec (size d) 0) as [Hz|_]; [|done].
  by apply map_size_empty_iff in Hz.
Qed.

(** X22.  [retrain_model] on an unknown id raises the not-found [ValueError]
    and changes nothing.  On a stored id, a call that returns has stored a
    record with the model type of the original and the dataset id of the
    call; its hyperparameters are the ones given when a non-empty dict is
    given, and those of the original when none is given. *)
Theorem retrain_model_record w mid ds hp X y st :
  (get_model mid st = None →
     retrain_model w mid ds hp X y st =
       (Raise (ValueError (ModelNotFound mid)), st)) ∧
  (∀ old new_id st',
     get_model mid st = Some old →
     retrain_model w mid ds hp X y st = (Ok new_id, st') →
     ∃ new,
       get_model new_id st' = Some new ∧
       model_type new = model_type old ∧ dataset_id new = ds ∧
       (∀ h, hp = Some h → h ≠ ∅ → hyperparameters new = h) ∧
       (hp = None → hyperparameters new = hyperparameters old)).
Proof.
  unfold get_model. split.
  - intros Hnone. unfold retrain_model.
    by rewrite (bind_Ok _ _ st None st) by (unfold gets; by rewrite Hnone).
  - intros old new_id st' Hold.
    rewrite (retrain_model_known _ _ _ _ _ _ _ _ Hold).
    intros (model & ms & cid & st1 & -> & _ & _ & _ & ->)%train_model_Ok.
    eexists. split; [rewrite committed_models; apply lookup_insert_eq|].
    split_and!; [done | done | |].
    + intros h -> Hh. simpl. by rewrite dict_truthy_nonempty.
    + by intros ->.
Qed.

(** X23.  With a metadata file that does not parse, a [train_model] call
    that returns has stored the record in the registry and left the file as
    it was; a restart that finds the pickle file then brings the model back
    as the placeholder record, of type [linear] and dataset [unknown]
    whatever was trained. *)
Theorem train_model_unparsable_metadata boot w mt ds hp X y st mid st' :
  metadata_file st = FileCorrupt →
  train_model w mt ds hp X y st = (Ok mid, st') →
  is_Some (get_model mid st') ∧
  metadata_file st' = FileCorrupt ∧
  (∀ names, listdir boot = Some names → mid ++ ".pkl" ∈ names →
     get_model mid (restart boot st') =
       Some (placeholder boot (models_dir st) (mid ++ ".pkl") mid)).
Proof.
  intros Hfile (model & ms & cid & st1 & -> & _ & _ & [Hf _] & _ & -> & _)
    %train_model_Ok_summary.
  assert (metadata_file (committed (uuid4 w)
            (trained_record w mt ds hp (models_dir st) cid ms) st1) =
          FileCorrupt) as Hfile'
    by (by rewrite committed_file, (frame_file _ _ Hf), Hfile).
  split_and!; [|done|].
  - unfold get_model. rewrite committed_models, lookup_insert_eq. by eexists.
  - intros names Hnames Hin. unfold get_model.
    rewrite restart_models, Hfile', Hnames. simpl.
    rewrite bool_decide_eq_true_2 by done.
    by rewrite (frame_dir _ _ Hf).
Qed.

(** ** What reaches the tracker *)

Lemma eqb_infinity_is_infinity f :
  (f =? infinity)%float = true → is_infinity f = true.
Proof.
  unfold is_infinity.
  rewrite !FloatAxioms.eqb_spec, FloatAxioms.abs_spec.
  change (Prim2SF infinity) with (S754_infinity false).
  by destruct (Prim2SF f) as [[]|[]| |[] ? ?].
Qed.

Lemma is_infinity_cases f :
  is_infinity f = true → (f =? infinity)%float = true ∨ f = neg_infinity.
Proof.
  unfold is_infinity.
  rewrite !FloatAxioms.eqb_spec, FloatAxioms.abs_spec.
  change (Prim2SF infinity) with (S754_infinity false).
  destruct (Prim2SF f) as [[]|[]| |[] ? ?] eqn:Hf; try done.
  - intros _. right. by apply FloatAxioms.Prim2SF_inj.
  - by left.
Qed.

Lemma keep_metric_reportable v : keep_metric v = true → reportable v = true.
Proof.
  destruct v as [|z|f]; simpl; [done..|].
  fold (is_nan f). destruct (is_nan f); simpl; [done|].
  destruct (is_infinity f) eqn:Hinf; [done|]. intros _.
  destruct (f =? infinity)%float eqn:Heq; [|done].
  apply eqb_infinity_is_infinity in Heq. congruence.
Qed.

Lemma reportable_not_kept v :
  reportable v = true → keep_metric v = false → v = MFloat neg_infinity.
Proof.
  destruct v as [|z|f]; simpl; [done..|].
  fold (is_nan f). destruct (is_nan f); simpl; [done|].
  destruct (is_infinity f) eqn:Hinf; [|done].
  apply is_infinity_cases in Hinf as [->| ->]; done.
Qed.

(** X24.  The guard of the two reporting loops and the filter of the stored
    metrics differ on one value only: a metric goes to the tracker exactly
    when the record keeps it or it is minus infinity, which the record never
    keeps. *)
Theorem reported_or_stored v :
  (reportable v = true ↔ keep_metric v = true ∨ v = MFloat neg_infinity) ∧
  (keep_metric v = true → v ≠ MFloat neg_infinity).
Proof.
  split; [split|].
  - intros Hr. destruct (keep_metric v) eqn:Hk; [by left|].
    right. by apply reportable_not_kept.
  - intros [Hk| ->]; [by apply keep_metric_reportable | done].
  - by intros Hk ->.
Qed.

Lemma report_metrics_log ttl it l st st' :
  report_metrics ttl it l st = (Ok tt, st') →
  tracker_log st' = (tracker_log st ++ reports ttl it l)%list.
Proof.
  unfold report_metrics, modify. intros [= <-]. revert st.
  induction l as [|kv l IH]; intros st; simpl.
  - by rewrite (right_id [] (++)%list).
  - rewrite IH. destruct (reportable kv.2); [|done].
    simpl. by rewrite <- (assoc (++)%list).
Qed.

Lemma dict_items_empty w (ms : metrics_map) :
  dict_items w ms ≡ₚ map_to_list ms → dict_truthy ms = false →
  dict_items w ms = [].
Proof.
  intros Hperm. unfold dict_truthy.
  destruct (Nat.eqb_spec (size ms) 0) as [Hz|_]; [|done]. intros _.
  apply map_size_empty_iff in Hz as ->. rewrite map_to_list_empty in Hperm.
  by apply Permutation_nil_r.
Qed.

(** What [save_model] adds to the tracker log: the final metrics, when it
    was handed a task or could create one. *)
Lemma clearml_save_model_log w path ms task st cid st' :
  clearml_initialized st = true →
  dict_items w ms ≡ₚ map_to_list ms →
  clearml_save_model w path ms task st = (Ok cid, st') →
  tracker_log st' =
    (tracker_log st ++
       if bool_decide (is_Some task ∨ is_Some (task_retry w))
       then reports "Final Metrics" 2 (dict_items w ms) else [])%list.
Proof.
  intros Hinit Hperm. unfold clearml_save_model.
  rewrite (bind_Ok _ _ st (clearml_initialized st) st) by done.
  rewrite Hinit. unfold create_experiment_again. simpl.
  destruct (match task with Some t => Some t | None => task_retry w end)
    as [t|] eqn:Htask.
  - rewrite bool_decide_eq_true_2
      by (destruct task; [left|right; rewrite Htask]; by eexists).
    intros (u & st1 & Hw & H)%bind_Ok_inv. destruct u.
    assert (tracker_log st' = tracker_log st1) as ->.
    { unfold mbind, M_bind, gets, mret, M_ret in H.
      destruct (bool_decide _); by simplify_eq. }
    destruct (dict_truthy ms) eqn:Hms; simpl in Hw.
    + by apply report_metrics_log.
    + injection Hw as <-. rewrite (dict_items_empty _ _ Hperm Hms).
      by rewrite (right_id [] (++)%list).
  - rewrite bool_decide_eq_false_2.
    2:{ destruct task; [done|]. rewrite Htask. by intros [[]|[]]. }
    intros [= _ <-]. by rewrite (right_id [] (++)%list).
Qed.

(** The tracker log at the end of a [train_model] call that returned. *)
Lemma train_model_log w mt ds hp X y st mid st' model ms :
  clearml_initialized st = true →
  create_model mt hp = Ok model → fit w model X y = Some ms →
  dict_items w ms ≡ₚ map_to_list ms →
  train_model w mt ds hp X y st = (Ok mid, st') →
  (∃ cid st4,
     mid = uuid4 w ∧
     st' = committed (uuid4 w)
             (trained_record w mt ds hp (models_dir st) cid ms) st4) ∧
  tracker_log st' =
    (tracker_log st ++
       match task_init w with
       | Some _ =>
           progress_mark ::
           reports "Training Metrics" 1 (dict_items w ms) ++
           reports "Final Metrics" 2 (dict_items w ms)
       | None =>
           if task_retry w is Some _
           then reports "Final Metrics" 2 (dict_items w ms) else []
       end)%list.
Proof.
  intros Hinit Hmodel Hfit Hperm
    (task & model' & ms' & cid & st1 & st2 & st3 & st4 & -> & -> & Hq1 & _ &
     Hmodel' & Hfit' & Hreport & Hsave & Hminio & -> & Hlog1)
    %train_model_Ok_trace.
  assert (model' = model) as -> by congruence.
  assert (ms' = ms) as -> by congruence.
  split; [by exists cid, st4|].
  rewrite Hinit in Hreport, Hsave, Hlog1. unfold create_experiment in *.
  assert (clearml_initialized
            (set_disk (λ d, {[path_join (models_dir st) (uuid4 w ++ ".pkl")]} ∪ d)
               st2) = true) as Hinit2.
  { pose proof (when_quiet _ _ _ _ (report_metrics_Ok_quiet _ _ _ _) Hreport)
      as Hq2.
    change (clearml_initialized st2 = true).
    rewrite (frame_clearml _ _ (quiet_frame _ _ Hq2)).
    by rewrite (frame_clearml _ _ (quiet_frame _ _ Hq1)). }
  apply _save_model_to_minio_quiet in Hminio as [_ Hlog4].
  change (tracker_log (committed _ _ st4)) with (tracker_log st4).
  rewrite Hlog4, (clearml_save_model_log _ _ _ _ _ _ _ Hinit2 Hperm Hsave).
  change (tracker_log (set_disk _ st2)) with (tracker_log st2).
  destruct (task_init w) as [t|]; simpl in Hreport.
  - apply report_metrics_log in Hreport. rewrite Hreport, Hlog1.
    rewrite bool_decide_eq_true_2 by (left; by eexists).
    by rewrite <- !(assoc (++)%list).
  - injection Hreport as <-. rewrite Hlog1, (right_id [] (++)%list).
    destruct (task_retry w) as [t|].
    + by rewrite bool_decide_eq_true_2 by (right; by eexists).
    + by rewrite bool_decide_eq_false_2 by (by intros [[]|[]]).
Qed.

(** X25.  What a [train_model] call that returns has sent to the tracker,
    when the tracker service is initialised and the metrics convert: if
    [train_model] got its task, the progress mark, then one training report
    per metric that passes the guard, then one final report per such metric,
    each carrying [float] of the metric and in the order of the dict; if only
    [save_model] could create the task, the final reports alone; if neither
    could, nothing.  Nothing reported before is removed. *)
Theorem train_model_tracker_log w mt ds hp X y st mid st' model ms :
  clearml_initialized st = true →
  create_model mt hp = Ok model → fit w model X y = Some ms →
  dict_items w ms ≡ₚ map_to_list ms → float_range ms →
  train_model w mt ds hp X y st = (Ok mid, st') →
  tracker_log st' =
    (tracker_log st ++
       match task_init w with
       | Some _ =>
           progress_mark ::
           reports "Training Metrics" 1 (dict_items w ms) ++
           reports "Final Metrics" 2 (dict_items w ms)
       | None =>
           if task_retry w is Some _
           then reports "Final Metrics" 2 (dict_items w ms) else []
       end)%list.
Proof.
  intros Hinit Hmodel Hfit Hperm _ Hrun.
  by destruct (train_model_log _ _ _ _ _ _ _ _ _ _ _ Hinit Hmodel Hfit Hperm Hrun).
Qed.

Lemma reports_elem ttl it items key v :
  (key, v) ∈ items → reportable v = true →
  {| title := ttl; series := key; value := to_float v; iteration := it |}
    ∈ reports ttl it items.
Proof.
  intros Hin Hv. unfold reports. apply list_elem_of_omap.
  exists (key, v). split; [done|]. simpl. by rewrite Hv.
Qed.

(** X26.  Every metric stored in the record of a model trained with the
    tracker service initialised was reported to the tracker under its name
    with [float] of its value: as a training metric at iteration 1 and as a
    final metric at iteration 2 when [train_model] got its task, and as a
    final metric when only [save_model] could create the task. *)
Theorem stored_metric_reported w mt ds hp X y st mid st' model ms info key v :
  clearml_initialized st = true →
  create_model mt hp = Ok model → fit w model X y = Some ms →
  dict_items w ms ≡ₚ map_to_list ms → float_range ms →
  train_model w mt ds hp X y st = (Ok mid, st') →
  get_model mid st' = Some info →
  stored_metric info key = Some v →
  (is_Some (task_init w) →
     {| title := "Training Metrics"; series := key; value := to_float v;
        iteration := 1 |} ∈ tracker_log st') ∧
  (is_Some (task_init w) ∨ is_Some (task_retry w) →
     {| title := "Final Metrics"; series := key; value := to_float v;
        iteration := 2 |} ∈ tracker_log st').
Proof.
  intros Hinit Hmodel Hfit Hperm _ Hrun Hget Hstored.
  destruct (train_model_log _ _ _ _ _ _ _ _ _ _ _ Hinit Hmodel Hfit Hperm Hrun)
    as [(cid & st4 & -> & ->) Hlog].
  unfold get_model in Hget.
  rewrite committed_models, lookup_insert_eq in Hget. injection Hget as <-.
  rewrite stored_metric_trained in Hstored.
  apply clean_metrics_lookup in Hstored as [Hkey Hkeep%keep_metric_reportable].
  assert ((key, v) ∈ dict_items w ms) as Hin
    by (rewrite Hperm; by apply elem_of_map_to_list).
  rewrite Hlog. split.
  - intros [t Ht]. rewrite Ht. apply elem_of_app. right.
    apply elem_of_cons. right. apply elem_of_app. left.
    by apply reports_elem.
  - intros Htask. apply elem_of_app. right.
    destruct (task_init w) as [t|].
    + apply elem_of_cons. right. apply elem_of_app. right.
      by apply reports_elem.
    + destruct Htask as [[? [=]]|[t ->]]. by apply reports_elem.
Qed.

(** ** The constructor of the tracker service *)

Lemma has_scheme_truthy s : has_scheme s = true → str_truthy (Some s) = true.
Proof. by destruct s. Qed.

Lemma has_scheme_http s : has_scheme ("http://" ++ s) = true.
Proof. unfold has_scheme. vm_compute. by destruct s. Qed.

Lemma str_truthy_Some o : str_truthy o = true → ∃ s, o = Some s ∧ s ≠ "".
Proof.
  destruct o as [s|]; [|done]. simpl. intros H. exists s. split; [done|].
  intros ->. done.
Qed.

Lemma host_block_spec key fb env :
  has_scheme fb = true →
  ∃ h, host_block key fb env = (h, <[key := h]> env) ∧
       has_scheme h = true ∧
       (str_truthy (env !! key) = false → h = fb) ∧
       (∀ v, env !! key = Some v → v ≠ "" →
          if has_scheme v then h = v else h = "http://" ++ v).
Proof.
  intros Hfb. unfold host_block.
  destruct (str_truthy (env !! key)) eqn:Ht; simpl.
  - apply str_truthy_Some in Ht as (s & Hs & Hne). rewrite Hs. simpl.
    destruct (String.prefix "http://" s) eqn:H1; simpl.
    + exists s. rewrite insert_id by done. split_and!; [done| |done|].
      * unfold has_scheme. by rewrite H1.
      * intros v [= <-] _. unfold has_scheme. by rewrite H1.
    + destruct (String.prefix "https://" s) eqn:H2; simpl.
      * exists s. rewrite insert_id by done. split_and!; [done| |done|].
        -- unfold has_scheme. by rewrite H1, H2.
        -- intros v [= <-] _. unfold has_scheme. by rewrite H1, H2.
      * exists ("http://" ++ s).
        split_and!; [done | apply has_scheme_http | done |].
        intros v [= <-] _. unfold has_scheme. by rewrite H1, H2.
  - exists fb. split_and!; [done..|].
    intros v Hv Hne. rewrite Hv in Ht. simpl in Ht.
    destruct (String.eqb_spec v ""); done.
Qed.

Lemma host_block_settled key fb env h :
  env !! key = Some h → has_scheme h = true → host_block key fb env = (h, env).
Proof.
  intros Hh Hs. unfold host_block. rewrite Hh.
  rewrite (has_scheme_truthy _ Hs). simpl.
  unfold has_scheme in Hs.
  by destruct (String.prefix "http://" h), (String.prefix "https://" h).
Qed.

Lemma api_fallback_scheme host :
  has_scheme (if dockerenv host then "http://clearml-apiserver:8008"
              else "http://localhost:8008") = true.
Proof. by destruct (dockerenv host). Qed.

Ltac env_lookup :=
  repeat first [rewrite lookup_insert_eq | rewrite lookup_insert_ne by done].

(** The constructor with its two host blocks resolved. *)
Lemma clearml_init_unfold host cfg env :
  task_imported host = true →
  ∃ a w,
    let env2 := <["CLEARML_WEB_HOST" := w]> (<["CLEARML_API_HOST" := a]> env) in
    let access_key :=
      str_or (env !! "CLEARML_API_ACCESS_KEY") (clearml_api_access_key cfg) in
    let secret_key :=
      str_or (env !! "CLEARML_API_SECRET_KEY") (clearml_api_secret_key cfg) in
    let env3 :=
      if str_truthy access_key
      then <["CLEARML_API_ACCESS_KEY" := default "" access_key]> env2
      else env2 in
    let env4 :=
      if str_truthy secret_key
      then <["CLEARML_API_SECRET_KEY" := default "" secret_key]> env3
      else env3 in
    let env5 :=
      if conf_written host
      then <["CLEARML_CONFIG_FILE" := "/tmp/clearml.conf"]> env4 else env4 in
    has_scheme a = true ∧ has_scheme w = true ∧
    (∀ v, env !! "CLEARML_API_HOST" = Some v → v ≠ "" →
       if has_scheme v then a = v else a = "http://" ++ v) ∧
    (∀ v, env !! "CLEARML_WEB_HOST" = Some v → v ≠ "" →
       if has_scheme v then w = v else w = "http://" ++ v) ∧
    clearml_init host cfg env =
      if negb (str_truthy access_key) || negb (str_truthy secret_key)
      then (false, env4)
      else (true,
            if negb (str_truthy (env !! "CLEARML_S3_HOST"))
            then s3_defaults host cfg env5 else env5).
Proof.
  intros Himp. unfold clearml_init. rewrite Himp. simpl.
  destruct (host_block_spec "CLEARML_API_HOST" _ env (api_fallback_scheme host))
    as (a & -> & Ha & _ & Ha').
  destruct (host_block_spec "CLEARML_WEB_HOST" "http://localhost:8080"
              (<["CLEARML_API_HOST" := a]> env) eq_refl)
    as (w & -> & Hw & _ & Hw').
  exists a, w. simpl. split_and!; [done..| |].
  - intros v Hv. apply Hw'. by rewrite lookup_insert_ne.
  - env_lookup.
    destruct (str_truthy (str_or _ (clearml_api_access_key cfg))),
      (str_truthy (str_or _ (clearml_api_secret_key cfg))); simpl; try done.
    destruct (conf_written host); by env_lookup.
Qed.

Lemma str_truthy_default o :
  str_truthy o = true → Some (default "" o) = o.
Proof. by destruct o. Qed.

Lemma str_or_truthy a b :
  str_truthy a = true → str_or a b = a.
Proof. unfold str_or. by intros ->. Qed.

(** An environment the constructor has nothing to add to. *)
Lemma clearml_init_settled host cfg env a w :
  let access_key :=
    str_or (env !! "CLEARML_API_ACCESS_KEY") (clearml_api_access_key cfg) in
  let secret_key :=
    str_or (env !! "CLEARML_API_SECRET_KEY") (clearml_api_secret_key cfg) in
  task_imported host = true →
  env !! "CLEARML_API_HOST" = Some a → has_scheme a = true →
  env !! "CLEARML_WEB_HOST" = Some w → has_scheme w = true →
  (str_truthy access_key = true → env !! "CLEARML_API_ACCESS_KEY" = access_key) →
  (str_truthy secret_key = true → env !! "CLEARML_API_SECRET_KEY" = secret_key) →
  (str_truthy access_key = true → str_truthy secret_key = true →
     (conf_written host = true →
        env !! "CLEARML_CONFIG_FILE" = Some "/tmp/clearml.conf") ∧
     str_truthy (env !! "CLEARML_S3_HOST") = true) →
  clearml_init host cfg env =
    (str_truthy access_key && str_truthy secret_key, env).
Proof.
  intros access_key secret_key Himp Ha Hsa Hw Hsw Hak Hsk Hrest.
  unfold clearml_init. rewrite Himp. simpl.
  rewrite (host_block_settled _ _ _ _ Ha Hsa).
  rewrite (host_block_settled _ _ _ _ Hw Hsw).
  fold access_key secret_key.
  assert (str_truthy access_key = true →
          <["CLEARML_API_ACCESS_KEY" := default "" access_key]> env = env)
    as Hida.
  { intros Ht. apply insert_id.
    by rewrite (Hak Ht), (str_truthy_default _ Ht). }
  assert (str_truthy secret_key = true →
          <["CLEARML_API_SECRET_KEY" := default "" secret_key]> env = env)
    as Hids.
  { intros Ht. apply insert_id.
    by rewrite (Hsk Ht), (str_truthy_default _ Ht). }
  destruct (str_truthy access_key) eqn:Hta; simpl.
  - rewrite (Hida eq_refl).
    destruct (str_truthy secret_key) eqn:Hts; simpl; [|done].
    rewrite (Hids eq_refl).
    destruct (Hrest eq_refl eq_refl) as [Hconf Hs3].
    destruct (conf_written host).
    + rewrite insert_id by auto. by rewrite Hs3.
    + by rewrite Hs3.
  - destruct (str_truthy secret_key) eqn:Hts; simpl; [|done].
    by rewrite (Hids eq_refl).
Qed.

Lemma s3_defaults_lookup host cfg env key :
  key ∉ ["CLEARML_S3_HOST"; "CLEARML_S3_ACCESS_KEY"; "CLEARML_S3_SECRET_KEY";
         "CLEARML_S3_BUCKET"; "CLEARML_S3_REGION"; "CLEARML_S3_USE_HTTPS"] →
  s3_defaults host cfg env !! key = env !! key.
Proof.
  intros Hkey. unfold s3_defaults.
  rewrite !lookup_insert_ne; [done|intros <-; apply Hkey..].
  all: repeat first [by apply list_elem_of_here | apply list_elem_of_further].
Qed.

Lemma s3_defaults_host host cfg env :
  str_truthy (s3_defaults host cfg env !! "CLEARML_S3_HOST") = true.
Proof.
  unfold s3_defaults. env_lookup. by destruct (dockerenv host).
Qed.

(** X27.  Running the constructor again on the environment it left, on the
    same host and with the same settings, changes nothing: the environment
    and the value of [initialized] are those of the first run. *)
Theorem clearml_init_idempotent host cfg env :
  clearml_init host cfg (clearml_init host cfg env).2 =
    clearml_init host cfg env.
Proof.
  destruct (task_imported host) eqn:Himp.
  2:{ unfold clearml_init. by rewrite Himp. }
  destruct (clearml_init_unfold host cfg env Himp)
    as (a & w & Ha & Hw & _ & _ & Hrun).
  simpl in Hrun. rewrite Hrun. clear Hrun.
  set (access_key :=
         str_or (env !! "CLEARML_API_ACCESS_KEY") (clearml_api_access_key cfg)).
  set (secret_key :=
         str_or (env !! "CLEARML_API_SECRET_KEY") (clearml_api_secret_key cfg)).
  set (env2 := <["CLEARML_WEB_HOST" := w]> (<["CLEARML_API_HOST" := a]> env)).
  set (env3 := if str_truthy access_key
               then <["CLEARML_API_ACCESS_KEY" := default "" access_key]> env2
               else env2).
  set (env4 := if str_truthy secret_key
               then <["CLEARML_API_SECRET_KEY" := default "" secret_key]> env3
               else env3).
  set (env5 := if conf_written host
               then <["CLEARML_CONFIG_FILE" := "/tmp/clearml.conf"]> env4
               else env4).
  assert (env4 !! "CLEARML_API_HOST" = Some a) as Ha4.
  { subst env4 env3 env2.
    destruct (str_truthy access_key), (str_truthy secret_key); by env_lookup. }
  assert (env4 !! "CLEARML_WEB_HOST" = Some w) as Hw4.
  { subst env4 env3 env2.
    destruct (str_truthy access_key), (str_truthy secret_key); by env_lookup. }
  assert (str_or (env4 !! "CLEARML_API_ACCESS_KEY")
            (clearml_api_access_key cfg) = access_key ∧
          (str_truthy access_key = true →
             env4 !! "CLEARML_API_ACCESS_KEY" = access_key)) as [Hor_a Hak4].
  { subst env4 env3 env2.
    destruct (str_truthy access_key) eqn:Hta, (str_truthy secret_key);
      env_lookup; rewrite ?(str_truthy_default _ Hta);
      rewrite ?(str_or_truthy _ _ Hta); done. }
  assert (str_or (env4 !! "CLEARML_API_SECRET_KEY")
            (clearml_api_secret_key cfg) = secret_key ∧
          (str_truthy secret_key = true →
             env4 !! "CLEARML_API_SECRET_KEY" = secret_key)) as [Hor_s Hsk4].
  { subst env4 env3 env2.
    destruct (str_truthy access_key), (str_truthy secret_key) eqn:Hts;
      env_lookup; rewrite ?(str_truthy_default _ Hts);
      rewrite ?(str_or_truthy _ _ Hts); done. }
  destruct (negb (str_truthy access_key) || negb (str_truthy secret_key))
    eqn:Hgate; simpl.
  - rewrite (clearml_init_settled host cfg env4 a w); rewrite ?Hor_a, ?Hor_s;
      try done.
    + f_equal. by destruct (str_truthy access_key), (str_truthy secret_key).
    + intros Hta Hts. by rewrite Hta, Hts in Hgate.
  - assert (str_truthy access_key = true ∧ str_truthy secret_key = true)
      as [Hta Hts]
      by (by destruct (str_truthy access_key), (str_truthy secret_key)).
    set (env6 := if negb (str_truthy (env !! "CLEARML_S3_HOST"))
                 then s3_defaults host cfg env5 else env5).
    assert (∀ key,
              key ∈ ["CLEARML_API_HOST"; "CLEARML_WEB_HOST";
                     "CLEARML_API_ACCESS_KEY"; "CLEARML_API_SECRET_KEY"] →
              env6 !! key = env4 !! key) as Hsame.
    { intros key Hkey. subst env6 env5.
      assert ((key ∉ ["CLEARML_S3_HOST"; "CLEARML_S3_ACCESS_KEY";
                      "CLEARML_S3_SECRET_KEY"; "CLEARML_S3_BUCKET";
                      "CLEARML_S3_REGION"; "CLEARML_S3_USE_HTTPS"]) ∧
              "CLEARML_CONFIG_FILE" ≠ key) as [Hs3 Hne].
      { repeat apply elem_of_cons in Hkey as [->|Hkey];
          [..|by apply elem_of_nil in Hkey]; (split; [compute_done|done]). }
      destruct (str_truthy (env !! "CLEARML_S3_HOST")); simpl;
        [|rewrite s3_defaults_lookup by done];
        destruct (conf_written host); by rewrite ?lookup_insert_ne by done. }
    pose proof (clearml_init_settled host cfg env6 a w Himp) as Hsettled.
    cbv zeta in Hsettled.
    rewrite !(Hsame "CLEARML_API_ACCESS_KEY") in Hsettled by compute_done.
    rewrite !(Hsame "CLEARML_API_SECRET_KEY") in Hsettled by compute_done.
    rewrite (Hsame "CLEARML_API_HOST") in Hsettled by compute_done.
    rewrite (Hsame "CLEARML_WEB_HOST") in Hsettled by compute_done.
    rewrite Hor_a, Hor_s, Hta, Hts in Hsettled.
    apply Hsettled; auto. intros _ _. split.
    + intros Hconf. subst env6 env5. rewrite Hconf.
      destruct (str_truthy (env !! "CLEARML_S3_HOST")); simpl;
        [|rewrite s3_defaults_lookup by compute_done]; by env_lookup.
    + subst env6. destruct (str_truthy (env !! "CLEARML_S3_HOST")) eqn:Hs3;
        simpl; [|apply s3_defaults_host].
      subst env5 env4 env3 env2. rewrite Hta, Hts.
      destruct (conf_written host); by env_lookup.
Qed.

(** X28.  When [clearml] is importable the constructor leaves both host
    variables set to a text that starts with [http://] or [https://],
    whatever the credentials: a non-empty value that was there is kept if it
    has such a scheme and is prefixed with [http://] otherwise. *)
Theorem clearml_init_hosts host cfg env :
  task_imported host = true →
  ∃ a w,
    (clearml_init host cfg env).2 !! "CLEARML_API_HOST" = Some a ∧
    (clearml_init host cfg env).2 !! "CLEARML_WEB_HOST" = Some w ∧
    has_scheme a = true ∧ has_scheme w = true ∧
    (∀ v, env !! "CLEARML_API_HOST" = Some v → v ≠ "" →
       a = if has_scheme v then v else "http://" ++ v) ∧
    (∀ v, env !! "CLEARML_WEB_HOST" = Some v → v ≠ "" →
       w = if has_scheme v then v else "http://" ++ v).
Proof.
  intros Himp.
  destruct (clearml_init_unfold host cfg env Himp)
    as (a & w & Ha & Hw & Ha' & Hw' & Hrun).
  simpl in Hrun. rewrite Hrun. clear Hrun. exists a, w.
  assert (∀ (h : string) v, (if has_scheme v then h = v else h = "http://" ++ v) →
            h = if has_scheme v then v else "http://" ++ v) as Hif
    by (intros h v; by destruct (has_scheme v)).
  split_and!; [| |done|done|intros v ? ?; by apply Hif, Ha'
              |intros v ? ?; by apply Hif, Hw'].
  all: destruct (str_truthy (str_or _ (clearml_api_access_key cfg))),
    (str_truthy (str_or _ (clearml_api_secret_key cfg))); simpl;
    try by env_lookup.
  all: destruct (str_truthy (env !! "CLEARML_S3_HOST")); simpl;
    [|rewrite s3_defaults_lookup by compute_done];
    destruct (conf_written host); by env_lookup.
Qed.

Lemma str_or_falsy a b : str_truthy (str_or a b) = false → str_truthy a = false.
Proof. unfold str_or. by destruct (str_truthy a) eqn:Ha; [rewrite Ha|]. Qed.

Lemma clearml_init_keys host cfg env :
  task_imported host = true →
  let access_key :=
    str_or (env !! "CLEARML_API_ACCESS_KEY") (clearml_api_access_key cfg) in
  let secret_key :=
    str_or (env !! "CLEARML_API_SECRET_KEY") (clearml_api_secret_key cfg) in
  let env' := (clearml_init host cfg env).2 in
  (clearml_init host cfg env).1 =
    str_truthy access_key && str_truthy secret_key ∧
  str_truthy (env' !! "CLEARML_API_ACCESS_KEY") = str_truthy access_key ∧
  str_truthy (env' !! "CLEARML_API_SECRET_KEY") = str_truthy secret_key ∧
  (str_truthy access_key = true → env' !! "CLEARML_API_ACCESS_KEY" = access_key) ∧
  (str_truthy secret_key = true → env' !! "CLEARML_API_SECRET_KEY" = secret_key).
Proof.
  intros Himp access_key secret_key env'. subst env'.
  destruct (clearml_init_unfold host cfg env Himp)
    as (a & w & _ & _ & _ & _ & Hrun).
  simpl in Hrun. rewrite Hrun. clear Hrun. fold access_key secret_key.
  destruct (str_truthy access_key) eqn:Hta,
    (str_truthy secret_key) eqn:Hts; simpl.
  1: destruct (str_truthy (env !! "CLEARML_S3_HOST")); simpl;
       [|rewrite !s3_defaults_lookup by compute_done];
       destruct (conf_written host).
  all: env_lookup.
  all: rewrite ?(str_truthy_default _ Hta), ?(str_truthy_default _ Hts).
  all: rewrite ?Hta, ?Hts.
  all: try rewrite (str_or_falsy _ _ Hta).
  all: try rewrite (str_or_falsy _ _ Hts).
  all: done.
Qed.

(** X29.  The service is initialised exactly when [clearml] is importable
    and the environment the constructor leaves holds a non-empty access key
    and a non-empty secret key. *)
Theorem clearml_init_credentials host cfg env :
  (clearml_init host cfg env).1 = true ↔
  task_imported host = true ∧
  str_truthy ((clearml_init host cfg env).2 !! "CLEARML_API_ACCESS_KEY") = true ∧
  str_truthy ((clearml_init host cfg env).2 !! "CLEARML_API_SECRET_KEY") = true.
Proof.
  destruct (task_imported host) eqn:Himp.
  2:{ unfold clearml_init. rewrite Himp. simpl. by split; [|intros [? _]]. }
  destruct (clearml_init_keys host cfg env Himp) as (-> & -> & -> & _).
  rewrite andb_true_iff. by split; [|intros [_ ?]].
Qed.

(** X30.  The constructor leaves every other variable alone: a variable
    that is none of the two hosts, the two keys and the configuration file
    keeps its value, the six S3 variables included when [CLEARML_S3_HOST] was
    set to a non-empty text. *)
Theorem clearml_init_keeps host cfg env key :
  key ∉ ["CLEARML_API_HOST"; "CLEARML_WEB_HOST"; "CLEARML_API_ACCESS_KEY";
         "CLEARML_API_SECRET_KEY"; "CLEARML_CONFIG_FILE"] →
  str_truthy (env !! "CLEARML_S3_HOST") = true ∨
  key ∉ ["CLEARML_S3_HOST"; "CLEARML_S3_ACCESS_KEY"; "CLEARML_S3_SECRET_KEY";
         "CLEARML_S3_BUCKET"; "CLEARML_S3_REGION"; "CLEARML_S3_USE_HTTPS"] →
  (clearml_init host cfg env).2 !! key = env !! key.
Proof.
  intros Hkey Hs3.
  destruct (task_imported host) eqn:Himp.
  2:{ unfold clearml_init. by rewrite Himp. }
  destruct (clearml_init_unfold host cfg env Himp)
    as (a & w & _ & _ & _ & _ & Hrun).
  simpl in Hrun. rewrite Hrun. clear Hrun.
  rewrite !not_elem_of_cons in Hkey. destruct Hkey as (? & ? & ? & ? & ? & _).
  assert (∀ e : environ,
            (if str_truthy (env !! "CLEARML_S3_HOST") then e
             else s3_defaults host cfg e) !! key = e !! key) as Hs3'.
  { intros e. destruct Hs3 as [->|Hs3]; [done|].
    destruct (str_truthy _); [done|]. by apply s3_defaults_lookup. }
  destruct (str_truthy (str_or _ (clearml_api_access_key cfg))),
    (str_truthy (str_or _ (clearml_api_secret_key cfg))); simpl;
    try (by rewrite ?lookup_insert_ne by done).
  destruct (str_truthy (env !! "CLEARML_S3_HOST")) eqn:Hhost; simpl.
  - destruct (conf_written host); by rewrite ?lookup_insert_ne by done.
  - rewrite Hs3'.
    destruct (conf_written host); by rewrite ?lookup_insert_ne by done.
Qed.

(** ** The further statements on the concrete deployment *)

Lemma demo_service_keyed : keyed demo_service.
Proof.
  intros mid info. unfold demo_service. simpl.
  intros [[<- <-]|[_ [<- <-]%lookup_singleton_Some]]%lookup_insert_Some; done.
Qed.

Lemma demo_service_dated : dated demo_service.
Proof.
  intros mid info. unfold demo_service. simpl.
  intros [[<- <-]|[_ [<- <-]%lookup_singleton_Some]]%lookup_insert_Some;
    by eexists.
Qed.

Lemma demo_service_covered : covered demo_service.
Proof.
  split; [done|]. intros mid info. unfold demo_service. simpl.
  intros [[<- <-]|[Hne [<- <-]%lookup_singleton_Some]]%lookup_insert_Some;
    (eexists; split; [done|]).
  - apply lookup_insert_eq.
  - rewrite lookup_insert_ne by done. apply lookup_singleton_eq.
Qed.

Lemma demo_datasets_stamped : stamped demo_datasets.
Proof.
  intros id info. unfold demo_datasets. simpl.
  intros [[<- <-]|[_ [<- <-]%lookup_singleton_Some]]%lookup_insert_Some;
    by eexists.
Qed.

Lemma demo_datasets_mirrored : mirrored demo_datasets.
Proof. unfold mirrored. vm_compute. reflexivity. Qed.

Lemma train_model_without_tracker_witness :
  clearml_initialized demo_service_plain = false ∧
  train_model demo_world "random_forest" "d1" ∅ [] [] demo_service_plain =
    (Ok "m2", demo_plain_trained) ∧
  tracker_log demo_plain_trained = tracker_log demo_service_plain ∧
  ∃ info, get_model "m2" demo_plain_trained = Some info ∧
          clearml_model_id info = None.
Proof.
  assert (train_model demo_world "random_forest" "d1" ∅ [] []
            demo_service_plain = (Ok "m2", demo_plain_trained)) as H
    by (vm_compute; reflexivity).
  exact (conj eq_refl (conj H
    (train_model_without_tracker demo_world "random_forest" "d1" ∅ [] []
       demo_service_plain "m2" demo_plain_trained eq_refl H))).
Defined.

Lemma predict_after_train_witness :
  train_model demo_world "random_forest" "d1" ∅ [] [] demo_service_plain =
    (Ok "m2", demo_plain_trained) ∧
  _convert_features_to_list [Row [1%float]] = Ok [Row [1%float]] ∧
  ∃ model path st'',
    create_model "random_forest" ∅ = Ok model ∧
    path ∈ disk st'' ∧
    predict demo_world "m2" [Row [1%float]] demo_plain_trained =
      external "load" (load_predict demo_world model path [Row [1%float]]) st'' ∧
    (clearml_initialized demo_service_plain = false →
       path = path_join (models_dir demo_service_plain) ("m2" ++ ".pkl") ∧
       st'' = demo_plain_trained).
Proof.
  assert (train_model demo_world "random_forest" "d1" ∅ [] []
            demo_service_plain = (Ok "m2", demo_plain_trained)) as H
    by (vm_compute; reflexivity).
  exact (conj H (conj eq_refl
    (predict_after_train demo_world demo_world "random_forest" "d1" ∅ [] []
       demo_service_plain "m2" demo_plain_trained [Row [1%float]]
       [Row [1%float]] H eq_refl))).
Defined.

Lemma predict_keeps_registry_witness :
  predict demo_world_fetch "m0" [Row [1%float]] demo_service =
    (Ok [1%float],
     set_disk (λ d, {["models/m0_clearml.pkl"]} ∪ d) demo_service) ∧
  models (set_disk (λ d, {["models/m0_clearml.pkl"]} ∪ d) demo_service) =
    models demo_service ∧
  metadata_file (set_disk (λ d, {["models/m0_clearml.pkl"]} ∪ d) demo_service) =
    metadata_file demo_service ∧
  disk demo_service ⊆
    disk (set_disk (λ d, {["models/m0_clearml.pkl"]} ∪ d) demo_service) ∧
  (set_disk (λ d, {["models/m0_clearml.pkl"]} ∪ d) demo_service = demo_service ∨
   clearml_initialized demo_service = true ∧
   ∃ info c,
     get_model "m0" demo_service = Some info ∧
     clearml_model_id info = Some c ∧
     get_weights demo_world_fetch c = WeightsReturned true ∧
     set_disk (λ d, {["models/m0_clearml.pkl"]} ∪ d) demo_service =
       set_disk
         (λ d, {[path_join (models_dir demo_service) ("m0" ++ "_clearml.pkl")]} ∪ d)
         demo_service).
Proof.
  assert (predict demo_world_fetch "m0" [Row [1%float]] demo_service =
            (Ok [1%float],
             set_disk (λ d, {["models/m0_clearml.pkl"]} ∪ d) demo_service))
    as H by (vm_compute; reflexivity).
  exact (conj H
    (predict_keeps_registry demo_world_fetch "m0" [Row [1%float]] demo_service
       (Ok [1%float]) _ H)).
Defined.

Lemma predict_tracker_down_witness :
  clearml_initialized demo_service_plain = false ∧
  get_model "m0" demo_service_plain = Some demo_tracked ∧
  str_truthy (clearml_model_id demo_tracked) = true ∧
  _convert_features_to_list [Row [1%float]] = Ok [Row [1%float]] ∧
  create_model "random_forest" ∅ = Ok (RandomForestModel ∅) ∧
  predict demo_world "m0" [Row [1%float]] demo_service_plain =
    match existing (model_path demo_tracked) demo_service_plain with
    | Some p =>
        external "load"
          (load_predict demo_world (RandomForestModel ∅) p [Row [1%float]])
          demo_service_plain
    | None => (Raise (ValueError (ModelNotLoadable "m0")), demo_service_plain)
    end.
Proof.
  assert (get_model "m0" demo_service_plain = Some demo_tracked) as H
    by (vm_compute; reflexivity).
  exact (conj eq_refl (conj H (conj eq_refl (conj eq_refl (conj eq_refl
    (predict_tracker_down demo_world "m0" [Row [1%float]] demo_service_plain
       demo_tracked [Row [1%float]] (RandomForestModel ∅)
       eq_refl H eq_refl eq_refl eq_refl)))))).
Defined.

Lemma delete_model_twice_witness :
  get_model "m1" demo_service = Some demo_old ∧
  ∃ st1,
    delete_model "m1" demo_service = (Ok true, st1) ∧
    get_model "m1" st1 = None ∧
    (∀ other, other ≠ "m1" → get_model other st1 = get_model other demo_service) ∧
    (∀ p, model_path demo_old = Some p → p ≠ "" → p ∉ disk st1) ∧
    delete_model "m1" st1 = (Ok false, st1) ∧
    ∀ w features,
      predict w "m1" features st1 =
        (Raise (ValueError (ModelNotFound "m1")), st1).
Proof.
  assert (get_model "m1" demo_service = Some demo_old) as H
    by (vm_compute; reflexivity).
  exact (conj H (delete_model_twice "m1" demo_old demo_service H)).
Defined.

Lemma convert_records_rectangular_witness :
  _convert_features_to_list [Rec demo_first; Rec demo_second] =
    Ok [Row [1%float; 2%float]; Row [5%float; 0%float]] ∧
  demo_first ≠ ∅ ∧
  length [Row [1%float; 2%float]; Row [5%float; 0%float]] = 2%nat ∧
  Forall (λ row, ∃ xs, row = Row xs ∧ length xs = size demo_first)
    [Row [1%float; 2%float]; Row [5%float; 0%float]] ∧
  Forall (λ item, ∃ d, item = Rec d) [Rec demo_second].
Proof.
  assert (_convert_features_to_list [Rec demo_first; Rec demo_second] =
            Ok [Row [1%float; 2%float]; Row [5%float; 0%float]]) as H
    by (vm_compute; reflexivity).
  assert (demo_first ≠ ∅) as Hfirst
    by (intros Hempty; by apply (f_equal (lookup "a")) in Hempty).
  destruct (convert_records_rectangular demo_first [Rec demo_second] _ H)
    as (Hlen & Hrows & Hrecs).
  exact (conj H (conj Hfirst (conj Hlen (conj Hrows (Hrecs Hfirst))))).
Defined.

Lemma convert_mixed_samples_witness :
  demo_first ≠ ∅ ∧
  Exists (λ item, ∀ d, item ≠ Rec d) [Rec demo_second; Row [1%float]] ∧
  _convert_features_to_list [Rec demo_first; Rec demo_second; Row [1%float]] =
    Raise AttributeError ∧
  _convert_features_to_list [Rec ∅; Rec demo_second; Row [1%float]] =
    Ok [Row []; Row []; Row []].
Proof.
  assert (demo_first ≠ ∅) as Hfirst
    by (intros Hempty; by apply (f_equal (lookup "a")) in Hempty).
  assert (Exists (λ item, ∀ d, item ≠ Rec d) [Rec demo_second; Row [1%float]])
    as H by (apply Exists_cons_tl, Exists_cons_hd; discriminate).
  pose proof (convert_mixed_samples demo_first
                [Rec demo_second; Row [1%float]]) as [Hraise _].
  pose proof (convert_mixed_samples ∅ [Rec demo_second; Row [1%float]])
    as [_ Hempty].
  exact (conj Hfirst (conj H (conj (Hraise Hfirst H) (Hempty eq_refl)))).
Defined.

Lemma convert_idempotent_witness :
  _convert_features_to_list [Rec demo_first; Rec demo_second] =
    Ok [Row [1%float; 2%float]; Row [5%float; 0%float]] ∧
  _convert_features_to_list [Row [1%float; 2%float]; Row [5%float; 0%float]] =
    Ok [Row [1%float; 2%float]; Row [5%float; 0%float]].
Proof.
  assert (_convert_features_to_list [Rec demo_first; Rec demo_second] =
            Ok [Row [1%float; 2%float]; Row [5%float; 0%float]]) as H
    by (vm_compute; reflexivity).
  exact (conj H (convert_idempotent _ _ H)).
Defined.

Lemma model_calls_keep_invariants_witness :
  keyed demo_service ∧ dated demo_service ∧ covered demo_service ∧
  keyed (foldl after_call demo_service demo_calls) ∧
  dated (foldl after_call demo_service demo_calls) ∧
  covered (foldl after_call demo_service demo_calls).
Proof.
  pose proof (model_calls_keep_invariants demo_service demo_calls)
    as (Hk & Hd & Hc).
  exact (conj demo_service_keyed (conj demo_service_dated
    (conj demo_service_covered
       (conj (Hk demo_service_keyed)
          (conj (Hd demo_service_dated) (Hc demo_service_covered)))))).
Defined.

Lemma restart_restores_witness :
  covered demo_service ∧ dated demo_service ∧
  get_model "m1" demo_service = Some demo_old ∧
  get_model "m1" (restart demo_boot demo_service) = Some demo_old.
Proof.
  assert (get_model "m1" demo_service = Some demo_old) as H
    by (vm_compute; reflexivity).
  exact (conj demo_service_covered (conj demo_service_dated (conj H
    (restart_restores demo_boot demo_service "m1" demo_old
       demo_service_covered demo_service_dated H)))).
Defined.

Lemma deleted_model_returns_witness :
  covered demo_service ∧ dated demo_service ∧
  get_model "m1" demo_service = Some demo_old ∧
  get_model "m1" (delete_model "m1" demo_service).2 = None ∧
  get_model "m1" (restart demo_boot (delete_model "m1" demo_service).2) =
    Some demo_old.
Proof.
  assert (get_model "m1" demo_service = Some demo_old) as H
    by (vm_compute; reflexivity).
  exact (conj demo_service_covered (conj demo_service_dated (conj H
    (deleted_model_returns demo_boot demo_service "m1" demo_old
       demo_service_covered demo_service_dated H)))).
Defined.

Lemma train_then_get_witness :
  train_model demo_world "random_forest" "d1" ∅ [] [] demo_service_plain =
    (Ok "m2", demo_plain_trained) ∧
  ("random_forest" ∈ get_available_model_types) ∧
  ∃ info,
    get_model "m2" demo_plain_trained = Some info ∧
    model_id info = "m2" ∧ model_type info = "random_forest" ∧
    dataset_id info = "d1" ∧ hyperparameters info = ∅ ∧
    status info = "trained" ∧ created_at info = Datetime (now demo_world) ∧
    model_path info =
      Some (path_join (models_dir demo_service_plain) ("m2" ++ ".pkl")) ∧
    path_join (models_dir demo_service_plain) ("m2" ++ ".pkl") ∈
      disk demo_plain_trained.
Proof.
  assert (train_model demo_world "random_forest" "d1" ∅ [] []
            demo_service_plain = (Ok "m2", demo_plain_trained)) as H
    by (vm_compute; reflexivity).
  exact (conj H
    (train_then_get demo_world "random_forest" "d1" ∅ [] []
       demo_service_plain "m2" demo_plain_trained H)).
Defined.

Lemma retrain_model_record_witness :
  get_model "zz" demo_service = None ∧
  retrain_model demo_world "zz" "d2" None [] [] demo_service =
    (Raise (ValueError (ModelNotFound "zz")), demo_service) ∧
  get_model "m1" demo_service = Some demo_old ∧
  retrain_model demo_world "m1" "d2" None [] [] demo_service =
    (Ok "m2", demo_retrained) ∧
  ∃ new,
    get_model "m2" demo_retrained = Some new ∧
    model_type new = model_type demo_old ∧ dataset_id new = "d2" ∧
    hyperparameters new = hyperparameters demo_old.
Proof.
  pose proof (retrain_model_record demo_world "zz" "d2" None [] [] demo_service)
    as [Hunknown _].
  pose proof (retrain_model_record demo_world "m1" "d2" None [] [] demo_service)
    as [_ Hknown].
  assert (get_model "zz" demo_service = None) as Hzz
    by (vm_compute; reflexivity).
  assert (get_model "m1" demo_service = Some demo_old) as Hold
    by (vm_compute; reflexivity).
  assert (retrain_model demo_world "m1" "d2" None [] [] demo_service =
            (Ok "m2", demo_retrained)) as Hrun by (vm_compute; reflexivity).
  destruct (Hknown demo_old "m2" demo_retrained Hold Hrun)
    as (new & Hget & Htype & Hds & _ & Hhp).
  exact (conj Hzz (conj (Hunknown Hzz) (conj Hold (conj Hrun
    (ex_intro _ new (conj Hget (conj Htype (conj Hds (Hhp eq_refl))))))))).
Defined.

Lemma train_model_unparsable_metadata_witness :
  metadata_file demo_service_corrupt = FileCorrupt ∧
  train_model demo_world "random_forest" "d1" ∅ [] [] demo_service_corrupt =
    (Ok "m2", demo_corrupt_trained) ∧
  is_Some (get_model "m2" demo_corrupt_trained) ∧
  metadata_file demo_corrupt_trained = FileCorrupt ∧
  (∀ names, listdir demo_boot = Some names → "m2" ++ ".pkl" ∈ names →
     get_model "m2" (restart demo_boot demo_corrupt_trained) =
       Some (placeholder demo_boot (models_dir demo_service_corrupt)
               ("m2" ++ ".pkl") "m2")).
Proof.
  assert (train_model demo_world "random_forest" "d1" ∅ [] []
            demo_service_corrupt = (Ok "m2", demo_corrupt_trained)) as H
    by (vm_compute; reflexivity).
  exact (conj eq_refl (conj H
    (train_model_unparsable_metadata demo_boot demo_world "random_forest" "d1"
       ∅ [] [] demo_service_corrupt "m2" demo_corrupt_trained eq_refl H))).
Defined.

Lemma add_dataset_token_witness :
  Dataset.add_dataset demo_data_world "data/d9.csv" demo_datasets =
    (Ok (Some "0123456789abcdef"), demo_added) ∧
  "0123456789abcdef" ≠ "" ∧ (String.length "0123456789abcdef" ≤ 16)%nat ∧
  ∃ text md5,
    Dataset.disk demo_added !! ("data/d9.csv" ++ ".dvc") = Some text ∧
    Dataset.outs_md5 demo_data_world text = Some md5 ∧
    "0123456789abcdef" = String.substring 0 16 md5.
Proof.
  assert (Dataset.add_dataset demo_data_world "data/d9.csv" demo_datasets =
            (Ok (Some "0123456789abcdef"), demo_added)) as H
    by (vm_compute; reflexivity).
  exact (conj H
    (add_dataset_token demo_data_world "data/d9.csv" demo_datasets
       "0123456789abcdef" demo_added H)).
Defined.

Lemma upload_then_get_witness :
  Dataset.dvc_add demo_data_world
    (path_join (Dataset.datasets_dir demo_datasets)
       (Dataset.uuid4 demo_data_world ++ "." ++ "csv")) ≠ Dataset.OSError ∧
  ∃ id st' info,
    Dataset.upload_dataset demo_data_world "new.csv" "x,y" "csv"
      demo_datasets = (Ok id, st') ∧
    Dataset.get_dataset id st' = Some info ∧
    Dataset.dataset_id info = id ∧ Dataset.file_name info = "new.csv" ∧
    Dataset.format info = "csv" ∧
    Dataset.size info = String.length "x,y" ∧
    Dataset.disk st' !! Dataset.filepath info = Some "x,y".
Proof.
  assert (Dataset.dvc_add demo_data_world
            (path_join (Dataset.datasets_dir demo_datasets)
               (Dataset.uuid4 demo_data_world ++ "." ++ "csv")) ≠
          Dataset.OSError) as H by (vm_compute; discriminate).
  exact (conj H
    (upload_then_get demo_data_world "new.csv" "x,y" "csv" demo_datasets H)).
Defined.

Lemma upload_then_load_witness :
  Dataset.dvc_add demo_data_world
    (path_join (Dataset.datasets_dir demo_datasets)
       (Dataset.uuid4 demo_data_world ++ "." ++ "csv")) ≠ Dataset.OSError ∧
  Dataset.upload_dataset demo_data_world "new.csv" "x,y" "csv" demo_datasets =
    (Ok "d9", demo_uploaded) ∧
  parsed demo_data_world "csv" "x,y" = Some demo_table ∧
  Dataset.load_dataset demo_data_world "d9" demo_uploaded =
    (Ok ([[PyFloat 1; PyFloat 2.5]; [PyFloat 4; PyFloat 5.5]],
         [PyInt 3; PyInt 6]), demo_uploaded).
Proof.
  assert (Dataset.dvc_add demo_data_world
            (path_join (Dataset.datasets_dir demo_datasets)
               (Dataset.uuid4 demo_data_world ++ "." ++ "csv")) ≠
          Dataset.OSError) as H by (vm_compute; discriminate).
  assert (Dataset.upload_dataset demo_data_world "new.csv" "x,y" "csv"
            demo_datasets = (Ok "d9", demo_uploaded)) as Hrun
    by (vm_compute; reflexivity).
  assert (parsed demo_data_world "csv" "x,y" = Some demo_table) as Hparsed
    by (vm_compute; reflexivity).
  pose proof (upload_then_load demo_data_world demo_data_world "new.csv" "x,y"
                "csv" demo_datasets "d9" demo_uploaded H Hrun) as [_ Hload].
  exact (conj H (conj Hrun (conj Hparsed (Hload demo_table Hparsed)))).
Defined.

Lemma delete_dataset_twice_witness :
  Dataset.get_dataset "d1" demo_datasets = Some demo_csv ∧
  ∃ st1,
    Dataset.delete_dataset "d1" demo_datasets = (Ok true, st1) ∧
    Dataset.get_dataset "d1" st1 = None ∧
    (∀ other, other ≠ "d1" →
       Dataset.get_dataset other st1 = Dataset.get_dataset other demo_datasets) ∧
    Dataset.disk st1 !! Dataset.filepath demo_csv = None ∧
    Dataset.disk st1 !! (Dataset.filepath demo_csv ++ ".dvc") = None ∧
    Dataset.metadata_file st1 =
      FileJson (Dataset.to_json <$> Dataset.datasets st1) ∧
    Dataset.delete_dataset "d1" st1 = (Ok false, st1) ∧
    ∀ w, Dataset.load_dataset w "d1" st1 =
           (Raise (ValueError (DatasetNotFound "d1")), st1).
Proof.
  assert (Dataset.get_dataset "d1" demo_datasets = Some demo_csv) as H
    by (vm_compute; reflexivity).
  exact (conj H (delete_dataset_twice "d1" demo_csv demo_datasets H)).
Defined.

Lemma load_dataset_missing_file_witness :
  Dataset.get_dataset "d1" demo_datasets_lost = Some demo_csv ∧
  Dataset.disk demo_datasets_lost !! Dataset.filepath demo_csv = None ∧
  Dataset.load_dataset demo_data_world "d1" demo_datasets_lost =
    (Raise (ValueError (DatasetNotPulled "d1")), demo_datasets_lost) ∧
  Dataset.load_dataset demo_data_world_no_dvc "d1" demo_datasets_lost =
    (Raise (ExternalError "subprocess.run"), demo_datasets_lost) ∧
  Dataset.load_dataset demo_data_world_empty_pull "d1" demo_datasets_lost =
    (Raise (ExternalError "FileNotFoundError"), demo_datasets_lost).
Proof.
  assert (Dataset.get_dataset "d1" demo_datasets_lost = Some demo_csv) as H
    by (vm_compute; reflexivity).
  assert (Dataset.disk demo_datasets_lost !! Dataset.filepath demo_csv = None)
    as Hdisk by (vm_compute; reflexivity).
  pose proof (load_dataset_missing_file demo_data_world "d1" demo_csv
                demo_datasets_lost H Hdisk) as (Hfailed & _ & _).
  pose proof (load_dataset_missing_file demo_data_world_no_dvc "d1" demo_csv
                demo_datasets_lost H Hdisk) as (_ & Hmissing & _).
  pose proof (load_dataset_missing_file demo_data_world_empty_pull "d1"
                demo_csv demo_datasets_lost H Hdisk) as (_ & _ & Hempty).
  exact (conj H (conj Hdisk (conj (Hfailed eq_refl) (conj (Hmissing eq_refl)
    (Hempty eq_refl (or_introl eq_refl)))))).
Defined.

Lemma dataset_calls_keep_invariants_witness :
  mirrored demo_datasets ∧ stamped demo_datasets ∧
  mirrored (foldl after_dataset_call demo_datasets demo_dataset_calls) ∧
  stamped (foldl after_dataset_call demo_datasets demo_dataset_calls).
Proof.
  pose proof (dataset_calls_keep_invariants demo_datasets demo_dataset_calls)
    as [Hm Hs].
  exact (conj demo_datasets_mirrored (conj demo_datasets_stamped
    (conj (Hm demo_datasets_mirrored) (Hs demo_datasets_stamped)))).
Defined.

Lemma dataset_restart_restores_witness :
  mirrored demo_datasets ∧ stamped demo_datasets ∧
  Dataset.datasets (dataset_restart demo_datasets) =
    Dataset.datasets demo_datasets.
Proof.
  exact (conj demo_datasets_mirrored (conj demo_datasets_stamped
    (dataset_restart_restores demo_datasets demo_datasets_mirrored
       demo_datasets_stamped))).
Defined.

Lemma demo_scores_items :
  dict_items demo_world_scores demo_scores ≡ₚ map_to_list demo_scores.
Proof.
  assert (dict_items demo_world_scores demo_scores =
          reverse (map_to_list demo_scores)) as ->
    by (vm_compute; reflexivity).
  apply reverse_Permutation.
Qed.

Lemma demo_scores_float_range : float_range demo_scores.
Proof.
  intros key z. unfold demo_scores.
  intros [[_ [=]]|[_ [[_ [= <-]]|[_ [[_ [=]]|[_ []%lookup_empty_Some]]
    %lookup_insert_Some]]%lookup_insert_Some]]%lookup_insert_Some.
  reflexivity.
Qed.

Lemma train_model_tracker_log_witness :
  clearml_initialized demo_service = true ∧
  create_model "linear" ∅ = Ok (LinearModel ∅) ∧
  fit demo_world_scores (LinearModel ∅) [] [] = Some demo_scores ∧
  dict_items demo_world_scores demo_scores ≡ₚ map_to_list demo_scores ∧
  float_range demo_scores ∧
  train_model demo_world_scores "linear" "d1" ∅ [] [] demo_service =
    (Ok "m2", demo_scores_trained) ∧
  tracker_log demo_scores_trained =
    [progress_mark;
     {| title := "Training Metrics"; series := "r2_score";
        value := neg_infinity; iteration := 1 |};
     {| title := "Training Metrics"; series := "mae"; value := 1;
        iteration := 1 |};
     {| title := "Training Metrics"; series := "mse"; value := 0.25;
        iteration := 1 |};
     {| title := "Final Metrics"; series := "r2_score";
        value := neg_infinity; iteration := 2 |};
     {| title := "Final Metrics"; series := "mae"; value := 1;
        iteration := 2 |};
     {| title := "Final Metrics"; series := "mse"; value := 0.25;
        iteration := 2 |}] ∧
  tracker_log demo_retry_trained =
    [{| title := "Final Metrics"; series := "r2_score";
        value := neg_infinity; iteration := 2 |};
     {| title := "Final Metrics"; series := "mae"; value := 1;
        iteration := 2 |};
     {| title := "Final Metrics"; series := "mse"; value := 0.25;
        iteration := 2 |}].
Proof.
  assert (train_model demo_world_scores "linear" "d1" ∅ [] [] demo_service =
            (Ok "m2", demo_scores_trained)) as H by (vm_compute; reflexivity).
  assert (train_model demo_world_retry "linear" "d1" ∅ [] [] demo_service =
            (Ok "m2", demo_retry_trained)) as H' by (vm_compute; reflexivity).
  exact (conj eq_refl (conj eq_refl (conj eq_refl (conj demo_scores_items
    (conj demo_scores_float_range (conj H (conj
      (train_model_tracker_log demo_world_scores "linear" "d1" ∅ [] []
         demo_service "m2" demo_scores_trained (LinearModel ∅) demo_scores
         eq_refl eq_refl eq_refl demo_scores_items demo_scores_float_range H)
      (train_model_tracker_log demo_world_retry "linear" "d1" ∅ [] []
         demo_service "m2" demo_retry_trained (LinearModel ∅) demo_scores
         eq_refl eq_refl eq_refl demo_scores_items demo_scores_float_range
         H')))))))).
Defined.

Lemma stored_metric_reported_witness :
  clearml_initialized demo_service = true ∧
  create_model "linear" ∅ = Ok (LinearModel ∅) ∧
  fit demo_world_scores (LinearModel ∅) [] [] = Some demo_scores ∧
  dict_items demo_world_scores demo_scores ≡ₚ map_to_list demo_scores ∧
  float_range demo_scores ∧
  train_model demo_world_scores "linear" "d1" ∅ [] [] demo_service =
    (Ok "m2", demo_scores_trained) ∧
  get_model "m2" demo_scores_trained = Some demo_scores_record ∧
  stored_metric demo_scores_record "mae" = Some (MInt 1) ∧
  is_Some (task_init demo_world_scores) ∧
  {| title := "Training Metrics"; series := "mae"; value := 1;
     iteration := 1 |} ∈ tracker_log demo_scores_trained ∧
  {| title := "Final Metrics"; series := "mae"; value := 1;
     iteration := 2 |} ∈ tracker_log demo_scores_trained.
Proof.
  assert (train_model demo_world_scores "linear" "d1" ∅ [] [] demo_service =
            (Ok "m2", demo_scores_trained)) as H by (vm_compute; reflexivity).
  assert (get_model "m2" demo_scores_trained = Some demo_scores_record)
    as Hget by (vm_compute; reflexivity).
  assert (stored_metric demo_scores_record "mae" = Some (MInt 1)) as Hstored
    by (vm_compute; reflexivity).
  assert (is_Some (task_init demo_world_scores)) as Htask by (by eexists).
  destruct (stored_metric_reported demo_world_scores "linear" "d1" ∅ [] []
              demo_service "m2" demo_scores_trained (LinearModel ∅)
              demo_scores demo_scores_record "mae" (MInt 1)
              eq_refl eq_refl eq_refl demo_scores_items
              demo_scores_float_range H Hget Hstored) as [Htraining Hfinal].
  exact (conj eq_refl (conj eq_refl (conj eq_refl (conj demo_scores_items
    (conj demo_scores_float_range (conj H (conj Hget (conj Hstored
      (conj Htask (conj (Htraining Htask)
         (Hfinal (or_introl Htask)))))))))))).
Defined.

Lemma clearml_init_hosts_witness :
  task_imported demo_host = true ∧
  ∃ a w,
    (clearml_init demo_host demo_settings demo_environ).2
      !! "CLEARML_API_HOST" = Some a ∧
    (clearml_init demo_host demo_settings demo_environ).2
      !! "CLEARML_WEB_HOST" = Some w ∧
    has_scheme a = true ∧ has_scheme w = true ∧
    (∀ v, demo_environ !! "CLEARML_API_HOST" = Some v → v ≠ "" →
       a = if has_scheme v then v else "http://" ++ v) ∧
    (∀ v, demo_environ !! "CLEARML_WEB_HOST" = Some v → v ≠ "" →
       w = if has_scheme v then v else "http://" ++ v).
Proof.
  exact (conj eq_refl
    (clearml_init_hosts demo_host demo_settings demo_environ eq_refl)).
Defined.

Lemma clearml_init_keeps_witness :
  ("CLEARML_S3_BUCKET" ∉
     ["CLEARML_API_HOST"; "CLEARML_WEB_HOST"; "CLEARML_API_ACCESS_KEY";
      "CLEARML_API_SECRET_KEY"; "CLEARML_CONFIG_FILE"]) ∧
  str_truthy (<["CLEARML_S3_HOST" := "s3:9000"]> demo_environ
                !! "CLEARML_S3_HOST") = true ∧
  (clearml_init demo_host demo_settings
     (<["CLEARML_S3_HOST" := "s3:9000"]> demo_environ)).2
    !! "CLEARML_S3_BUCKET" =
  <["CLEARML_S3_HOST" := "s3:9000"]> demo_environ !! "CLEARML_S3_BUCKET".
Proof.
  assert ("CLEARML_S3_BUCKET" ∉
            ["CLEARML_API_HOST"; "CLEARML_WEB_HOST"; "CLEARML_API_ACCESS_KEY";
             "CLEARML_API_SECRET_KEY"; "CLEARML_CONFIG_FILE"]) as Hkey
    by compute_done.
  assert (str_truthy (<["CLEARML_S3_HOST" := "s3:9000"]> demo_environ
                        !! "CLEARML_S3_HOST") = true) as Hs3
    by (vm_compute; reflexivity).
  exact (conj Hkey (conj Hs3
    (clearml_init_keeps demo_host demo_settings
       (<["CLEARML_S3_HOST" := "s3:9000"]> demo_environ) "CLEARML_S3_BUCKET"
       Hkey (or_introl Hs3)))).
Defined.
